(** * DeepWiki-OMR: entity models and the repository data-access layer

    A shallow embedding of the Python sources

      - [api/モデル/ページ.py]      (page classification),
      - [api/モデル/ジョブ.py]      (job model, validators, DynamoDB codec),
      - [api/モデル/リポジトリ.py]  (repository model, URL grammar),
      - [api/リポジトリ/DynamoDB基底.py] (conditional store wrapper),
      - [api/リポジトリ/リポジトリリポジトリ.py] (repository entity manager),

    followed by the properties established about them.

    Conventions.  A Python [str] is a [string] whose characters stand for
    code points below 256.  A Python [int] is a [Z].  A [dict] is a [gmap].
    [None] is [None] of an option type.  An exception is a value of [Exn];
    code that can raise returns a [Result].  Code that talks to the table
    runs in the state monad [M] over the table. *)

From Stdlib Require Import ZArith Ascii String List Bool Lia.
From Stdlib Require Import DecimalString DecimalZ Sorting.Sorted.
From stdpp Require Import base option list gmap strings.

Open Scope string_scope.
Open Scope Z_scope.

(* ===================================================================== *)
(** * Part I: definitions                                                  *)
(* ===================================================================== *)

(** ** Python string primitives *)

Module PyStr.

  (** [str.lower] on code points below 256: ASCII capitals and the
      Latin-1 capitals (U+00C0..U+00DE, the multiplication sign apart). *)
Definition lower_char (c : ascii) : ascii :=
  let n := nat_of_ascii c in
  if ((65 <=? n)%nat && (n <=? 90)%nat)
     || ((192 <=? n)%nat && (n <=? 222)%nat && negb (n =? 215)%nat)
  then ascii_of_nat (n + 32) else c.

Fixpoint lower (s : string) : string :=
  match s with
  | EmptyString => EmptyString
  | String c s' => String (lower_char c) (lower s')
  end.

  (** [sub in s] *)
Fixpoint contains (sub s : string) : bool :=
  String.prefix sub s
  || match s with
     | EmptyString => false
     | String _ s' => contains sub s'
     end.

  (** [s.startswith(p)] *)
Definition startswith (p s : string) : bool := String.prefix p s.

  (** [s.endswith(suf)] *)
Fixpoint endswith (suf s : string) : bool :=
  String.eqb s suf
  || match s with
     | EmptyString => false
     | String _ s' => endswith suf s'
     end.

  (** [s.endswith((suf1, suf2, ...))] *)
Definition endswith_any (sufs : list string) (s : string) : bool :=
  existsb (fun suf => endswith suf s) sufs.

  (** [s.split(sep)] for a one-character separator. *)
Fixpoint split (sep : ascii) (s : string) : list string :=
  match s with
  | EmptyString => [EmptyString]
  | String c s' =>
      if Ascii.eqb c sep then EmptyString :: split sep s'
      else match split sep s' with
           | h :: t => String c h :: t
           | [] => [String c EmptyString]
           end
  end.

  (** [l[-1]] on the (never empty) result of [split]. *)
Definition last_item (l : list string) : string := List.last l EmptyString.

  (** Truth value of a string: [bool(s)]. *)
Definition truthy (s : string) : bool :=
  match s with EmptyString => false | _ => true end.

  (** [str.isspace] on one code point below 256. *)
Definition is_space (c : ascii) : bool :=
  let n := nat_of_ascii c in
  ((9 <=? n)%nat && (n <=? 13)%nat) || ((28 <=? n)%nat && (n <=? 32)%nat)
  || (n =? 133)%nat || (n =? 160)%nat.

Fixpoint lstrip (s : string) : string :=
  match s with
  | EmptyString => EmptyString
  | String c s' => if is_space c then lstrip s' else s
  end.

  (** [rstrip] keeps a character when it is not a space or when something
      survives to its right. *)
Fixpoint rstrip (s : string) : string :=
  match s with
  | EmptyString => EmptyString
  | String c s' =>
      match rstrip s' with
      | EmptyString => if is_space c then EmptyString else String c EmptyString
      | r => String c r
      end
  end.

  (** No space in front. *)
Definition no_leading_space (s : string) : Prop :=
  match s with
  | EmptyString => True
  | String c _ => is_space c = false
  end.

  (** [s.strip()] *)
Definition strip (s : string) : string := rstrip (lstrip s).

  (** [len(s)] *)
Definition len (s : string) : Z := Z.of_nat (String.length s).

End PyStr.

(** ** Python values, exceptions and results *)

Module Py.

  (** The exception classes the sources raise or catch.  The classes of
      [DynamoDB基底.py] keep their names; [ClientError] carries the error
      code of the service response. *)
Inductive Exn : Set :=
  | ClientError (code : string)
  | DynamoDB例外
  | DynamoDB接続エラー
  | DynamDBアイテム未発見エラー
  | DynamoDB条件チェックエラー
  | ValidationError
  | ValueError
  | KeyError (key : string)
  | TypeError.

Inductive Result (A : Type) : Type :=
  | Return (a : A)
  | Raise (e : Exn).
Arguments Return {A} a.
Arguments Raise {A} e.

#[global] Instance Result_ret : MRet Result := fun A a => Return a.
#[global] Instance Result_bind : MBind Result := fun A B f r =>
  match r with
  | Return a => f a
  | Raise e => Raise e
  end.
#[global] Instance Result_fmap : FMap Result := fun A B f r =>
  match r with
  | Return a => Return (f a)
  | Raise e => Raise e
  end.

  (** An attribute value of a DynamoDB item as boto3 hands it to Python.
      A free-form dictionary attribute is kept flat. *)
Inductive Value : Type :=
  | VNull
  | VBool (b : bool)
  | VNum (n : Z)
  | VStr (s : string)
  | VMap (m : gmap string string).

#[global] Instance Value_eq_dec : EqDecision Value.
Proof. solve_decision. Defined.

  (** [bool(v)] *)
Definition truthy (v : Value) : bool :=
  match v with
  | VNull => false
  | VBool b => b
  | VNum n => negb (n =? 0)
  | VStr s => PyStr.truthy s
  | VMap m => negb (bool_decide (m = ∅))
  end.

  (** [d[k]] *)
Definition getitem (d : gmap string Value) (k : string) : Result Value :=
  match d !! k with
  | Some v => Return v
  | None => Raise (KeyError k)
  end.

  (** [d.get(k, default)] *)
Definition get (d : gmap string Value) (k : string) (default : Value) : Value :=
  match d !! k with
  | Some v => v
  | None => default
  end.

  (** [d.get(k)] used as a condition: absent counts as [None]. *)
Definition get_truthy (d : gmap string Value) (k : string) : bool :=
  truthy (get d k VNull).

  (** What pydantic accepts for a field annotated [str], [int], [bool],
      [Optional[...]] or a dictionary, on the value types the serialisers
      of this code base write; any other value is a validation error. *)
Definition as_str (v : Value) : Result string :=
  match v with VStr s => Return s | _ => Raise ValidationError end.
Definition as_int (v : Value) : Result Z :=
  match v with VNum n => Return n | _ => Raise ValidationError end.
Definition as_bool (v : Value) : Result bool :=
  match v with VBool b => Return b | _ => Raise ValidationError end.
Definition as_opt_str (v : Value) : Result (option string) :=
  match v with
  | VNull => Return None
  | VStr s => Return (Some s)
  | _ => Raise ValidationError
  end.
Definition as_opt_int (v : Value) : Result (option Z) :=
  match v with
  | VNull => Return None
  | VNum n => Return (Some n)
  | _ => Raise ValidationError
  end.
Definition as_opt_map (v : Value) : Result (option (gmap string string)) :=
  match v with
  | VNull => Return None
  | VMap m => Return (Some m)
  | _ => Raise ValidationError
  end.

  (** How an optional field is written into an item. *)
Definition of_opt_int (o : option Z) : Value :=
  match o with Some n => VNum n | None => VNull end.
Definition of_opt_map (o : option (gmap string string)) : Value :=
  match o with Some m => VMap m | None => VNull end.

  (** [bool(x)] for an optional string and an optional integer. *)
Definition opt_str_truthy (o : option string) : bool :=
  match o with Some s => PyStr.truthy s | None => false end.
Definition opt_int_truthy (o : option Z) : bool :=
  match o with Some n => negb (n =? 0) | None => false end.

  (** An [Enum] class with string values: its members in definition order
      and the value of each.  [E(s)] looks the member up by value. *)
Class StrEnum (E : Type) := {
  members : list E;
  value : E -> string
}.

Definition enum_call {E} `{StrEnum E} (s : string) : Result E :=
  match List.find (fun m => String.eqb (value m) s) members with
  | Some m => Return m
  | None => Raise ValueError
  end.

  (** [E(v)] on an attribute value: only a string can be a member's value. *)
Definition enum_call_value {E} `{StrEnum E} (v : Value) : Result E :=
  match v with
  | VStr s => enum_call s
  | _ => Raise ValueError
  end.

  (** An argument for an enum-typed field of a pydantic model: a member,
      or a raw string that pydantic looks up by value. *)
Inductive EnumArg (E : Type) : Type :=
  | Member (e : E)
  | ByValue (s : string).
Arguments Member {E} e.
Arguments ByValue {E} s.

Definition coerce_enum {E} `{StrEnum E} (a : EnumArg E) : Result E :=
  match a with
  | Member e => Return e
  | ByValue s =>
      match enum_call s with
      | Return e => Return e
      | Raise _ => Raise ValidationError
      end
  end.

  (** A naive [datetime]: microseconds on the local time line. *)
Definition datetime : Set := Z.

  (** [timedelta(days=n)] *)
Definition timedelta_days (n : Z) : Z := n * 86400 * 1000000.

  (** The parts of [datetime] that depend on the text format and on the
      time zone of the process: [isoformat], its inverse [fromisoformat]
      ([None] stands for [ValueError]) and [int(dt.timestamp())].  The two
      laws are the ones the library documents: [fromisoformat] inverts
      [isoformat], whose output is never the empty string. *)
Class Calendar := {
  isoformat : datetime -> string;
  fromisoformat : string -> option datetime;
  epoch_seconds : datetime -> Z;
  fromisoformat_isoformat : forall t, fromisoformat (isoformat t) = Some t;
  isoformat_truthy : forall t, PyStr.truthy (isoformat t) = true
}.

  (** The clock: the n-th reading of [datetime.now()] made during a call. *)
Definition Clock : Set := nat -> datetime.

  (** [datetime.fromisoformat(v)] on an attribute value. *)
Definition parse_datetime `{Calendar} (v : Value) : Result datetime :=
  match v with
  | VStr s =>
      match fromisoformat s with
      | Some t => Return t
      | None => Raise ValueError
      end
  | _ => Raise TypeError
  end.

  (** [datetime.fromisoformat(d[k]) if d.get(k) else None] *)
Definition parse_datetime_if_present `{Calendar}
    (d : gmap string Value) (k : string) : Result (option datetime) :=
  if get_truthy d k
  then t ← (v ← getitem d k; parse_datetime v); Return (Some t)
  else Return None.

  (** The exceptions a computation can raise all satisfy [P]. *)
Definition raises_only {A} (P : Exn -> Prop) (r : Result A) : Prop :=
  forall e, r = Raise e -> P e.

  (** The exceptions of the model layer: lookups, parsing, validation. *)
Definition model_error (e : Exn) : Prop :=
  match e with
  | KeyError _ | ValueError | TypeError | ValidationError => True
  | _ => False
  end.

End Py.

(** ** Page model: [api/モデル/ページ.py] *)

Module Page.

Inductive ページ種別 : Set := README | CODE | DIRECTORY | API | GUIDE.

  (** [ソースパスから種別を推定]: the if/elif chain of the source. *)
Definition ソースパスから種別を推定 (ソースパス : string) : ページ種別 :=
  let パス_小文字 := PyStr.lower ソースパス in
  if PyStr.contains "readme" パス_小文字 then README
  else if PyStr.endswith_any
            [".py"; ".js"; ".ts"; ".java"; ".cpp"; ".c"; ".go"; ".rs"]
            パス_小文字 then CODE
  else if PyStr.contains "api" パス_小文字
          || PyStr.contains "swagger" パス_小文字
          || PyStr.contains "openapi" パス_小文字 then API
  else if PyStr.contains "doc" パス_小文字
          || PyStr.contains "guide" パス_小文字
          || PyStr.contains "tutorial" パス_小文字 then GUIDE
  else if PyStr.contains "/" パス_小文字
          && negb (PyStr.truthy
                     (PyStr.last_item (PyStr.split "/"%char パス_小文字)))
       then DIRECTORY
  else CODE.

  (** [重要度を推定] *)
Definition 重要度を推定 (ソースパス コンテンツ : string) : string :=
  let パス_小文字 := PyStr.lower ソースパス in
  if existsb (fun キーワード => PyStr.contains キーワード パス_小文字)
       ["readme"; "main"; "index"; "app"; "server"; "client"; "api"]
  then "high"
  else if PyStr.len コンテンツ >? 5000 then "high"
  else if PyStr.len コンテンツ >? 1000 then "medium"
  else "low".





End Page.

(** ** Job model: [api/モデル/ジョブ.py] *)

Module Job.
  Import Py.

Inductive ジョブ種別 : Set :=
  PARSE_FULL | PARSE_INCREMENTAL | WEBHOOK_PROCESS | CLEANUP.

Inductive ジョブステータス : Set :=
  PENDING | RUNNING | COMPLETED | FAILED | CANCELLED.

Inductive ジョブ優先度 : Set := HIGH | NORMAL | LOW.

#[global] Instance ジョブ種別_enum : StrEnum ジョブ種別 := {|
  members := [PARSE_FULL; PARSE_INCREMENTAL; WEBHOOK_PROCESS; CLEANUP];
  value m := match m with
             | PARSE_FULL => "PARSE_FULL"
             | PARSE_INCREMENTAL => "PARSE_INCREMENTAL"
             | WEBHOOK_PROCESS => "WEBHOOK_PROCESS"
             | CLEANUP => "CLEANUP"
             end
|}.

#[global] Instance ジョブステータス_enum : StrEnum ジョブステータス := {|
  members := [PENDING; RUNNING; COMPLETED; FAILED; CANCELLED];
  value m := match m with
             | PENDING => "PENDING"
             | RUNNING => "RUNNING"
             | COMPLETED => "COMPLETED"
             | FAILED => "FAILED"
             | CANCELLED => "CANCELLED"
             end
|}.

#[global] Instance ジョブ優先度_enum : StrEnum ジョブ優先度 := {|
  members := [HIGH; NORMAL; LOW];
  value m := match m with
             | HIGH => "HIGH"
             | NORMAL => "NORMAL"
             | LOW => "LOW"
             end
|}.

  (** The model [ジョブ]: one field per declared attribute. *)
Record ジョブ : Type := {
  ジョブID : string;
  リポジトリID : string;
  種別 : ジョブ種別;
  ステータス : ジョブステータス;
  優先度 : ジョブ優先度;
  開始日時 : option datetime;
  完了日時 : option datetime;
  作成日時 : datetime;
  更新日時 : datetime;
  TTL : option Z;
  実行者 : option string;
  エラーメッセージ : option string;
  進捗率 : Z;
  処理済みファイル数 : Z;
  総ファイル数 : option Z;
  入力パラメータ : option (gmap string string);
  出力結果 : option (gmap string string);
  メタデータ : option (gmap string string)
}.

  (** The keyword arguments of [ジョブ(...)].  A field with a default is
      [None] when the caller leaves it out; for a field that is itself
      optional with a [dict] default, [Some None] is an explicit [None]. *)
Record 引数 : Type := {
  引数_ジョブID : string;
  引数_リポジトリID : string;
  引数_種別 : EnumArg ジョブ種別;
  引数_ステータス : option (EnumArg ジョブステータス);
  引数_優先度 : option (EnumArg ジョブ優先度);
  引数_開始日時 : option datetime;
  引数_完了日時 : option datetime;
  引数_作成日時 : option datetime;
  引数_更新日時 : option datetime;
  引数_TTL : option Z;
  引数_実行者 : option string;
  引数_エラーメッセージ : option string;
  引数_進捗率 : option Z;
  引数_処理済みファイル数 : option Z;
  引数_総ファイル数 : option Z;
  引数_入力パラメータ : option (option (gmap string string));
  引数_出力結果 : option (option (gmap string string));
  引数_メタデータ : option (option (gmap string string))
}.

  (** [@validator('進捗率')] of [ジョブ] *)
Definition 進捗率妥当性を検証 (v : Z) : Result Z :=
  if (v <? 0) || (v >? 100) then Raise ValueError else Return v.

  (** [@validator('TTL', pre=True, always=True)].  [values_作成日時] is
      [values.get('作成日時')]: the creation time when that field has
      validated, which it has whenever it is a [datetime]; [現在] is the
      clock reading of the fallback [datetime.now()]. *)
Definition TTL自動設定 `{Calendar} (v : option Z)
    (values_作成日時 : option datetime) (現在 : datetime) : Z :=
  match v with
  | None =>
      let 作成日時 := default 現在 values_作成日時 in
      let TTL日時 := 作成日時 + timedelta_days 30 in
      epoch_seconds TTL日時
  | Some t => t
  end.

  (** pydantic reports a failing field validator as [ValidationError]. *)
Definition field {A} (r : Result A) : Result A :=
  match r with
  | Return a => Return a
  | Raise _ => Raise ValidationError
  end.

  (** The constructor of [ジョブ]: every field is coerced and validated in
      declaration order.  Readings 0 and 1 of the clock are the two
      [default_factory=datetime.now] calls, reading 2 the fallback inside
      the TTL validator. *)
Definition 作成 `{Calendar} (現在 : Clock) (a : 引数) : Result ジョブ :=
  種別' ← coerce_enum (引数_種別 a);
  ステータス' ← from_option coerce_enum (Return PENDING) (引数_ステータス a);
  優先度' ← from_option coerce_enum (Return NORMAL) (引数_優先度 a);
  let 作成日時' := default (現在 0%nat) (引数_作成日時 a) in
  let 更新日時' := default (現在 1%nat) (引数_更新日時 a) in
  let TTL' := TTL自動設定 (引数_TTL a) (Some 作成日時') (現在 2%nat) in
  進捗率' ← from_option (fun v => field (進捗率妥当性を検証 v)) (Return 0)
              (引数_進捗率 a);
  Return {|
    ジョブID := 引数_ジョブID a;
    リポジトリID := 引数_リポジトリID a;
    種別 := 種別';
    ステータス := ステータス';
    優先度 := 優先度';
    開始日時 := 引数_開始日時 a;
    完了日時 := 引数_完了日時 a;
    作成日時 := 作成日時';
    更新日時 := 更新日時';
    TTL := Some TTL';
    実行者 := 引数_実行者 a;
    エラーメッセージ := 引数_エラーメッセージ a;
    進捗率 := 進捗率';
    処理済みファイル数 := default 0 (引数_処理済みファイル数 a);
    総ファイル数 := 引数_総ファイル数 a;
    入力パラメータ := default (Some ∅) (引数_入力パラメータ a);
    出力結果 := default (Some ∅) (引数_出力結果 a);
    メタデータ := default (Some ∅) (引数_メタデータ a)
  |}.

  (** [ジョブ.DynamoDB項目に変換] *)
Definition DynamoDB項目に変換 `{Calendar} (self : ジョブ)
    : gmap string Value :=
  let 項目 : gmap string Value :=
    <["job_id" := VStr (ジョブID self)]>
    (<["repo_id" := VStr (リポジトリID self)]>
    (<["type" := VStr (value (種別 self))]>
    (<["status" := VStr (value (ステータス self))]>
    (<["priority" := VStr (value (優先度 self))]>
    (<["created_at" := VStr (isoformat (作成日時 self))]>
    (<["updated_at" := VStr (isoformat (更新日時 self))]>
    (<["ttl" := of_opt_int (TTL self)]>
    (<["progress" := VNum (進捗率 self)]>
    (<["processed_files" := VNum (処理済みファイル数 self)]>
    (<["input_params" := of_opt_map (入力パラメータ self)]>
    (<["output_result" := of_opt_map (出力結果 self)]>
    (<["metadata" := of_opt_map (メタデータ self)]> ∅)))))))))))) in
  let 項目 := match 開始日時 self with
              | Some t => <["started_at" := VStr (isoformat t)]> 項目
              | None => 項目
              end in
  let 項目 := match 完了日時 self with
              | Some t => <["completed_at" := VStr (isoformat t)]> 項目
              | None => 項目
              end in
  let 項目 := if opt_str_truthy (実行者 self)
              then <["executor" := VStr (default "" (実行者 self))]> 項目
              else 項目 in
  let 項目 := if opt_str_truthy (エラーメッセージ self)
              then <["error_message" :=
                       VStr (default "" (エラーメッセージ self))]> 項目
              else 項目 in
  let 項目 := if opt_int_truthy (総ファイル数 self)
              then <["total_files" := of_opt_int (総ファイル数 self)]> 項目
              else 項目 in
  項目.

  (** [ジョブ.DynamoDB項目から作成]: the keyword arguments are evaluated
      left to right, then the model is constructed. *)
Definition DynamoDB項目から作成 `{Calendar} (現在 : Clock)
    (項目 : gmap string Value) : Result ジョブ :=
  job_id ← getitem 項目 "job_id";
  repo_id ← getitem 項目 "repo_id";
  種別' ← (v ← getitem 項目 "type"; enum_call_value v);
  ステータス' ← (v ← getitem 項目 "status"; enum_call_value v);
  優先度' ← enum_call_value (get 項目 "priority" (VStr "NORMAL"));
  開始日時' ← parse_datetime_if_present 項目 "started_at";
  完了日時' ← parse_datetime_if_present 項目 "completed_at";
  作成日時' ← (v ← getitem 項目 "created_at"; parse_datetime v);
  更新日時' ← (v ← getitem 項目 "updated_at"; parse_datetime v);
  (* cls(...): field coercion *)
  ジョブID' ← as_str job_id;
  リポジトリID' ← as_str repo_id;
  TTL' ← as_opt_int (get 項目 "ttl" VNull);
  実行者' ← as_opt_str (get 項目 "executor" VNull);
  エラーメッセージ' ← as_opt_str (get 項目 "error_message" VNull);
  進捗率' ← as_int (get 項目 "progress" (VNum 0));
  処理済み' ← as_int (get 項目 "processed_files" (VNum 0));
  総ファイル数' ← as_opt_int (get 項目 "total_files" VNull);
  入力' ← as_opt_map (get 項目 "input_params" (VMap ∅));
  出力' ← as_opt_map (get 項目 "output_result" (VMap ∅));
  メタ' ← as_opt_map (get 項目 "metadata" (VMap ∅));
  作成 現在 {|
    引数_ジョブID := ジョブID';
    引数_リポジトリID := リポジトリID';
    引数_種別 := Member 種別';
    引数_ステータス := Some (Member ステータス');
    引数_優先度 := Some (Member 優先度');
    引数_開始日時 := 開始日時';
    引数_完了日時 := 完了日時';
    引数_作成日時 := Some 作成日時';
    引数_更新日時 := Some 更新日時';
    引数_TTL := TTL';
    引数_実行者 := 実行者';
    引数_エラーメッセージ := エラーメッセージ';
    引数_進捗率 := Some 進捗率';
    引数_処理済みファイル数 := Some 処理済み';
    引数_総ファイル数 := 総ファイル数';
    引数_入力パラメータ := Some 入力';
    引数_出力結果 := Some 出力';
    引数_メタデータ := Some メタ'
  |}.

  (** The same keyword arguments with another progress, another type. *)
Definition 進捗率を指定 (a : 引数) (p : option Z) : 引数 := {|
  引数_ジョブID := 引数_ジョブID a;
  引数_リポジトリID := 引数_リポジトリID a;
  引数_種別 := 引数_種別 a;
  引数_ステータス := 引数_ステータス a;
  引数_優先度 := 引数_優先度 a;
  引数_開始日時 := 引数_開始日時 a;
  引数_完了日時 := 引数_完了日時 a;
  引数_作成日時 := 引数_作成日時 a;
  引数_更新日時 := 引数_更新日時 a;
  引数_TTL := 引数_TTL a;
  引数_実行者 := 引数_実行者 a;
  引数_エラーメッセージ := 引数_エラーメッセージ a;
  引数_進捗率 := p;
  引数_処理済みファイル数 := 引数_処理済みファイル数 a;
  引数_総ファイル数 := 引数_総ファイル数 a;
  引数_入力パラメータ := 引数_入力パラメータ a;
  引数_出力結果 := 引数_出力結果 a;
  引数_メタデータ := 引数_メタデータ a
|}.


  (** A job with another progress. *)
Definition 進捗率を設定 (j : ジョブ) (p : Z) : ジョブ := {|
  ジョブID := ジョブID j;
  リポジトリID := リポジトリID j;
  種別 := 種別 j;
  ステータス := ステータス j;
  優先度 := 優先度 j;
  開始日時 := 開始日時 j;
  完了日時 := 完了日時 j;
  作成日時 := 作成日時 j;
  更新日時 := 更新日時 j;
  TTL := TTL j;
  実行者 := 実行者 j;
  エラーメッセージ := エラーメッセージ j;
  進捗率 := p;
  処理済みファイル数 := 処理済みファイル数 j;
  総ファイル数 := 総ファイル数 j;
  入力パラメータ := 入力パラメータ j;
  出力結果 := 出力結果 j;
  メタデータ := メタデータ j
|}.

  (** What a job looks like after a trip through its item: the three
      attributes that are written only when truthy come back as [None]
      when they were falsy. *)
Definition 往復後 (j : ジョブ) : ジョブ := {|
  ジョブID := ジョブID j;
  リポジトリID := リポジトリID j;
  種別 := 種別 j;
  ステータス := ステータス j;
  優先度 := 優先度 j;
  開始日時 := 開始日時 j;
  完了日時 := 完了日時 j;
  作成日時 := 作成日時 j;
  更新日時 := 更新日時 j;
  TTL := TTL j;
  実行者 := if opt_str_truthy (実行者 j) then 実行者 j else None;
  エラーメッセージ :=
    if opt_str_truthy (エラーメッセージ j) then エラーメッセージ j else None;
  進捗率 := 進捗率 j;
  処理済みファイル数 := 処理済みファイル数 j;
  総ファイル数 := if opt_int_truthy (総ファイル数 j) then 総ファイル数 j else None;
  入力パラメータ := 入力パラメータ j;
  出力結果 := 出力結果 j;
  メタデータ := メタデータ j
|}.

  (** [ジョブ.完了したか] and [ジョブ.成功したか] *)
Definition 完了したか (self : ジョブ) : bool :=
  match ステータス self with
  | COMPLETED | FAILED | CANCELLED => true
  | _ => false
  end.

Definition 成功したか (self : ジョブ) : bool :=
  match ステータス self with COMPLETED => true | _ => false end.

  (** The model [ジョブ更新リクエスト] and its keyword arguments. *)
Record ジョブ更新リクエスト : Type := {
  更新_ステータス : option ジョブステータス;
  更新_進捗率 : option Z;
  更新_エラーメッセージ : option string;
  更新_処理済みファイル数 : option Z;
  更新_総ファイル数 : option Z;
  更新_出力結果 : option (gmap string string)
}.

Record 更新引数 : Type := {
  更新引数_ステータス : option (EnumArg ジョブステータス);
  更新引数_進捗率 : option Z;
  更新引数_エラーメッセージ : option string;
  更新引数_処理済みファイル数 : option Z;
  更新引数_総ファイル数 : option Z;
  更新引数_出力結果 : option (gmap string string)
}.

  (** [@validator('進捗率')] of [ジョブ更新リクエスト] *)
Definition 更新_進捗率妥当性を検証 (v : option Z) : Result (option Z) :=
  match v with
  | Some p => if (p <? 0) || (p >? 100) then Raise ValueError else Return v
  | None => Return v
  end.

  (** The constructor of [ジョブ更新リクエスト] *)
Definition 更新リクエスト作成 (a : 更新引数) : Result ジョブ更新リクエスト :=
  ステータス' ← from_option (fun e => Some <$> coerce_enum e) (Return None)
                  (更新引数_ステータス a);
  進捗率' ← field (更新_進捗率妥当性を検証 (更新引数_進捗率 a));
  Return {|
    更新_ステータス := ステータス';
    更新_進捗率 := 進捗率';
    更新_エラーメッセージ := 更新引数_エラーメッセージ a;
    更新_処理済みファイル数 := 更新引数_処理済みファイル数 a;
    更新_総ファイル数 := 更新引数_総ファイル数 a;
    更新_出力結果 := 更新引数_出力結果 a
  |}.

  (** The same request arguments with another progress. *)
Definition 更新進捗率を指定 (a : 更新引数) (p : option Z) : 更新引数 := {|
  更新引数_ステータス := 更新引数_ステータス a;
  更新引数_進捗率 := p;
  更新引数_エラーメッセージ := 更新引数_エラーメッセージ a;
  更新引数_処理済みファイル数 := 更新引数_処理済みファイル数 a;
  更新引数_総ファイル数 := 更新引数_総ファイル数 a;
  更新引数_出力結果 := 更新引数_出力結果 a
|}.

End Job.

(** ** Regular expressions: the fragment of [re] the URL grammar uses *)

Module Re.

  (** A pattern [^t1 t2 ... tn$] where a token is a literal text or a
      class repetition [[^c]+]. *)
Inductive Token : Set :=
  | Lit (text : string)
  | NotChar1 (c : ascii).

  (** [$]: the end of the string, or just before a newline that ends it. *)
Definition at_end (s : string) : bool :=
  match s with
  | EmptyString => true
  | String c EmptyString => Ascii.eqb c "010"%char
  | _ => false
  end.

  (** The rest of [s] after the prefix [p], if [p] is a prefix. *)
Fixpoint strip_prefix (p s : string) : option string :=
  match p, s with
  | EmptyString, _ => Some s
  | String a p', String b s' =>
      if Ascii.eqb a b then strip_prefix p' s' else None
  | String _ _, EmptyString => None
  end.

  (** [[^c]+] followed by the continuation [k]: one or more characters
      other than [c], with backtracking over how many. *)
Fixpoint not_char_plus (c : ascii) (k : string -> bool) (s : string) : bool :=
  match s with
  | EmptyString => false
  | String a s' =>
      if Ascii.eqb a c then false else k s' || not_char_plus c k s'
  end.

Fixpoint matches (tokens : list Token) : string -> bool :=
  match tokens with
  | [] => at_end
  | Lit text :: rest =>
      fun s => match strip_prefix text s with
               | Some s' => matches rest s'
               | None => false
               end
  | NotChar1 c :: rest => not_char_plus c (matches rest)
  end.

  (** [any(re.match(pattern, v) for pattern in patterns)] *)
Definition match_any (patterns : list (list Token)) (v : string) : bool :=
  existsb (fun pattern => matches pattern v) patterns.

End Re.

(** ** Repository model: [api/モデル/リポジトリ.py] *)

Module Repo.
  Import Py.

Inductive リポジトリプロバイダー : Set := GITHUB | CODECOMMIT.

Inductive リポジトリステータス : Set := READY | PARSING | FAILED.

#[global] Instance リポジトリプロバイダー_enum : StrEnum リポジトリプロバイダー := {|
  members := [GITHUB; CODECOMMIT];
  value m := match m with
             | GITHUB => "github"
             | CODECOMMIT => "codecommit"
             end
|}.

#[global] Instance リポジトリステータス_enum : StrEnum リポジトリステータス := {|
  members := [READY; PARSING; FAILED];
  value m := match m with
             | READY => "READY"
             | PARSING => "PARSING"
             | FAILED => "FAILED"
             end
|}.

Record リポジトリ : Type := {
  リポジトリID : string;
  プロバイダー : リポジトリプロバイダー;
  リモートURL : string;
  表示名 : string;
  デフォルトブランチ : string;
  ステータス : リポジトリステータス;
  最終スキャンSHA : option string;
  最終スキャン日時 : option datetime;
  作成日時 : datetime;
  更新日時 : datetime;
  削除フラグ : bool;
  メタデータ : option (gmap string string)
}.

  (** The keyword arguments of the constructor; [None] for a field with a
      default means the caller left it out. *)
Record 引数 : Type := {
  引数_リポジトリID : string;
  引数_プロバイダー : EnumArg リポジトリプロバイダー;
  引数_リモートURL : string;
  引数_表示名 : string;
  引数_デフォルトブランチ : option string;
  引数_ステータス : option (EnumArg リポジトリステータス);
  引数_最終スキャンSHA : option string;
  引数_最終スキャン日時 : option datetime;
  引数_作成日時 : option datetime;
  引数_更新日時 : option datetime;
  引数_削除フラグ : option bool;
  引数_メタデータ : option (option (gmap string string))
}.

  (** The URL grammar of each provider. *)
Definition github_patterns : list (list Re.Token) :=
  [ [Re.Lit "https://github.com/"; Re.NotChar1 "/"; Re.Lit "/";
     Re.NotChar1 "/"; Re.Lit ".git"];
    [Re.Lit "https://github.com/"; Re.NotChar1 "/"; Re.Lit "/";
     Re.NotChar1 "/"];
    [Re.Lit "git@github.com:"; Re.NotChar1 "/"; Re.Lit "/";
     Re.NotChar1 "/"; Re.Lit ".git"] ].

Definition codecommit_patterns : list (list Re.Token) :=
  [ [Re.Lit "codecommit://"; Re.NotChar1 "/"];
    [Re.Lit "codecommit::"; Re.NotChar1 ":"; Re.Lit "://"; Re.NotChar1 "/"];
    [Re.Lit "https://git-codecommit."; Re.NotChar1 ".";
     Re.Lit ".amazonaws.com/v1/repos/"; Re.NotChar1 "/"] ].

  (** [@validator('リモートURL')]; [プロバイダー] is
      [values.get('プロバイダー')], absent when that field did not
      validate. *)
Definition URL妥当性を検証 (v : string)
    (プロバイダー : option リポジトリプロバイダー) : Result string :=
  match プロバイダー with
  | Some GITHUB =>
      if negb (Re.match_any github_patterns v) then Raise ValueError
      else Return v
  | Some CODECOMMIT =>
      if negb (Re.match_any codecommit_patterns v) then Raise ValueError
      else Return v
  | None => Return v
  end.

  (** [@validator('表示名')] *)
Definition 表示名妥当性を検証 (v : string) : Result string :=
  if negb (PyStr.truthy v) || (PyStr.len (PyStr.strip v) =? 0)
  then Raise ValueError
  else if PyStr.len v >? 100 then Raise ValueError
  else Return (PyStr.strip v).

  (** The constructor of [リポジトリ].  pydantic runs every field and
      reports the failures together as one [ValidationError]; readings 0
      and 1 of the clock are the two [default_factory=datetime.now]
      calls. *)
Definition 作成 (現在 : Clock) (a : 引数) : Result リポジトリ :=
  let プロバイダー' := coerce_enum (引数_プロバイダー a) in
  let リモートURL' :=
    URL妥当性を検証 (引数_リモートURL a)
      (match プロバイダー' with Return p => Some p | Raise _ => None end) in
  let 表示名' := 表示名妥当性を検証 (引数_表示名 a) in
  let ステータス' :=
    from_option coerce_enum (Return READY) (引数_ステータス a) in
  match プロバイダー', リモートURL', 表示名', ステータス' with
  | Return p, Return url, Return 名, Return st =>
      Return {|
        リポジトリID := 引数_リポジトリID a;
        プロバイダー := p;
        リモートURL := url;
        表示名 := 名;
        デフォルトブランチ := default "main" (引数_デフォルトブランチ a);
        ステータス := st;
        最終スキャンSHA := 引数_最終スキャンSHA a;
        最終スキャン日時 := 引数_最終スキャン日時 a;
        作成日時 := default (現在 0%nat) (引数_作成日時 a);
        更新日時 := default (現在 1%nat) (引数_更新日時 a);
        削除フラグ := default false (引数_削除フラグ a);
        メタデータ := default (Some ∅) (引数_メタデータ a)
      |}
  | _, _, _, _ => Raise ValidationError
  end.

  (** [リポジトリ.DynamoDB項目に変換] *)
Definition DynamoDB項目に変換 `{Calendar} (self : リポジトリ)
    : gmap string Value :=
  let 項目 : gmap string Value :=
    <["repo_id" := VStr (リポジトリID self)]>
    (<["provider" := VStr (value (プロバイダー self))]>
    (<["remote_url" := VStr (リモートURL self)]>
    (<["display_name" := VStr (表示名 self)]>
    (<["default_branch" := VStr (デフォルトブランチ self)]>
    (<["status" := VStr (value (ステータス self))]>
    (<["created_at" := VStr (isoformat (作成日時 self))]>
    (<["updated_at" := VStr (isoformat (更新日時 self))]>
    (<["deleted" := VBool (削除フラグ self)]>
    (<["metadata" := of_opt_map (メタデータ self)]> ∅))))))))) in
  let 項目 := if opt_str_truthy (最終スキャンSHA self)
              then <["last_scan_sha" :=
                       VStr (default "" (最終スキャンSHA self))]> 項目
              else 項目 in
  let 項目 := match 最終スキャン日時 self with
              | Some t => <["last_scan_at" := VStr (isoformat t)]> 項目
              | None => 項目
              end in
  項目.

  (** [リポジトリ.DynamoDB項目から作成]: the keyword arguments are
      evaluated left to right, then the model is constructed. *)
Definition DynamoDB項目から作成 `{Calendar} (現在 : Clock)
    (項目 : gmap string Value) : Result リポジトリ :=
  repo_id ← getitem 項目 "repo_id";
  プロバイダー' ← (v ← getitem 項目 "provider"; enum_call_value v);
  remote_url ← getitem 項目 "remote_url";
  display_name ← getitem 項目 "display_name";
  ステータス' ← enum_call_value (get 項目 "status" (VStr "READY"));
  最終スキャン日時' ← parse_datetime_if_present 項目 "last_scan_at";
  作成日時' ← (v ← getitem 項目 "created_at"; parse_datetime v);
  更新日時' ← (v ← getitem 項目 "updated_at"; parse_datetime v);
  (* cls(...): field coercion *)
  match as_str repo_id, as_str remote_url, as_str display_name,
        as_str (get 項目 "default_branch" (VStr "main")),
        as_opt_str (get 項目 "last_scan_sha" VNull),
        as_bool (get 項目 "deleted" (VBool false)),
        as_opt_map (get 項目 "metadata" (VMap ∅)) with
  | Return リポジトリID', Return リモートURL', Return 表示名',
    Return ブランチ', Return SHA', Return 削除', Return メタ' =>
      作成 現在 {|
        引数_リポジトリID := リポジトリID';
        引数_プロバイダー := Member プロバイダー';
        引数_リモートURL := リモートURL';
        引数_表示名 := 表示名';
        引数_デフォルトブランチ := Some ブランチ';
        引数_ステータス := Some (Member ステータス');
        引数_最終スキャンSHA := SHA';
        引数_最終スキャン日時 := 最終スキャン日時';
        引数_作成日時 := Some 作成日時';
        引数_更新日時 := Some 更新日時';
        引数_削除フラグ := Some 削除';
        引数_メタデータ := Some メタ'
      |}
  | _, _, _, _, _, _, _ => Raise ValidationError
  end.

  (** What a repository looks like after a trip through its item: the
      last-scan reference is written only when truthy. *)
Definition 往復後 (r : リポジトリ) : リポジトリ := {|
  リポジトリID := リポジトリID r;
  プロバイダー := プロバイダー r;
  リモートURL := リモートURL r;
  表示名 := 表示名 r;
  デフォルトブランチ := デフォルトブランチ r;
  ステータス := ステータス r;
  最終スキャンSHA :=
    if opt_str_truthy (最終スキャンSHA r) then 最終スキャンSHA r else None;
  最終スキャン日時 := 最終スキャン日時 r;
  作成日時 := 作成日時 r;
  更新日時 := 更新日時 r;
  削除フラグ := 削除フラグ r;
  メタデータ := メタデータ r
|}.

End Repo.

(** ** The conditional store: [api/リポジトリ/DynamoDB基底.py] *)

Module DynamoDB.
  Import Py.

  (** The table behind [self.テーブル], as the service presents it.

      - [items] are the stored items in the order a scan reads them; the
        service fixes that order by the hash of the partition key, and the
        model keeps a new key at the end.
      - [key_attr] is the partition key of the table's schema.
      - [fault], when set, is the error code with which the service
        answers every request (unreachable, throttled, access denied).
      - [raised] is a ghost history of every exception raised so far.  No
        code reads it; it serves to say that a call returned normally
        although an exception was raised on the way. *)
Record Table : Type := {
  key_attr : string;
  items : list (gmap string Value);
  fault : option string;
  raised : list Exn
}.

Definition with_items (t : Table) (l : list (gmap string Value)) : Table :=
  {| key_attr := key_attr t; items := l; fault := fault t;
     raised := raised t |}.

Definition record_exn (e : Exn) (t : Table) : Table :=
  {| key_attr := key_attr t; items := items t; fault := fault t;
     raised := raised t ++ [e] |}.

  (** Code that talks to the table: a state and exception monad. *)
Definition M (A : Type) : Type := Table -> Result A * Table.

#[global] Instance M_ret : MRet M := fun A a t => (Return a, t).
#[global] Instance M_bind : MBind M := fun A B f m t =>
  match m t with
  | (Return a, t') => f a t'
  | (Raise e, t') => (Raise e, t')
  end.

  (** [raise e] *)
Definition raise {A} (e : Exn) : M A := fun t => (Raise e, record_exn e t).

  (** A bare [raise] in a handler, or an exception that no [except]
      clause matches: the same exception travels on. *)
Definition reraise {A} (e : Exn) : M A := fun t => (Raise e, t).

  (** [try: m  except ... as e: h e] *)
Definition try_except {A} (m : M A) (h : Exn -> M A) : M A := fun t =>
  match m t with
  | (Raise e, t') => h e t'
  | (Return a, t') => (Return a, t')
  end.

  (** A pure computation that may raise, run as a statement. *)
Definition lift {A} (r : Result A) : M A :=
  match r with
  | Return a => mret a
  | Raise e => raise e
  end.

  (** *** Expressions of the service *)

  (** A condition expression.  [Equals a p] is [a = :p] with the
      placeholder [p] bound in [ExpressionAttributeValues]. *)
Inductive Condition : Set :=
  | attribute_exists (a : string)
  | attribute_not_exists (a : string)
  | Equals (a : string) (placeholder : string)
  | And (c1 c2 : Condition)
  | Or (c1 c2 : Condition).

  (** The value of a condition on the item currently stored under the key
      ([None]: no such item); [None] as a result is a malformed request,
      a placeholder with no binding. *)
Fixpoint eval_condition (c : Condition) (values : gmap string Value)
    (old : option (gmap string Value)) : option bool :=
  match c with
  | attribute_exists a =>
      Some (match old with
            | Some it => bool_decide (is_Some (it !! a))
            | None => false
            end)
  | attribute_not_exists a =>
      Some (match old with
            | Some it => bool_decide (it !! a = None)
            | None => true
            end)
  | Equals a p =>
      match values !! p with
      | Some v =>
          Some (match old with
                | Some it => bool_decide (it !! a = Some v)
                | None => false
                end)
      | None => None
      end
  | And c1 c2 =>
      match eval_condition c1 values old, eval_condition c2 values old with
      | Some b1, Some b2 => Some (b1 && b2)
      | _, _ => None
      end
  | Or c1 c2 =>
      match eval_condition c1 values old, eval_condition c2 values old with
      | Some b1, Some b2 => Some (b1 || b2)
      | _, _ => None
      end
  end.

  (** A filter built with [boto3.dynamodb.conditions.Attr]:
      [Attr(a).eq(v)], [Attr(a).ne(v)] and [&].  An item without the
      attribute satisfies [ne]. *)
Inductive Filter : Type :=
  | Attr_eq (a : string) (v : Value)
  | Attr_ne (a : string) (v : Value)
  | Both (f g : Filter).

Fixpoint eval_filter (f : Filter) (it : gmap string Value) : bool :=
  match f with
  | Attr_eq a v => bool_decide (it !! a = Some v)
  | Attr_ne a v => negb (bool_decide (it !! a = Some v))
  | Both f g => eval_filter f it && eval_filter g it
  end.

  (** *** Requests to the service *)

  (** Every request fails with the fault of the table, if there is one. *)
Definition request {A} (k : M A) : M A := fun t =>
  match fault t with
  | Some code => raise (ClientError code) t
  | None => k t
  end.

  (** The value of the partition key in a [Key] dictionary, which must
      hold that attribute and nothing else. *)
Definition key_value (pk : string) (キー : gmap string Value) : option Value :=
  if bool_decide (size キー = 1%nat) then キー !! pk else None.

Definition has_key (pk : string) (v : Value) (it : gmap string Value) : bool :=
  bool_decide (it !! pk = Some v).

Definition find_item (pk : string) (v : Value)
    (l : list (gmap string Value)) : option (gmap string Value) :=
  List.find (has_key pk v) l.

  (** Store [new] under the key [v]: in place of the item that has the
      key, at the end when none has. *)
Fixpoint upsert (pk : string) (v : Value) (new : gmap string Value)
    (l : list (gmap string Value)) : list (gmap string Value) :=
  match l with
  | [] => [new]
  | it :: rest =>
      if has_key pk v it then new :: rest else it :: upsert pk v new rest
  end.

Definition remove (pk : string) (v : Value)
    (l : list (gmap string Value)) : list (gmap string Value) :=
  List.filter (fun it => negb (has_key pk v it)) l.

  (** The check of an optional [ConditionExpression]. *)
Definition check (cond : option Condition) (values : gmap string Value)
    (old : option (gmap string Value)) : M unit :=
  match cond with
  | None => mret tt
  | Some c =>
      match eval_condition c values old with
      | Some true => mret tt
      | Some false => raise (ClientError "ConditionalCheckFailedException")
      | None => raise (ClientError "ValidationException")
      end
  end.

  (** The table as it stands, and the replacement of its items. *)
Definition table : M Table := fun t => (Return t, t).

Definition set_items (l : list (gmap string Value)) : M unit := fun t =>
  (Return tt, with_items t l).

  (** [Table.get_item(Key=キー)]: the response's ['Item'], if any. *)
Definition get_item (キー : gmap string Value)
    : M (option (gmap string Value)) :=
  request
    (t ← table;
     match key_value (key_attr t) キー with
     | None => raise (ClientError "ValidationException")
     | Some v => mret (find_item (key_attr t) v (items t))
     end).

  (** [Table.put_item(Item=..., ConditionExpression=...)] *)
Definition put_item (アイテム : gmap string Value) (cond : option Condition)
    : M unit :=
  request
    (t ← table;
     match アイテム !! key_attr t with
     | None => raise (ClientError "ValidationException")
     | Some v =>
         _ ← check cond ∅ (find_item (key_attr t) v (items t));
         set_items (upsert (key_attr t) v アイテム (items t))
     end).

  (** One assignment [name = value] of a [SET] clause: the attribute is
      the name itself, or what [ExpressionAttributeNames] binds it to when
      it starts with [#]; the value is what [ExpressionAttributeValues]
      binds the placeholder to. *)
Definition resolve_name (names : gmap string string) (name : string)
    : option string :=
  match name with
  | String "#" _ => names !! name
  | _ => Some name
  end.

Fixpoint resolve_sets (pk : string) (names : gmap string string)
    (values : gmap string Value) (sets : list (string * string))
    : option (list (string * Value)) :=
  match sets with
  | [] => Some []
  | (name, placeholder) :: rest =>
      match resolve_name names name, values !! placeholder,
            resolve_sets pk names values rest with
      | Some a, Some v, Some l =>
          if String.eqb a pk then None else Some ((a, v) :: l)
      | _, _, _ => None
      end
  end.

Definition apply_sets (l : list (string * Value)) (it : gmap string Value)
    : gmap string Value :=
  fold_left (fun acc av => <[av.1 := av.2]> acc) l it.

  (** [Table.update_item(Key=..., UpdateExpression="SET ...",
      ReturnValues='ALL_NEW', ...)]: the response's ['Attributes'].  An
      update of a missing key creates the item. *)
Definition update_item (キー : gmap string Value)
    (sets : list (string * string)) (values : gmap string Value)
    (names : gmap string string) (cond : option Condition)
    : M (gmap string Value) :=
  request
    (t ← table;
     match key_value (key_attr t) キー,
           resolve_sets (key_attr t) names values sets with
     | Some v, Some l =>
         let old := find_item (key_attr t) v (items t) in
         _ ← check cond values old;
         let new := apply_sets l (default キー old) in
         _ ← set_items (upsert (key_attr t) v new (items t));
         mret new
     | _, _ => raise (ClientError "ValidationException")
     end).

  (** [Table.delete_item(Key=..., ConditionExpression=...)] *)
Definition delete_item (キー : gmap string Value) (cond : option Condition)
    : M unit :=
  request
    (t ← table;
     match key_value (key_attr t) キー with
     | None => raise (ClientError "ValidationException")
     | Some v =>
         _ ← check cond ∅ (find_item (key_attr t) v (items t));
         set_items (remove (key_attr t) v (items t))
     end).

  (** [Table.scan(FilterExpression=..., Limit=...)]: the response's
      ['Items'].  [Limit] bounds the number of items the service
      evaluates, before the filter is applied to them: the filter sees
      the first [Limit] items of the table only. *)
Definition scan (filter : option Filter) (limit : option nat)
    : M (list (gmap string Value)) :=
  request
    (t ← table;
     let evaluated := match limit with
                      | Some n => take n (items t)
                      | None => items t
                      end in
     mret (match filter with
           | Some f => List.filter (eval_filter f) evaluated
           | None => evaluated
           end)).

  (** *** The wrapper class [DynamoDB基底リポジトリ] *)

  (** [except ClientError as e: raise DynamoDB例外(...)] *)
Definition on_client_error {A} (e : Exn) : M A :=
  match e with
  | ClientError _ => raise DynamoDB例外
  | _ => reraise e
  end.

  (** [except ClientError as e:] with the test of the error code. *)
Definition on_conditional_check {A} (e : Exn) : M A :=
  match e with
  | ClientError エラーコード =>
      if String.eqb エラーコード "ConditionalCheckFailedException"
      then raise DynamoDB条件チェックエラー
      else raise DynamoDB例外
  | _ => reraise e
  end.

Definition アイテムを取得 (キー : gmap string Value)
    : M (option (gmap string Value)) :=
  try_except (get_item キー) on_client_error.

Definition アイテムを保存 (アイテム : gmap string Value)
    (条件式 : option Condition) : M bool :=
  try_except (_ ← put_item アイテム 条件式; mret true) on_conditional_check.

Definition アイテムを更新 (キー : gmap string Value)
    (更新式 : list (string * string)) (式属性値 : gmap string Value)
    (式属性名 : gmap string string) (条件式 : option Condition)
    : M (gmap string Value) :=
  try_except (update_item キー 更新式 式属性値 式属性名 条件式)
    on_conditional_check.

Definition アイテムを削除 (キー : gmap string Value)
    (条件式 : option Condition) : M bool :=
  try_except (_ ← delete_item キー 条件式; mret true) on_conditional_check.

  (** [if 制限数:] passes a limit only when it is not zero. *)
Definition スキャン実行 (フィルター式 : option Filter) (制限数 : option nat)
    : M (list (gmap string Value)) :=
  try_except
    (scan フィルター式
       (match 制限数 with Some O => None | other => other end))
    on_client_error.

  (** The outcome of a conditional write whose condition fails. *)
Definition 条件不成立 (t : Table) : Table :=
  record_exn DynamoDB条件チェックエラー
    (record_exn (ClientError "ConditionalCheckFailedException") t).

  (** The outcome of a request under a fault of the service. *)
Definition 障害時 (code : string) (e : Exn) (t : Table) : Table :=
  record_exn e (record_exn (ClientError code) t).


End DynamoDB.

(** ** The repository entity manager:
       [api/リポジトリ/リポジトリリポジトリ.py] *)

(** The class body of [リポジトリリポジトリ] defines most methods twice.
    Python binds a method name to the last definition in the class body,
    so the second definitions are the ones in effect; they carry the
    source's names here.  The first, shadowed definitions carry the suffix
    [_第一定義].  The logger calls are left out.  Each method takes the
    clock and, where it generates an identifier, the identifier that
    [リポジトリIDを生成] returns. *)

Module Manager.
  Import Py DynamoDB.

#[global] Instance String_inj (c : ascii) : Inj (=) (=) (String c).
Proof. intros x y [= ->]. reflexivity. Qed.

  (** [{'repo_id': リポジトリID}] *)
Definition キー (リポジトリID : string) : gmap string Value :=
  {["repo_id" := VStr リポジトリID]}.

  (** ["attribute_not_exists(repo_id)"] *)
Definition 未登録条件 : Condition := attribute_not_exists "repo_id".

  (** ["attribute_exists(repo_id)"] *)
Definition 存在条件 : Condition := attribute_exists "repo_id".

  (** ["attribute_exists(repo_id) AND (attribute_not_exists(deleted) OR
      deleted = :false)"] *)
Definition 未削除条件 : Condition :=
  And (attribute_exists "repo_id")
      (Or (attribute_not_exists "deleted") (Equals "deleted" ":false")).

  (** [except Exception as e: raise DynamoDB例外(...)] *)
Definition 例外を包む {A} (e : Exn) : M A := raise DynamoDB例外.

  (** [アイテム and not アイテム.get('deleted', False)] *)
Definition 有効なアイテム (アイテム : option (gmap string Value)) : bool :=
  match アイテム with
  | Some it =>
      negb (bool_decide (it = ∅)) && negb (truthy (get it "deleted" (VBool false)))
  | None => false
  end.

Section Methods.
  Context `{Calendar}.

  (** [Attr('remote_url').eq(リモートURL) & Attr('deleted').ne(True)] *)
Definition URLフィルター (リモートURL : string) : Filter :=
  Both (Attr_eq "remote_url" (VStr リモートURL))
       (Attr_ne "deleted" (VBool true)).

  (** [URLでリポジトリを検索], second definition. *)
Definition URLでリポジトリを検索 (現在 : Clock) (リモートURL : string)
    : M (option Repo.リポジトリ) :=
  try_except
    (アイテムリスト ← スキャン実行 (Some (URLフィルター リモートURL)) (Some 1%nat);
     match アイテムリスト with
     | 先頭 :: _ =>
         r ← lift (Repo.DynamoDB項目から作成 現在 先頭); mret (Some r)
     | [] => mret None
     end)
    例外を包む.


  (** The model object that both definitions of [リポジトリを作成] build. *)
Definition 新リポジトリ (現在時刻 : datetime) (リポジトリID : string)
    (プロバイダー : Repo.リポジトリプロバイダー)
    (リモートURL 表示名 デフォルトブランチ : string) : Result Repo.リポジトリ :=
  Repo.作成 (fun _ => 現在時刻) {|
    Repo.引数_リポジトリID := リポジトリID;
    Repo.引数_プロバイダー := Member プロバイダー;
    Repo.引数_リモートURL := リモートURL;
    Repo.引数_表示名 := 表示名;
    Repo.引数_デフォルトブランチ := Some デフォルトブランチ;
    Repo.引数_ステータス := Some (Member Repo.READY);
    Repo.引数_最終スキャンSHA := None;
    Repo.引数_最終スキャン日時 := None;
    Repo.引数_作成日時 := Some 現在時刻;
    Repo.引数_更新日時 := Some 現在時刻;
    Repo.引数_削除フラグ := None;
    Repo.引数_メタデータ := None
  |}.

  (** [リポジトリを作成], second definition. *)
Definition リポジトリを作成 (現在 : Clock) (リポジトリID : string)
    (プロバイダー : Repo.リポジトリプロバイダー)
    (リモートURL 表示名 デフォルトブランチ : string) : M Repo.リポジトリ :=
  try_except
    (既存リポジトリ ← URLでリポジトリを検索 現在 リモートURL;
     match 既存リポジトリ with
     | Some _ => raise DynamoDB条件チェックエラー
     | None =>
         let 現在時刻 := 現在 0%nat in
         新 ← lift (新リポジトリ 現在時刻 リポジトリID プロバイダー
                      リモートURL 表示名 デフォルトブランチ);
         _ ← アイテムを保存 (Repo.DynamoDB項目に変換 新) (Some 未登録条件);
         mret 新
     end)
    (fun e => match e with
              | DynamoDB条件チェックエラー => reraise e
              | _ => 例外を包む e
              end).


  (** [リポジトリを取得], second definition: [None] for a missing or
      soft-deleted record. *)
Definition リポジトリを取得 (現在 : Clock) (リポジトリID : string)
    : M (option Repo.リポジトリ) :=
  try_except
    (アイテム ← アイテムを取得 (キー リポジトリID);
     if 有効なアイテム アイテム
     then r ← lift (Repo.DynamoDB項目から作成 現在 (default ∅ アイテム));
          mret (Some r)
     else mret None)
    例外を包む.


  (** The request both definitions of [リポジトリを更新] send: the caller's
      dictionary with [updated_at] stamped, one [#k = :k] assignment per
      entry, and the condition that the record exists and is not
      soft-deleted. *)
Definition 更新リクエスト (現在 : Clock) (リポジトリID : string)
    (更新データ : gmap string Value) : M (gmap string Value) :=
  let 更新データ := <["updated_at" := VStr (isoformat (現在 0%nat))]> 更新データ in
  let 更新式 :=
    (fun フィールド名 => (String "#" フィールド名, String ":" フィールド名))
      <$> (map_to_list 更新データ).*1 in
  let 式属性名 : gmap string string :=
    kmap (String "#"%char) (map_imap (fun k _ => Some k) 更新データ) in
  let 式属性値 : gmap string Value :=
    <[":false" := VBool false]> (kmap (String ":"%char) 更新データ) in
  アイテムを更新 (キー リポジトリID) 更新式 式属性値 式属性名 (Some 未削除条件).

  (** [リポジトリを更新], second definition: [None] when the condition
      fails. *)
Definition リポジトリを更新 (現在 : Clock) (リポジトリID : string)
    (更新データ : gmap string Value) : M (option Repo.リポジトリ) :=
  try_except
    (更新後アイテム ← 更新リクエスト 現在 リポジトリID 更新データ;
     r ← lift (Repo.DynamoDB項目から作成 現在 更新後アイテム);
     mret (Some r))
    (fun e => match e with
              | DynamoDB条件チェックエラー => mret None
              | _ => 例外を包む e
              end).


  (** [リポジトリを削除], second definition. *)
Definition リポジトリを削除 (現在 : Clock) (リポジトリID : string)
    (物理削除 : bool) : M bool :=
  try_except
    (if 物理削除
     then アイテムを削除 (キー リポジトリID) (Some 存在条件)
     else
       let 更新式 := [("deleted", ":true"); ("updated_at", ":updated_at")] in
       let 式属性値 : gmap string Value :=
         <[":false" := VBool false]>
         (<[":true" := VBool true]>
         (<[":updated_at" := VStr (isoformat (現在 0%nat))]> ∅)) in
       _ ← アイテムを更新 (キー リポジトリID) 更新式 式属性値 ∅
             (Some 未削除条件);
       mret true)
    (fun e => match e with
              | DynamoDB条件チェックエラー => mret false
              | _ => 例外を包む e
              end).

  (** The dictionary both definitions of [ステータスを更新] build. *)
Definition ステータス更新データ (現在 : Clock)
    (新ステータス : Repo.リポジトリステータス) (最終スキャンSHA : option string)
    : gmap string Value :=
  let 更新データ : gmap string Value := {["status" := VStr (value 新ステータス)]} in
  if opt_str_truthy 最終スキャンSHA
  then <["last_scan_at" := VStr (isoformat (現在 0%nat))]>
       (<["last_scan_sha" := VStr (default "" 最終スキャンSHA)]> 更新データ)
  else 更新データ.

  (** The clock as the nested update sees it: one reading later when the
      scan time has been stamped. *)
Definition 更新時の時計 (現在 : Clock) (最終スキャンSHA : option string) : Clock :=
  if opt_str_truthy 最終スキャンSHA then fun n => 現在 (S n) else 現在.

  (** [ステータスを更新], second definition. *)
Definition ステータスを更新 (現在 : Clock) (リポジトリID : string)
    (新ステータス : Repo.リポジトリステータス) (最終スキャンSHA : option string)
    : M bool :=
  try_except
    (更新後リポジトリ ←
       リポジトリを更新 (更新時の時計 現在 最終スキャンSHA) リポジトリID
         (ステータス更新データ 現在 新ステータス 最終スキャンSHA);
     if bool_decide (is_Some 更新後リポジトリ) then mret true else mret false)
    例外を包む.

  (** The item a logical delete leaves behind. *)
Definition 論理削除後 (現在 : Clock) (it : gmap string Value)
    : gmap string Value :=
  <["updated_at" := VStr (isoformat (現在 0%nat))]>
    (<["deleted" := VBool true]> it).

End Methods.


  (** What the assignment for field [k] stores: the caller's value, except
      that the placeholder of a field named [false] is rebound by the
      binding of [:false] for the condition. *)
Definition 書き込む値 (k : string) (v : Value) : Value :=
  if String.eqb k "false" then VBool false else v.


  (** A record that the conditional update accepts: the soft-delete flag
      is absent or is the boolean false. *)
Definition 未削除 (it : gmap string Value) : bool :=
  bool_decide (it !! "deleted" = None)
  || bool_decide (it !! "deleted" = Some (VBool false)).

  (** The table is reachable and is the repository table. *)
Definition 正常 (t : Table) : Prop :=
  fault t = None /\ key_attr t = "repo_id".

  (** The item stored under a repository id. *)
Definition 保存済み (t : Table) (リポジトリID : string)
    : option (gmap string Value) :=
  find_item "repo_id" (VStr リポジトリID) (items t).

End Manager.

(** ** Page model: the field validators of [ページ] *)

Module PageModel.
  Import Py.

  (** [@validator('タイトル')] of [ページ] *)
Definition タイトル妥当性を検証 (v : string) : Result string :=
  if negb (PyStr.truthy v) || (PyStr.len (PyStr.strip v) =? 0)
  then Raise ValueError
  else if PyStr.len v >? 200 then Raise ValueError
  else Return (PyStr.strip v).

  (** [@validator('重要度')] of [ページ] *)
Definition 重要度妥当性を検証 (v : string) : Result string :=
  let 有効な重要度 := ["high"; "medium"; "low"] in
  if negb (existsb (String.eqb v) 有効な重要度) then Raise ValueError
  else Return v.

End PageModel.


(** ** The URL grammar, in words *)

Module Grammar.

  (** The text has no occurrence of the character. *)
Fixpoint free_of (c : ascii) (s : string) : bool :=
  match s with
  | EmptyString => true
  | String a s' => negb (Ascii.eqb a c) && free_of c s'
  end.

  (** A path segment: one or more characters other than [c]. *)
Definition segment (c : ascii) (s : string) : Prop :=
  s <> "" /\ free_of c s = true.

  (** The remote URLs of GitHub, as a grammar over owner and name. *)
Definition github_url (v : string) : Prop :=
  exists 所有者 名前,
    segment "/" 所有者 /\ segment "/" 名前
    /\ (v = "https://github.com/" ++ 所有者 ++ "/" ++ 名前
        \/ v = "git@github.com:" ++ 所有者 ++ "/" ++ 名前 ++ ".git"
        \/ v = "git@github.com:" ++ 所有者 ++ "/" ++ 名前 ++ ".git"
               ++ String "010" "").

  (** The remote URLs of CodeCommit, over region and repository name. *)
Definition codecommit_url (v : string) : Prop :=
  (exists 名前, segment "/" 名前 /\ v = "codecommit://" ++ 名前)
  \/ (exists リージョン 名前,
        segment ":" リージョン /\ segment "/" 名前
        /\ v = "codecommit::" ++ リージョン ++ "://" ++ 名前)
  \/ (exists リージョン 名前,
        segment "." リージョン /\ segment "/" 名前
        /\ v = "https://git-codecommit." ++ リージョン
               ++ ".amazonaws.com/v1/repos/" ++ 名前).

  (** The remote URLs of a provider. *)
Definition remote_url (プロバイダー : Repo.リポジトリプロバイダー)
    : string -> Prop :=
  match プロバイダー with
  | Repo.GITHUB => github_url
  | Repo.CODECOMMIT => codecommit_url
  end.

End Grammar.


(** ** Queue messages: [SQSメッセージを作成] and its inverse *)

Module Queue.
  Import Py.

  (** [SQSメッセージを作成] *)
Definition SQSメッセージを作成 `{Calendar} (ジョブ : Job.ジョブ)
    : gmap string Value :=
  <["job_id" := VStr (Job.ジョブID ジョブ)]>
  (<["repo_id" := VStr (Job.リポジトリID ジョブ)]>
  (<["type" := VStr (value (Job.種別 ジョブ))]>
  (<["priority" := VStr (value (Job.優先度 ジョブ))]>
  (<["input_params" := of_opt_map (Job.入力パラメータ ジョブ)]>
  (<["created_at" := VStr (isoformat (Job.作成日時 ジョブ))]> ∅))))).

  (** The dictionary [SQSメッセージからジョブを復元] returns: its six keys. *)
Record 復元情報 : Type := {
  復元_ジョブID : Value;
  復元_リポジトリID : Value;
  復元_種別 : Job.ジョブ種別;
  復元_優先度 : Job.ジョブ優先度;
  復元_入力パラメータ : Value;
  復元_作成日時 : datetime
}.

  (** [SQSメッセージからジョブを復元]: the entries of the dictionary
      display are evaluated in order. *)
Definition SQSメッセージからジョブを復元 `{Calendar}
    (メッセージ : gmap string Value) : Result 復元情報 :=
  job_id ← getitem メッセージ "job_id";
  repo_id ← getitem メッセージ "repo_id";
  種別 ← (v ← getitem メッセージ "type"; enum_call_value v);
  優先度 ← (v ← getitem メッセージ "priority"; enum_call_value v);
  let 入力パラメータ := get メッセージ "input_params" (VMap ∅) in
  作成日時 ← (v ← getitem メッセージ "created_at"; parse_datetime v);
  Return {|
    復元_ジョブID := job_id;
    復元_リポジトリID := repo_id;
    復元_種別 := 種別;
    復元_優先度 := 優先度;
    復元_入力パラメータ := 入力パラメータ;
    復元_作成日時 := 作成日時
  |}.

End Queue.


(** ** Notions used to state the properties *)

Module Notions.
  Import Py DynamoDB.

  (** No white space at the end of a text. *)
Fixpoint no_trailing_space (s : string) : Prop :=
  match s with
  | EmptyString => True
  | String c EmptyString => PyStr.is_space c = false
  | String _ s' => no_trailing_space s'
  end.

  (** The record of every repository id other than [id] is in [t'] what it
      was in [t]. *)
Definition 他は不変 (id : string) (t t' : Table) : Prop :=
  forall id', id' <> id -> Manager.保存済み t' id' = Manager.保存済み t id'.

  (** The call raises [e] and leaves the stored items as they are. *)
Definition fails_with {A} (e : Exn) (m : M A) (t : Table) : Prop :=
  (m t).1 = Raise e /\ items (m t).2 = items t.

  (** The repository that a successful [ステータスを更新] leaves behind: the
      new status, the update time, and the scan reference with its time
      when one was given. *)
Definition ステータス更新後 (現在 : Clock) (r : Repo.リポジトリ)
    (新ステータス : Repo.リポジトリステータス) (最終スキャンSHA : option string)
    : Repo.リポジトリ :=
  let 刻印 := opt_str_truthy 最終スキャンSHA in
  {| Repo.リポジトリID := Repo.リポジトリID r;
     Repo.プロバイダー := Repo.プロバイダー r;
     Repo.リモートURL := Repo.リモートURL r;
     Repo.表示名 := Repo.表示名 r;
     Repo.デフォルトブランチ := Repo.デフォルトブランチ r;
     Repo.ステータス := 新ステータス;
     Repo.最終スキャンSHA :=
       if 刻印 then 最終スキャンSHA else Repo.最終スキャンSHA (Repo.往復後 r);
     Repo.最終スキャン日時 :=
       if 刻印 then Some (現在 0%nat) else Repo.最終スキャン日時 r;
     Repo.作成日時 := Repo.作成日時 r;
     Repo.更新日時 := if 刻印 then 現在 1%nat else 現在 0%nat;
     Repo.削除フラグ := Repo.削除フラグ r;
     Repo.メタデータ := Repo.メタデータ r |}.


  (** A repository that the constructor can return. *)
Definition 妥当 (r : Repo.リポジトリ) : Prop :=
  exists 現在 a, Repo.作成 現在 a = Py.Return r.

  (** Sorted by descending update time. *)
Definition 更新日時の降順 (l : list Repo.リポジトリ) : Prop :=
  StronglySorted (fun a b => Repo.更新日時 b <= Repo.更新日時 a) l.

  (** The records a scan with a limit evaluates: all of them when the
      limit is absent or zero. *)
Definition 評価対象 {A} (制限数 : option nat) (l : list A) : list A :=
  match 制限数 with
  | Some (S n) => take (S n) l
  | _ => l
  end.

End Notions.

(** ** The listing operations of the manager *)

(** The definitions in effect of [リポジトリ一覧を取得] and
    [最近更新されたリポジトリを取得], with the base-class query they call.  A
    limit is a natural number; a negative limit is not modelled. *)

Module Listing.
  Import Py DynamoDB Manager.

  (** [l.sort(key=key, reverse=True)]: a stable sort by descending key;
      elements with equal keys keep their order. *)
Fixpoint insert_desc {A} (key : A -> Z) (x : A) (l : list A) : list A :=
  match l with
  | [] => [x]
  | y :: l' => if key y >? key x then y :: insert_desc key x l' else x :: l
  end.

Definition sort_desc {A} (key : A -> Z) (l : list A) : list A :=
  foldr (insert_desc key) [] l.

  (** [l[:n]] *)
Definition slice_to {A} (n : Z) (l : list A) : list A :=
  if 0 <=? n then take (Z.to_nat n) l
  else take (length l - Z.to_nat (- n)) l.

  (** [Attr('deleted').ne(True)] *)
Definition 未削除フィルター : Filter := Attr_ne "deleted" (VBool true).

  (** What the service answers to a query of a global secondary index:
      a function of the index name, the key attribute and value of
      [Key(a).eq(v)], the direction and the limit.  The service maintains
      the index and keeps it only eventually consistent with the table, so
      the answer is not derived from the items of the model. *)
Definition IndexAnswer : Type :=
  string -> string * Value -> bool -> option nat -> list (gmap string Value).

  (** [Table.query(KeyConditionExpression=..., IndexName=...,
      ScanIndexForward=..., Limit=...)]: the response's ['Items']. *)
Definition query (答 : IndexAnswer) (キー条件式 : string * Value)
    (インデックス名 : string) (昇順 : bool) (limit : option nat)
    : M (list (gmap string Value)) :=
  request (mret (答 インデックス名 キー条件式 昇順 limit)).

  (** [クエリ実行] of the base class, with an index name. *)
Definition クエリ実行 (答 : IndexAnswer) (キー条件式 : string * Value)
    (インデックス名 : string) (制限数 : option nat) (昇順 : bool)
    : M (list (gmap string Value)) :=
  try_except
    (query 答 キー条件式 インデックス名 昇順
       (match 制限数 with Some O => None | other => other end))
    on_client_error.

Section Methods.
  Context `{Calendar}.

  (** The loop of [リポジトリ一覧を取得]: the items that are not soft-deleted
      are converted in order; the first conversion that fails raises. *)
Fixpoint 有効分を変換 (現在 : Clock) (アイテムリスト : list (gmap string Value))
    : Result (list Repo.リポジトリ) :=
  match アイテムリスト with
  | [] => Return []
  | アイテム :: 残り =>
      if negb (truthy (get アイテム "deleted" (VBool false)))
      then r ← Repo.DynamoDB項目から作成 現在 アイテム;
           rs ← 有効分を変換 現在 残り;
           Return (r :: rs)
      else 有効分を変換 現在 残り
  end.

  (** The list comprehension of [最近更新されたリポジトリを取得]: every item
      is converted. *)
Fixpoint 全件を変換 (現在 : Clock) (アイテムリスト : list (gmap string Value))
    : Result (list Repo.リポジトリ) :=
  match アイテムリスト with
  | [] => Return []
  | アイテム :: 残り =>
      r ← Repo.DynamoDB項目から作成 現在 アイテム;
      rs ← 全件を変換 現在 残り;
      Return (r :: rs)
  end.

  (** [リポジトリ一覧を取得], the definition in effect.  A status is a
      [str] and so is true when its value is not empty. *)
Definition リポジトリ一覧を取得 (答 : IndexAnswer) (現在 : Clock)
    (ステータス : option Repo.リポジトリステータス) (制限数 : option nat)
    : M (list Repo.リポジトリ) :=
  try_except
    (アイテムリスト ←
       match ステータス with
       | Some st =>
           if PyStr.truthy (value st)
           then クエリ実行 答 ("status", VStr (value st)) "status-index"
                  制限数 false
           else スキャン実行 (Some 未削除フィルター) 制限数
       | None => スキャン実行 (Some 未削除フィルター) 制限数
       end;
     リポジトリリスト ← lift (有効分を変換 現在 アイテムリスト);
     mret (sort_desc Repo.更新日時 リポジトリリスト))
    例外を包む.

  (** [最近更新されたリポジトリを取得], the definition in effect. *)
Definition 最近更新されたリポジトリを取得 (現在 : Clock) (件数 : Z)
    : M (list Repo.リポジトリ) :=
  try_except
    (アイテムリスト ← スキャン実行 (Some 未削除フィルター) None;
     リポジトリリスト ← lift (全件を変換 現在 アイテムリスト);
     mret (slice_to 件数 (sort_desc Repo.更新日時 リポジトリリスト)))
    例外を包む.

End Methods.

End Listing.

(** ** The counting operations of the manager *)

Module Counts.
  Import Py DynamoDB Manager.

  (** A [dict] whose keys are attribute values, as a list of entries in
      insertion order.  Python hashes and compares [True] as [1] and
      [False] as [0], so they are the same key; a dictionary is not
      hashable. *)
Definition Dict : Type := list (Value * Z).

Definition hashable (v : Value) : bool :=
  match v with VMap _ => false | _ => true end.

Definition as_key (v : Value) : Value :=
  match v with
  | VBool b => VNum (if b then 1 else 0)
  | _ => v
  end.

Definition key_eq (a b : Value) : bool := bool_decide (as_key a = as_key b).

  (** [d.get(k, default)] *)
Fixpoint dict_get (d : Dict) (k : Value) (default : Z) : Z :=
  match d with
  | [] => default
  | (k', v) :: d' => if key_eq k' k then v else dict_get d' k default
  end.

  (** [d[k] = v]: the entry of an equal key keeps its key and place. *)
Fixpoint dict_set (d : Dict) (k : Value) (v : Z) : Dict :=
  match d with
  | [] => [(k, v)]
  | (k', v') :: d' =>
      if key_eq k' k then (k', v) :: d' else (k', v') :: dict_set d' k v
  end.

  (** The loop of [プロバイダー別リポジトリ数を取得]. *)
Fixpoint プロバイダー別に数える (プロバイダー別数 : Dict)
    (アイテムリスト : list (gmap string Value)) : Result Dict :=
  match アイテムリスト with
  | [] => Return プロバイダー別数
  | アイテム :: 残り =>
      let プロバイダー := get アイテム "provider" (VStr "unknown") in
      if hashable プロバイダー
      then プロバイダー別に数える
             (dict_set プロバイダー別数 プロバイダー
                (dict_get プロバイダー別数 プロバイダー 0 + 1))
             残り
      else Raise TypeError
  end.

  (** [プロバイダー別リポジトリ数を取得], the definition in effect. *)
Definition プロバイダー別リポジトリ数を取得 : M Dict :=
  try_except
    (アイテムリスト ← スキャン実行 (Some Listing.未削除フィルター) None;
     lift (プロバイダー別に数える [] アイテムリスト))
    例外を包む.

  (** The sum of the counts of a dictionary. *)
Definition total (d : Dict) : Z := foldr (fun kv n => kv.2 + n) 0 d.

  (** The provider under which a record is counted. *)
Definition 集計キー (アイテム : gmap string Value) : Value :=
  get アイテム "provider" (VStr "unknown").

End Counts.


(** ** The HTTP handlers: [api/routers/repositories.py] *)

(** Each handler is modelled from the point where FastAPI has parsed the
    request and injected a connected manager: it returns its response
    model, sent with the status code of its decorator, or raises an
    [HTTPException].  Of an [HTTPException] the status code is kept, of a
    response model every field but the constant message text.  The logger
    calls are left out. *)

Module Router.
  Import Py DynamoDB.

  (** What can travel up a handler: an exception of the data layer, the
      [AttributeError] of a method call on [None], or an
      [HTTPException]. *)
Inductive Raised : Type :=
  | Data (e : Exn)
  | AttributeError
  | HTTPException (status_code : Z).

Inductive Outcome (A : Type) : Type :=
  | Respond (a : A)
  | Fail (e : Raised).
Arguments Respond {A} a.
Arguments Fail {A} e.

  (** A handler: a computation over the table that responds or fails. *)
Definition Handler (A : Type) : Type := Table -> Outcome A * Table.

#[global] Instance Handler_ret : MRet Handler := fun A a t => (Respond a, t).
#[global] Instance Handler_bind : MBind Handler := fun A B f m t =>
  match m t with
  | (Respond a, t') => f a t'
  | (Fail e, t') => (Fail e, t')
  end.

  (** [await repo.method(...)] *)
Definition await {A} (m : M A) : Handler A := fun t =>
  match m t with
  | (Return a, t') => (Respond a, t')
  | (Raise e, t') => (Fail (Data e), t')
  end.

Definition raise {A} (e : Raised) : Handler A := fun t => (Fail e, t).

Definition try_except {A} (m : Handler A) (h : Raised -> Handler A)
    : Handler A := fun t =>
  match m t with
  | (Fail e, t') => h e t'
  | (Respond a, t') => (Respond a, t')
  end.

  (** The status codes the handlers name. *)
Definition HTTP_404_NOT_FOUND : Z := 404.
Definition HTTP_500_INTERNAL_SERVER_ERROR : Z := 500.



Record リポジトリ詳細 : Type := {
  詳細_リポジトリID : string;
  詳細_プロバイダー : Repo.リポジトリプロバイダー;
  詳細_リモートURL : string;
  詳細_表示名 : string;
  詳細_デフォルトブランチ : string;
  詳細_ステータス : Repo.リポジトリステータス;
  詳細_最終スキャンSHA : option string;
  詳細_最終スキャン日時 : option datetime;
  詳細_作成日時 : datetime;
  詳細_更新日時 : datetime;
  詳細_ページ数 : option Z;
  詳細_最新ジョブ : option (gmap string string)
}.

Record リポジトリ一覧項目 : Type := {
  項目_リポジトリID : string;
  項目_表示名 : string;
  項目_プロバイダー : Repo.リポジトリプロバイダー;
  項目_ステータス : Repo.リポジトリステータス;
  項目_最終スキャン日時 : option datetime;
  項目_更新日時 : datetime
}.

Record リポジトリ一覧レスポンス : Type := {
  リポジトリ一覧 : list リポジトリ一覧項目;
  総件数 : Z
}.

Section Handlers.
  Context `{Calendar}.

  (** [repo.リポジトリを作成(...)] as the handler calls it: the branch of
      the request may be [None], which the model of the repository rejects
      when the manager constructs it, after the duplicate check. *)
Definition リポジトリを作成 (現在 : Clock) (リポジトリID : string)
    (プロバイダー : Repo.リポジトリプロバイダー) (リモートURL 表示名 : string)
    (デフォルトブランチ : option string) : M Repo.リポジトリ :=
  match デフォルトブランチ with
  | Some ブランチ =>
      Manager.リポジトリを作成 現在 リポジトリID プロバイダー リモートURL 表示名
        ブランチ
  | None =>
      DynamoDB.try_except
        (既存リポジトリ ← Manager.URLでリポジトリを検索 現在 リモートURL;
         match 既存リポジトリ with
         | Some _ => DynamoDB.raise DynamoDB条件チェックエラー
         | None => DynamoDB.raise ValidationError
         end)
        (fun e => match e with
                  | DynamoDB条件チェックエラー => reraise e
                  | _ => Manager.例外を包む e
                  end)
  end.


  (** One entry of the listing. *)
Definition 一覧項目 (r : Repo.リポジトリ) : リポジトリ一覧項目 := {|
  項目_リポジトリID := Repo.リポジトリID r;
  項目_表示名 := Repo.表示名 r;
  項目_プロバイダー := Repo.プロバイダー r;
  項目_ステータス := Repo.ステータス r;
  項目_最終スキャン日時 := Repo.最終スキャン日時 r;
  項目_更新日時 := Repo.更新日時 r
|}.

  (** [get_all_repositories]; the limit is a natural number, as in
      [Listing]. *)
Definition get_all_repositories (答 : Listing.IndexAnswer) (現在 : Clock)
    (limit : nat) : Handler リポジトリ一覧レスポンス :=
  try_except
    (repos ← await (Listing.リポジトリ一覧を取得 答 現在 None (Some limit));
     let total_count := Z.of_nat (length repos) in
     let items := 一覧項目 <$> repos in
     mret {| リポジトリ一覧 := items; 総件数 := total_count |})
    (fun e => raise (HTTPException HTTP_500_INTERNAL_SERVER_ERROR)).

  (** The detail model built from the entries of [repo_data.model_dump()]
      with [ページ数=0] and [最新ジョブ=None]: its fields are taken from the
      dump, the other entries of the dump are ignored. *)
Definition 詳細 (repo_data : Repo.リポジトリ) : リポジトリ詳細 := {|
  詳細_リポジトリID := Repo.リポジトリID repo_data;
  詳細_プロバイダー := Repo.プロバイダー repo_data;
  詳細_リモートURL := Repo.リモートURL repo_data;
  詳細_表示名 := Repo.表示名 repo_data;
  詳細_デフォルトブランチ := Repo.デフォルトブランチ repo_data;
  詳細_ステータス := Repo.ステータス repo_data;
  詳細_最終スキャンSHA := Repo.最終スキャンSHA repo_data;
  詳細_最終スキャン日時 := Repo.最終スキャン日時 repo_data;
  詳細_作成日時 := Repo.作成日時 repo_data;
  詳細_更新日時 := Repo.更新日時 repo_data;
  詳細_ページ数 := Some 0;
  詳細_最新ジョブ := None
|}.

  (** [get_repository_details]: the manager's get returns [None] for a
      missing repository, and [None] has no [model_dump]. *)
Definition get_repository_details (現在 : Clock) (repo_id : string)
    : Handler リポジトリ詳細 :=
  try_except
    (repo_data ← await (Manager.リポジトリを取得 現在 repo_id);
     match repo_data with
     | Some repo_data => mret (詳細 repo_data)
     | None => raise AttributeError
     end)
    (fun e => match e with
              | Data DynamDBアイテム未発見エラー =>
                  raise (HTTPException HTTP_404_NOT_FOUND)
              | _ => raise (HTTPException HTTP_500_INTERNAL_SERVER_ERROR)
              end).

  (** [delete_repository]: the [HTTPException] raised inside the [try] is
      an [Exception] and is caught by the handler's own [except]. *)
Definition delete_repository (現在 : Clock) (repo_id : string)
    : Handler unit :=
  try_except
    (success ← await (Manager.リポジトリを削除 現在 repo_id false);
     if negb success then raise (HTTPException HTTP_404_NOT_FOUND)
     else mret tt)
    (fun e => raise (HTTPException HTTP_500_INTERNAL_SERVER_ERROR)).

End Handlers.

End Router.

(** ** Owner and name of a remote URL: [URLからリポジトリ情報を抽出] *)

Module RepoInfo.
  Import Py.

  (** [s.replace(old, new)] for an [old] that is not empty: every
      occurrence, found from left to right without overlap, is replaced.
      [skip] counts the characters of an occurrence still to be passed. *)
Fixpoint replace_from (old new : string) (skip : nat) (s : string) : string :=
  match s with
  | EmptyString => EmptyString
  | String c s' =>
      match skip with
      | S k => replace_from old new k s'
      | O =>
          if String.prefix old s
          then new ++ replace_from old new (String.length old - 1) s'
          else String c (replace_from old new 0 s')
      end
  end.

Definition replace (old new s : string) : string := replace_from old new 0 s.

  (** A pattern with groups: a literal text, a group [([^c]+)], or an
      optional literal [(?:text)?]. *)
Inductive Token : Set :=
  | Lit (text : string)
  | Group (c : ascii)
  | OptLit (text : string).

  (** [([^c]+)] followed by the continuation [k]: the longest text first,
      then shorter ones.  The result is the text of the group and what
      [k] returns for the rest. *)
Fixpoint group_plus {R} (c : ascii) (k : string -> option R) (s : string)
    : option (string * R) :=
  match s with
  | EmptyString => None
  | String a s' =>
      if Ascii.eqb a c then None
      else match group_plus c k s' with
           | Some (g, r) => Some (String a g, r)
           | None =>
               match k s' with
               | Some r => Some (String a EmptyString, r)
               | None => None
               end
           end
  end.

  (** [re.match(pattern, s).groups()], [None] when there is no match; the
      pattern ends with [$]. *)
Fixpoint groups (tokens : list Token) : string -> option (list string) :=
  match tokens with
  | [] => fun s => if Re.at_end s then Some [] else None
  | Lit text :: rest =>
      fun s => match Re.strip_prefix text s with
               | Some s' => groups rest s'
               | None => None
               end
  | OptLit text :: rest =>
      fun s => match Re.strip_prefix text s with
               | Some s' =>
                   match groups rest s' with
                   | Some gs => Some gs
                   | None => groups rest s
                   end
               | None => groups rest s
               end
  | Group c :: rest =>
      fun s => match group_plus c (groups rest) s with
               | Some (g, gs) => Some (g :: gs)
               | None => None
               end
  end.

  (** A pattern of the validator with each of its classes made a group. *)
Definition with_groups (tokens : list Re.Token) : list Token :=
  (fun token => match token with
                | Re.Lit text => Lit text
                | Re.NotChar1 c => Group c
                end) <$> tokens.

  (** The dictionary the function returns: its three entries. *)
Record 情報 : Type := {
  所有者 : string;
  リポジトリ名 : string;
  完全名 : string
}.

Definition github_patterns : list (list Token) :=
  [ [Lit "https://github.com/"; Group "/"; Lit "/"; Group "/";
     OptLit ".git"; OptLit "/"];
    [Lit "git@github.com:"; Group "/"; Lit "/"; Group "/"; Lit ".git"] ].

Definition codecommit_patterns : list (list Token) :=
  [ [Lit "codecommit://"; Group "/"];
    [Lit "codecommit::"; Group ":"; Lit "://"; Group "/"];
    [Lit "https://git-codecommit."; Group ".";
     Lit ".amazonaws.com/v1/repos/"; Group "/"] ].

  (** The loop over the GitHub patterns: the first match returns. *)
Fixpoint github_loop (patterns : list (list Token)) (URL : string)
    : Result 情報 :=
  match patterns with
  | [] => Raise ValueError
  | pattern :: rest =>
      match groups pattern URL with
      | Some [所有者; リポジトリ名] =>
          Return {| 所有者 := 所有者;
                    リポジトリ名 := replace ".git" "" リポジトリ名;
                    完全名 := 所有者 ++ "/" ++ replace ".git" "" リポジトリ名 |}
      | Some _ => Raise ValueError
      | None => github_loop rest URL
      end
  end.

  (** The loop over the CodeCommit patterns: a match with one group or
      with two groups returns. *)
Fixpoint codecommit_loop (patterns : list (list Token)) (URL : string)
    : Result 情報 :=
  match patterns with
  | [] => Raise ValueError
  | pattern :: rest =>
      match groups pattern URL with
      | Some [リポジトリ名] =>
          Return {| 所有者 := "codecommit";
                    リポジトリ名 := リポジトリ名;
                    完全名 := "codecommit/" ++ リポジトリ名 |}
      | Some [リージョン; リポジトリ名] =>
          if PyStr.contains "amazonaws.com" URL
          then Return {| 所有者 := "codecommit-" ++ リージョン;
                         リポジトリ名 := リポジトリ名;
                         完全名 := "codecommit-" ++ リージョン ++ "/"
                                   ++ リポジトリ名 |}
          else Return {| 所有者 := "codecommit-" ++ リージョン;
                         リポジトリ名 := リポジトリ名;
                         完全名 := "codecommit-" ++ リージョン ++ "/"
                                   ++ リポジトリ名 |}
      | Some _ => codecommit_loop rest URL
      | None => codecommit_loop rest URL
      end
  end.

  (** [URLからリポジトリ情報を抽出] *)
Definition URLからリポジトリ情報を抽出 (URL : string)
    (プロバイダー : Repo.リポジトリプロバイダー) : Result 情報 :=
  match プロバイダー with
  | Repo.GITHUB => github_loop github_patterns URL
  | Repo.CODECOMMIT => codecommit_loop codecommit_patterns URL
  end.

  (** The full name is owner, slash, name. *)
Definition 整合 (info : 情報) : Prop :=
  完全名 info = 所有者 info ++ "/" ++ リポジトリ名 info.

End RepoInfo.

(** ** A reference calendar *)

(** One calendar that satisfies the two laws: an instant is written as the
    decimal number of its microseconds.  The properties below hold for
    every calendar; this one serves to run the definitions. *)
Definition decimal_isoformat (t : Py.datetime) : string :=
  NilEmpty.string_of_int (Z.to_int t).

Definition decimal_fromisoformat (s : string) : option Py.datetime :=
  Z.of_int <$> NilEmpty.int_of_string s.

Lemma decimal_roundtrip (t : Py.datetime) :
  decimal_fromisoformat (decimal_isoformat t) = Some t.
Proof.
  unfold decimal_fromisoformat, decimal_isoformat.
  rewrite NilEmpty.isi. cbn. f_equal. apply DecimalZ.of_to.
Qed.

Lemma decimal_truthy (t : Py.datetime) :
  PyStr.truthy (decimal_isoformat t) = true.
Proof.
  unfold decimal_isoformat.
  destruct t as [|p|p]; cbn; try reflexivity.
  pose proof (DecimalPos.Unsigned.to_uint_nonnil p) as Hp.
  destruct (Pos.to_uint p); [congruence|reflexivity..].
Qed.

Definition decimal_calendar : Py.Calendar := {|
  Py.isoformat := decimal_isoformat;
  Py.fromisoformat := decimal_fromisoformat;
  Py.epoch_seconds := fun t => Z.quot t 1000000;
  Py.fromisoformat_isoformat := decimal_roundtrip;
  Py.isoformat_truthy := decimal_truthy
|}.

(** ** Sample data *)

Module Sample.
  Import Py.

  (** A clock stuck at one instant. *)
Definition 時計 : Clock := fun _ => 1700000000000000.

  (** The arguments of the scenario of the specification: a full parse of
      normal priority, everything else left to its default. *)
Definition ジョブ引数 (種別 : EnumArg Job.ジョブ種別) : Job.引数 := {|
  Job.引数_ジョブID := "job-0123456789ab";
  Job.引数_リポジトリID := "repo-01234567";
  Job.引数_種別 := 種別;
  Job.引数_ステータス := None;
  Job.引数_優先度 := Some (ByValue "NORMAL");
  Job.引数_開始日時 := None;
  Job.引数_完了日時 := None;
  Job.引数_作成日時 := None;
  Job.引数_更新日時 := None;
  Job.引数_TTL := None;
  Job.引数_実行者 := None;
  Job.引数_エラーメッセージ := None;
  Job.引数_進捗率 := None;
  Job.引数_処理済みファイル数 := None;
  Job.引数_総ファイル数 := None;
  Job.引数_入力パラメータ := None;
  Job.引数_出力結果 := None;
  Job.引数_メタデータ := None
|}.

  (** The same with an explicit total-file count. *)
Definition 総数付き引数 (総数 : option Z) : Job.引数 := {|
  Job.引数_ジョブID := "job-0123456789ab";
  Job.引数_リポジトリID := "repo-01234567";
  Job.引数_種別 := Member Job.PARSE_FULL;
  Job.引数_ステータス := None;
  Job.引数_優先度 := None;
  Job.引数_開始日時 := None;
  Job.引数_完了日時 := None;
  Job.引数_作成日時 := None;
  Job.引数_更新日時 := None;
  Job.引数_TTL := None;
  Job.引数_実行者 := None;
  Job.引数_エラーメッセージ := None;
  Job.引数_進捗率 := None;
  Job.引数_処理済みファイル数 := None;
  Job.引数_総ファイル数 := 総数;
  Job.引数_入力パラメータ := None;
  Job.引数_出力結果 := None;
  Job.引数_メタデータ := None
|}.

Definition 更新引数 : Job.更新引数 := {|
  Job.更新引数_ステータス := Some (ByValue "RUNNING");
  Job.更新引数_進捗率 := None;
  Job.更新引数_エラーメッセージ := None;
  Job.更新引数_処理済みファイル数 := None;
  Job.更新引数_総ファイル数 := None;
  Job.更新引数_出力結果 := None
|}.

  (** An empty, reachable repository table. *)
Definition 空のテーブル : DynamoDB.Table := {|
  DynamoDB.key_attr := "repo_id";
  DynamoDB.items := [];
  DynamoDB.fault := None;
  DynamoDB.raised := []
|}.

  (** The record of some other repository. *)
Definition 他のアイテム : gmap string Value :=
  <["repo_id" := VStr "repo-bbbb0001"]>
  (<["provider" := VStr "github"]>
  (<["remote_url" := VStr "https://github.com/acme/gadgets"]>
  (<["display_name" := VStr "Gadgets"]>
  (<["default_branch" := VStr "main"]>
  (<["status" := VStr "READY"]>
  (<["created_at" := VStr "1600000000000000"]>
  (<["updated_at" := VStr "1600000000000000"]>
  (<["deleted" := VBool false]>
  (<["metadata" := VMap ∅]> ∅))))))))).

  (** A reachable repository table that holds that one record. *)
Definition 一件のテーブル : DynamoDB.Table := {|
  DynamoDB.key_attr := "repo_id";
  DynamoDB.items := [他のアイテム];
  DynamoDB.fault := None;
  DynamoDB.raised := []
|}.

  (** The registration of the scenario of the specification. *)
Definition 登録 (リポジトリID 表示名 ブランチ : string)
    : DynamoDB.M Repo.リポジトリ :=
  Manager.リポジトリを作成 (H := decimal_calendar) 時計 リポジトリID
    Repo.GITHUB "https://github.com/acme/widgets" 表示名 ブランチ.

  (** The table after the registration on the empty table, and after the
      logical delete of that repository. *)
Definition 登録済みテーブル : DynamoDB.Table :=
  (登録 "repo-aaaa0001" "Widgets" "main" 空のテーブル).2.

Definition 論理削除済みテーブル : DynamoDB.Table :=
  (Manager.リポジトリを削除 (H := decimal_calendar) 時計 "repo-aaaa0001" false
     登録済みテーブル).2.

  (** The table after the registration beside the other record. *)
Definition 二件のテーブル : DynamoDB.Table :=
  (登録 "repo-aaaa0001" "Widgets" "main" 一件のテーブル).2.

End Sample.

(** ** Further sample data *)

Module Example.
  Import Py.

  (** An unreachable repository table. *)
Definition 障害テーブル : DynamoDB.Table := {|
  DynamoDB.key_attr := "repo_id";
  DynamoDB.items := [Sample.他のアイテム];
  DynamoDB.fault := Some "ServiceUnavailable";
  DynamoDB.raised := []
|}.

  (** The arguments and the model of the record [Sample.他のアイテム]. *)
Definition 引数 : Repo.引数 := {|
  Repo.引数_リポジトリID := "repo-bbbb0001";
  Repo.引数_プロバイダー := ByValue "github";
  Repo.引数_リモートURL := "https://github.com/acme/gadgets";
  Repo.引数_表示名 := " Gadgets ";
  Repo.引数_デフォルトブランチ := None;
  Repo.引数_ステータス := None;
  Repo.引数_最終スキャンSHA := None;
  Repo.引数_最終スキャン日時 := None;
  Repo.引数_作成日時 := Some 1600000000000000;
  Repo.引数_更新日時 := Some 1600000000000000;
  Repo.引数_削除フラグ := None;
  Repo.引数_メタデータ := None
|}.

Definition リポジトリ : Repo.リポジトリ := {|
  Repo.リポジトリID := "repo-bbbb0001";
  Repo.プロバイダー := Repo.GITHUB;
  Repo.リモートURL := "https://github.com/acme/gadgets";
  Repo.表示名 := "Gadgets";
  Repo.デフォルトブランチ := "main";
  Repo.ステータス := Repo.READY;
  Repo.最終スキャンSHA := None;
  Repo.最終スキャン日時 := None;
  Repo.作成日時 := 1600000000000000;
  Repo.更新日時 := 1600000000000000;
  Repo.削除フラグ := false;
  Repo.メタデータ := Some ∅
|}.

  (** A job as the constructor returns it for the sample arguments. *)
Definition ジョブ : Job.ジョブ := {|
  Job.ジョブID := "job-0123456789ab";
  Job.リポジトリID := "repo-01234567";
  Job.種別 := Job.PARSE_FULL;
  Job.ステータス := Job.PENDING;
  Job.優先度 := Job.NORMAL;
  Job.開始日時 := None;
  Job.完了日時 := None;
  Job.作成日時 := 1700000000000000;
  Job.更新日時 := 1700000000000000;
  Job.TTL := Some 1702592000;
  Job.実行者 := None;
  Job.エラーメッセージ := None;
  Job.進捗率 := 0;
  Job.処理済みファイル数 := 0;
  Job.総ファイル数 := None;
  Job.入力パラメータ := Some ∅;
  Job.出力結果 := Some ∅;
  Job.メタデータ := Some ∅
|}.

  (** An index that answers every query with no items. *)
Definition 空の索引 : Listing.IndexAnswer := fun _ _ _ _ => [].

End Example.

(* ===================================================================== *)
(** * Part II: properties                                                  *)
(* ===================================================================== *)

(** ** Splitting on a separator *)

Section SplitFacts.
  Variable sep : ascii.







End SplitFacts.

(** ** Page classification *)


(** The scenario of the specification: README.md is a README page of high
    importance. *)
Example readme_md_is_readme :
  Page.ソースパスから種別を推定 "README.md" = Page.README
  /\ Page.重要度を推定 "README.md" "" = "high".
Proof. split; reflexivity. Qed.

(** ** Job model *)

Section JobFacts.
  Import Py Job.
  Context `{Calendar}.

Lemma enum_call_of_種別 (k : ジョブ種別) : enum_call (value k) = Return k.
Proof. destruct k; reflexivity. Qed.

Lemma enum_call_of_ステータス (k : ジョブステータス) :
  enum_call (value k) = Return k.
Proof. destruct k; reflexivity. Qed.

Lemma enum_call_of_優先度 (k : ジョブ優先度) : enum_call (value k) = Return k.
Proof. destruct k; reflexivity. Qed.

Lemma 進捗率妥当性_spec (p : Z) :
  進捗率妥当性を検証 p = if decide (0 <= p <= 100) then Return p else Raise ValueError.
Proof.
  unfold 進捗率妥当性を検証.
  destruct (Z.ltb_spec p 0), (Z.gtb_spec p 100); case_decide; cbn; try reflexivity; lia.
Qed.

  (** The item of a job, attribute by attribute. *)
Ltac item_lookup j :=
  unfold DynamoDB項目に変換;
  destruct (開始日時 j), (完了日時 j), (opt_str_truthy (実行者 j)),
    (opt_str_truthy (エラーメッセージ j)), (opt_int_truthy (総ファイル数 j));
  reflexivity.

Lemma item_job_id j : DynamoDB項目に変換 j !! "job_id" = Some (VStr (ジョブID j)).
Proof. item_lookup j. Qed.
Lemma item_repo_id j : DynamoDB項目に変換 j !! "repo_id" = Some (VStr (リポジトリID j)).
Proof. item_lookup j. Qed.
Lemma item_type j : DynamoDB項目に変換 j !! "type" = Some (VStr (value (種別 j))).
Proof. item_lookup j. Qed.
Lemma item_status j : DynamoDB項目に変換 j !! "status" = Some (VStr (value (ステータス j))).
Proof. item_lookup j. Qed.
Lemma item_priority j : DynamoDB項目に変換 j !! "priority" = Some (VStr (value (優先度 j))).
Proof. item_lookup j. Qed.
Lemma item_created_at j :
  DynamoDB項目に変換 j !! "created_at" = Some (VStr (isoformat (作成日時 j))).
Proof. item_lookup j. Qed.
Lemma item_updated_at j :
  DynamoDB項目に変換 j !! "updated_at" = Some (VStr (isoformat (更新日時 j))).
Proof. item_lookup j. Qed.
Lemma item_ttl j : DynamoDB項目に変換 j !! "ttl" = Some (of_opt_int (TTL j)).
Proof. item_lookup j. Qed.
Lemma item_progress j : DynamoDB項目に変換 j !! "progress" = Some (VNum (進捗率 j)).
Proof. item_lookup j. Qed.
Lemma item_processed_files j :
  DynamoDB項目に変換 j !! "processed_files" = Some (VNum (処理済みファイル数 j)).
Proof. item_lookup j. Qed.
Lemma item_input_params j :
  DynamoDB項目に変換 j !! "input_params" = Some (of_opt_map (入力パラメータ j)).
Proof. item_lookup j. Qed.
Lemma item_output_result j :
  DynamoDB項目に変換 j !! "output_result" = Some (of_opt_map (出力結果 j)).
Proof. item_lookup j. Qed.
Lemma item_metadata j :
  DynamoDB項目に変換 j !! "metadata" = Some (of_opt_map (メタデータ j)).
Proof. item_lookup j. Qed.
Lemma item_started_at j :
  DynamoDB項目に変換 j !! "started_at" = (fun t => VStr (isoformat t)) <$> 開始日時 j.
Proof. item_lookup j. Qed.
Lemma item_completed_at j :
  DynamoDB項目に変換 j !! "completed_at" = (fun t => VStr (isoformat t)) <$> 完了日時 j.
Proof. item_lookup j. Qed.
Lemma item_executor j :
  DynamoDB項目に変換 j !! "executor" =
  if opt_str_truthy (実行者 j) then Some (VStr (default "" (実行者 j))) else None.
Proof. item_lookup j. Qed.
Lemma item_error_message j :
  DynamoDB項目に変換 j !! "error_message" =
  if opt_str_truthy (エラーメッセージ j)
  then Some (VStr (default "" (エラーメッセージ j))) else None.
Proof. item_lookup j. Qed.
Lemma item_total_files j :
  DynamoDB項目に変換 j !! "total_files" =
  if opt_int_truthy (総ファイル数 j) then Some (of_opt_int (総ファイル数 j)) else None.
Proof. item_lookup j. Qed.

Lemma parse_isoformat (t : datetime) : parse_datetime (VStr (isoformat t)) = Return t.
Proof. unfold parse_datetime. now rewrite fromisoformat_isoformat. Qed.


Lemma present_datetime_roundtrip (k : string) (o : option datetime) :
  (if truthy (match (fun t => VStr (isoformat t)) <$> o with
              | Some v => v
              | None => VNull
              end)
   then t ← (v ← match (fun t => VStr (isoformat t)) <$> o with
                 | Some v => Return v
                 | None => Raise (KeyError k)
                 end; parse_datetime v); Return (Some t)
   else Return None) = Return o.
Proof.
  destruct o as [t|]; cbn; [|reflexivity].
  now rewrite isoformat_truthy, fromisoformat_isoformat.
Qed.

Lemma opt_int_roundtrip (o : option Z) : as_opt_int (of_opt_int o) = Return o.
Proof. now destruct o. Qed.

Lemma opt_map_roundtrip (o : option (gmap string string)) :
  as_opt_map (of_opt_map o) = Return o.
Proof. now destruct o. Qed.

Lemma truthy_str_roundtrip (o : option string) :
  as_opt_str (match (if opt_str_truthy o then Some (VStr (default "" o)) else None) with
              | Some v => v
              | None => VNull
              end)
  = Return (if opt_str_truthy o then o else None).
Proof. now destruct o as [[|c s]|]. Qed.

Lemma truthy_int_roundtrip (o : option Z) :
  as_opt_int (match (if opt_int_truthy o then Some (of_opt_int o) else None) with
              | Some v => v
              | None => VNull
              end)
  = Return (if opt_int_truthy o then o else None).
Proof. now destruct o as [[|p|p]|]. Qed.

Lemma roundtrip_job (現在 : Clock) (j : ジョブ) :
  0 <= 進捗率 j <= 100 ->
  is_Some (TTL j) ->
  DynamoDB項目から作成 現在 (DynamoDB項目に変換 j) = Return (往復後 j).
Proof.
  intros Hp [ttl Httl].
  unfold DynamoDB項目から作成, parse_datetime_if_present, get_truthy, getitem, get.
  rewrite item_job_id, item_repo_id, item_type, item_status, item_priority,
    item_created_at, item_updated_at, item_ttl, item_progress,
    item_processed_files, item_input_params, item_output_result, item_metadata,
    item_started_at, item_completed_at, item_executor, item_error_message,
    item_total_files.
  rewrite !present_datetime_roundtrip, !opt_int_roundtrip, !opt_map_roundtrip,
    !truthy_str_roundtrip, truthy_int_roundtrip.
  cbn [mbind Result_bind as_str as_int enum_call_value].
  rewrite enum_call_of_種別, enum_call_of_ステータス, enum_call_of_優先度.
  cbn [mbind Result_bind]. rewrite !parse_isoformat. cbn [mbind Result_bind].
  unfold 作成. cbn [引数_種別 引数_ステータス 引数_優先度 引数_進捗率 coerce_enum from_option mbind Result_bind].
  rewrite 進捗率妥当性_spec. rewrite decide_True by done.
  cbn [field mbind Result_bind]. unfold 往復後.
  destruct j; cbn in *; subst. reflexivity.
Qed.

  (** What the constructor guarantees. *)
Lemma 作成_invariant (現在 : Clock) (a : 引数) (j : ジョブ) :
  作成 現在 a = Return j ->
  0 <= 進捗率 j <= 100 /\ is_Some (TTL j).
Proof.
  unfold 作成. intros Hc.
  destruct (coerce_enum (引数_種別 a)); [|discriminate].
  destruct (from_option coerce_enum (Return PENDING) (引数_ステータス a));
    [|discriminate].
  destruct (from_option coerce_enum (Return NORMAL) (引数_優先度 a));
    [|discriminate].
  cbn [mbind Result_bind] in Hc.
  destruct (引数_進捗率 a) as [p|]; cbn [from_option] in Hc.
  - rewrite 進捗率妥当性_spec in Hc. case_decide; [|discriminate].
    cbn in Hc. injection Hc as <-. cbn. eauto.
  - cbn in Hc. injection Hc as <-. cbn. split; [lia|eauto].
Qed.

Lemma enum_call_種別_spec (s : string) (k : ジョブ種別) :
  enum_call s = Return k <-> value k = s.
Proof.
  split.
  - unfold enum_call. cbn [members ジョブ種別_enum List.find value].
    repeat match goal with
           | |- context [String.eqb ?x s] => destruct (String.eqb_spec x s)
           end; intros [= <-] || discriminate; assumption.
  - intros <-. apply enum_call_of_種別.
Qed.

End JobFacts.

(** C4. With the other arguments valid, constructing a job with progress
    [p], and constructing a job update request with progress [p], raises
    the validation error exactly when [p < 0] or [p > 100]; a progress in
    [0, 100] is accepted and stored unchanged.  Both constructors are pure
    functions: no table is in scope when they reject. *)
Theorem progress_bounds_validated `{Py.Calendar}
    (現在 : Py.Clock) (a : Job.引数) (u : Job.更新引数)
    (j0 : Job.ジョブ) (r0 : Job.ジョブ更新リクエスト) (p : Z) :
  Job.作成 現在 (Job.進捗率を指定 a None) = Py.Return j0 ->
  Job.更新リクエスト作成 (Job.更新進捗率を指定 u None) = Py.Return r0 ->
  (Job.作成 現在 (Job.進捗率を指定 a (Some p)) = Py.Raise Py.ValidationError
   <-> p < 0 \/ p > 100)
  /\ (Job.更新リクエスト作成 (Job.更新進捗率を指定 u (Some p))
      = Py.Raise Py.ValidationError
      <-> p < 0 \/ p > 100)
  /\ (0 <= p <= 100 ->
      Job.作成 現在 (Job.進捗率を指定 a (Some p))
      = Py.Return (Job.進捗率を設定 j0 p)
      /\ exists r, Job.更新リクエスト作成 (Job.更新進捗率を指定 u (Some p))
                   = Py.Return r
                   /\ Job.更新_進捗率 r = Some p).
Proof.
  unfold Job.作成, Job.更新リクエスト作成. cbn.
  destruct (Py.coerce_enum (Job.引数_種別 a)); [|discriminate].
  destruct (from_option Py.coerce_enum _ (Job.引数_ステータス a)); [|discriminate].
  destruct (from_option Py.coerce_enum _ (Job.引数_優先度 a)); [|discriminate].
  cbn. intros [= <-].
  destruct (from_option _ _ (Job.更新引数_ステータス u)); [|discriminate].
  cbn. intros _.
  rewrite 進捗率妥当性_spec.
  destruct (Z.ltb_spec p 0), (Z.gtb_spec p 100); case_decide; cbn;
    try lia; (split; [|split]); try (split; [discriminate || lia | intros; reflexivity || lia]);
    try (intros; lia).
  intros _. split; [reflexivity|]. eexists; split; reflexivity.
Qed.


(** The scenario of the specification, on the reference calendar: progress
    150 is rejected, progress 45 is accepted. *)
Lemma progress_bounds_validated_witness :
  Job.作成 (H := decimal_calendar) Sample.時計
    (Job.進捗率を指定 (Sample.ジョブ引数 (Py.ByValue "PARSE_FULL")) (Some 150))
  = Py.Raise Py.ValidationError
  /\ Job.進捗率 <$> Job.作成 (H := decimal_calendar) Sample.時計
       (Job.進捗率を指定 (Sample.ジョブ引数 (Py.ByValue "PARSE_FULL")) (Some 45))
     = Py.Return 45.
Proof.
  split.
  - edestruct (progress_bounds_validated (H := decimal_calendar) Sample.時計
                 (Sample.ジョブ引数 (Py.ByValue "PARSE_FULL")) Sample.更新引数)
      with (p := 150) as (Hout & _ & _); [reflexivity|reflexivity|].
    apply Hout. lia.
  - edestruct (progress_bounds_validated (H := decimal_calendar) Sample.時計
                 (Sample.ジョブ引数 (Py.ByValue "PARSE_FULL")) Sample.更新引数)
      with (p := 45) as (_ & _ & Hin); [reflexivity|reflexivity|].
    destruct Hin as [-> _]; [lia|reflexivity].
Defined.

(** C6. A job constructed without a TTL gets, as its TTL, the epoch second
    of its creation time plus thirty days; a job constructed with a TTL
    keeps that value.  The creation time is the one supplied, or the clock
    reading of the default factory. *)
Theorem ttl_defaults_to_thirty_days `{Py.Calendar}
    (現在 : Py.Clock) (a : Job.引数) (j : Job.ジョブ) :
  Job.作成 現在 a = Py.Return j ->
  Job.作成日時 j = default (現在 0%nat) (Job.引数_作成日時 a)
  /\ (Job.引数_TTL a = None ->
      Job.TTL j
      = Some (Py.epoch_seconds (Job.作成日時 j + Py.timedelta_days 30)))
  /\ (forall t, Job.引数_TTL a = Some t -> Job.TTL j = Some t).
Proof.
  unfold Job.作成. intros Hc.
  destruct (Py.coerce_enum (Job.引数_種別 a)); [|discriminate].
  destruct (from_option Py.coerce_enum _ (Job.引数_ステータス a)); [|discriminate].
  destruct (from_option Py.coerce_enum _ (Job.引数_優先度 a)); [|discriminate].
  cbn [mbind Py.Result_bind] in Hc.
  destruct (from_option _ _ (Job.引数_進捗率 a)); [|discriminate].
  cbn in Hc. injection Hc as <-. cbn.
  split; [reflexivity|]. split.
  - intros ->. reflexivity.
  - intros t ->. reflexivity.
Qed.

Lemma ttl_defaults_to_thirty_days_witness :
  exists j,
    Job.作成 (H := decimal_calendar) Sample.時計
      (Sample.ジョブ引数 (Py.ByValue "PARSE_FULL")) = Py.Return j
    /\ Job.作成日時 j = 1700000000000000
    /\ Job.TTL j = Some (1700000000 + 30 * 86400).
Proof.
  eexists. split; [reflexivity|].
  pose proof (ttl_defaults_to_thirty_days (H := decimal_calendar) Sample.時計
                (Sample.ジョブ引数 (Py.ByValue "PARSE_FULL")) _ eq_refl)
    as (Hc & Ht & _).
  split; [exact Hc|]. rewrite (Ht eq_refl). reflexivity.
Defined.





(** C10, the claim as stated fails in its last clause: a job whose
    total-file count is negative, hence neither [None] nor positive, comes
    back from its item unchanged. *)
Lemma roundtrip_identity_with_negative_total :
  exists j,
    Job.作成 (H := decimal_calendar) Sample.時計 (Sample.総数付き引数 (Some (-3)))
    = Py.Return j
    /\ Job.DynamoDB項目から作成 (H := decimal_calendar) Sample.時計
         (Job.DynamoDB項目に変換 (H := decimal_calendar) j) = Py.Return j
    /\ Job.総ファイル数 j = Some (-3).
Proof.
  eexists. split; [reflexivity|]. split; [|reflexivity].
  rewrite roundtrip_job; [reflexivity|cbn; lia|cbn; eauto].
Qed.

(** C10, amended. A constructed job converted to its item and back keeps
    its job id, repository id, type, status, priority, the four
    timestamps, TTL, progress and processed-file count; a total-file count
    of 0 comes back as [None] and any other count unchanged, so the round
    trip is the identity only for jobs whose total-file count is [None] or
    non-zero. *)
Theorem job_item_roundtrip `{Py.Calendar}
    (現在 現在' : Py.Clock) (a : Job.引数) (j : Job.ジョブ) :
  Job.作成 現在 a = Py.Return j ->
  exists j',
    Job.DynamoDB項目から作成 現在' (Job.DynamoDB項目に変換 j) = Py.Return j'
    /\ Job.ジョブID j' = Job.ジョブID j
    /\ Job.リポジトリID j' = Job.リポジトリID j
    /\ Job.種別 j' = Job.種別 j
    /\ Job.ステータス j' = Job.ステータス j
    /\ Job.優先度 j' = Job.優先度 j
    /\ Job.開始日時 j' = Job.開始日時 j
    /\ Job.完了日時 j' = Job.完了日時 j
    /\ Job.作成日時 j' = Job.作成日時 j
    /\ Job.更新日時 j' = Job.更新日時 j
    /\ Job.TTL j' = Job.TTL j
    /\ Job.進捗率 j' = Job.進捗率 j
    /\ Job.処理済みファイル数 j' = Job.処理済みファイル数 j
    /\ Job.総ファイル数 j'
       = (if decide (Job.総ファイル数 j = Some 0) then None
          else Job.総ファイル数 j)
    /\ (j' = j ->
        Job.総ファイル数 j = None
        \/ exists n, Job.総ファイル数 j = Some n /\ n <> 0).
Proof.
  intros Hc. apply 作成_invariant in Hc as [Hp Httl].
  exists (Job.往復後 j). split; [now apply roundtrip_job|].
  repeat (split; [reflexivity|]).
  assert (Job.総ファイル数 (Job.往復後 j)
          = if decide (Job.総ファイル数 j = Some 0) then None
            else Job.総ファイル数 j) as Ht.
  { cbn. destruct (Job.総ファイル数 j) as [[|n|n]|]; reflexivity. }
  split; [exact Ht|].
  intros Heq. rewrite Heq in Ht.
  destruct (Job.総ファイル数 j) as [n|]; [|now left].
  right. exists n. split; [reflexivity|]. intros ->.
  rewrite decide_True in Ht by reflexivity. discriminate.
Qed.

(** The scenario behind C10 on the reference calendar: a total-file count
    of 0 is lost on the way. *)
Lemma job_item_roundtrip_witness :
  exists j j',
    Job.作成 (H := decimal_calendar) Sample.時計 (Sample.総数付き引数 (Some 0))
    = Py.Return j
    /\ Job.DynamoDB項目から作成 (H := decimal_calendar) Sample.時計
         (Job.DynamoDB項目に変換 (H := decimal_calendar) j) = Py.Return j'
    /\ Job.総ファイル数 j = Some 0
    /\ Job.総ファイル数 j' = None.
Proof.
  eexists.
  edestruct (job_item_roundtrip (H := decimal_calendar) Sample.時計 Sample.時計
               (Sample.総数付き引数 (Some 0)))
    as (j' & Hj' & Hrest); [reflexivity|].
  exists j'. split; [reflexivity|]. split; [exact Hj'|]. split; [reflexivity|].
  apply Hrest.
Defined.

(** ** The conditional store *)

Section StoreFacts.
  Import Py DynamoDB Manager.

  (** One step of the monad. *)
Ltac run :=
  cbv [mbind M_bind mret M_ret table set_items check]; cbn beta iota.

Lemma key_value_キー (id : string) :
  key_value "repo_id" (キー id) = Some (VStr id).
Proof. reflexivity. Qed.

Lemma request_ok {A} (k : M A) (t : Table) :
  fault t = None -> request k t = k t.
Proof. unfold request. now intros ->. Qed.

Lemma request_fault {A} (k : M A) (t : Table) (code : string) :
  fault t = Some code ->
  request k t = (Raise (ClientError code), record_exn (ClientError code) t).
Proof. unfold request. now intros ->. Qed.

  (** [get] on a reachable table. *)
Lemma アイテムを取得_ok (id : string) (t : Table) :
  正常 t -> アイテムを取得 (キー id) t = (Return (保存済み t id), t).
Proof.
  intros [Hf Hk]. unfold アイテムを取得, try_except, get_item.
  rewrite request_ok by done. run. rewrite Hk. reflexivity.
Qed.


Lemma アイテムを更新_ok (id : string) (sets : list (string * string))
    (values : gmap string Value) (names : gmap string string)
    (cond : Condition) (l : list (string * Value)) (t : Table) :
  正常 t ->
  resolve_sets "repo_id" names values sets = Some l ->
  アイテムを更新 (キー id) sets values names (Some cond) t =
  match eval_condition cond values (保存済み t id) with
  | Some true =>
      let new := apply_sets l (default (キー id) (保存済み t id)) in
      (Return new, with_items t (upsert "repo_id" (VStr id) new (items t)))
  | Some false => (Raise DynamoDB条件チェックエラー, 条件不成立 t)
  | None => (Raise DynamoDB例外, 障害時 "ValidationException" DynamoDB例外 t)
  end.
Proof.
  intros [Hf Hk] Hl. unfold アイテムを更新, try_except, update_item.
  rewrite request_ok by done. run. rewrite Hk, key_value_キー, Hl.
  unfold 保存済み.
  destruct (eval_condition cond values _) as [[|]|]; reflexivity.
Qed.

Lemma アイテムを削除_ok (id : string) (cond : Condition) (t : Table) :
  正常 t ->
  アイテムを削除 (キー id) (Some cond) t =
  match eval_condition cond ∅ (保存済み t id) with
  | Some true =>
      (Return true, with_items t (remove "repo_id" (VStr id) (items t)))
  | Some false => (Raise DynamoDB条件チェックエラー, 条件不成立 t)
  | None => (Raise DynamoDB例外, 障害時 "ValidationException" DynamoDB例外 t)
  end.
Proof.
  intros [Hf Hk]. unfold アイテムを削除, try_except, delete_item. run.
  rewrite request_ok by done. run. rewrite Hk, key_value_キー.
  unfold 保存済み.
  destruct (eval_condition cond ∅ _) as [[|]|]; reflexivity.
Qed.

Lemma find_item_has_key (pk : string) (v : Value)
    (l : list (gmap string Value)) (it : gmap string Value) :
  find_item pk v l = Some it -> it !! pk = Some v.
Proof.
  unfold find_item. intros Hf. apply List.find_some in Hf as [_ Hk].
  unfold has_key in Hk. now apply bool_decide_eq_true in Hk.
Qed.

  (** The update condition of the manager on the stored item. *)
Lemma eval_未削除条件 (values : gmap string Value) (t : Table) (id : string) :
  values !! ":false" = Some (VBool false) ->
  eval_condition 未削除条件 values (保存済み t id)
  = Some (from_option 未削除 false (保存済み t id)).
Proof.
  intros Hv. unfold 未削除条件. cbn. rewrite Hv.
  destruct (保存済み t id) as [it|] eqn:Hs; cbn; [|reflexivity].
  apply find_item_has_key in Hs. rewrite Hs.
  rewrite bool_decide_eq_true_2 by eauto. reflexivity.
Qed.



  (** *** Which exceptions a computation can raise *)


Lemma raises_only_bind {A B} (P : Exn -> Prop) (r : Result A)
    (k : A -> Result B) :
  raises_only P r -> (forall a, raises_only P (k a)) ->
  raises_only P (r ≫= k).
Proof.
  intros Hr Hk e. destruct r as [a|e']; cbn; [apply Hk|].
  intros [= <-]. now apply Hr.
Qed.

Lemma raises_only_return {A} (P : Exn -> Prop) (a : A) :
  raises_only P (Return a).
Proof. intros e. discriminate. Qed.

Lemma raises_only_raise {A} (P : Exn -> Prop) (e : Exn) :
  P e -> raises_only (A := A) P (Raise e).
Proof. intros He e' [= <-]. exact He. Qed.

Lemma getitem_model (d : gmap string Value) (k : string) :
  raises_only model_error (getitem d k).
Proof. unfold getitem. intros e. destruct (d !! k); now intros [= <-]. Qed.

Lemma enum_call_model {E} `{StrEnum E} (s : string) :
  raises_only model_error (enum_call (E := E) s).
Proof. unfold enum_call. intros e. destruct (List.find _ _); now intros [= <-]. Qed.

Lemma enum_call_value_model {E} `{StrEnum E} (v : Value) :
  raises_only model_error (enum_call_value (E := E) v).
Proof.
  destruct v; cbn; try (now apply raises_only_raise). apply enum_call_model.
Qed.

Lemma parse_datetime_model `{Calendar} (v : Value) :
  raises_only model_error (parse_datetime v).
Proof.
  destruct v; cbn; try (now apply raises_only_raise).
  destruct (fromisoformat s); [apply raises_only_return|now apply raises_only_raise].
Qed.

Lemma parse_datetime_if_present_model `{Calendar} (d : gmap string Value)
    (k : string) :
  raises_only model_error (parse_datetime_if_present d k).
Proof.
  unfold parse_datetime_if_present. destruct (get_truthy d k).
  - apply raises_only_bind; [|intros; apply raises_only_return].
    apply raises_only_bind; [apply getitem_model|apply parse_datetime_model].
  - apply raises_only_return.
Qed.

Lemma repo_作成_model (現在 : Clock) (a : Repo.引数) :
  raises_only model_error (Repo.作成 現在 a).
Proof.
  unfold Repo.作成. intros e.
  repeat match goal with
         | |- context [match ?x with _ => _ end] => destruct x
         end; now intros [= <-].
Qed.

Lemma repo_from_item_model `{Calendar} (現在 : Clock)
    (項目 : gmap string Value) :
  raises_only model_error (Repo.DynamoDB項目から作成 現在 項目).
Proof.
  unfold Repo.DynamoDB項目から作成.
  repeat (apply raises_only_bind;
          [first [apply getitem_model | apply enum_call_value_model
                 | apply parse_datetime_if_present_model
                 | apply raises_only_bind;
                   [apply getitem_model
                   |intros; first [apply enum_call_value_model
                                  |apply parse_datetime_model]]]
          |intros ?]).
  repeat match goal with
         | |- raises_only _ (match ?x with _ => _ end) => destruct x
         end;
    first [apply repo_作成_model | now apply raises_only_raise].
Qed.


  (** *** The wrapper methods, by cases *)


Lemma スキャン実行_cases (f : option Filter) (n : option nat) (t : Table) :
  (exists l, スキャン実行 f n t = (Return l, t))
  \/ (exists t', スキャン実行 f n t = (Raise DynamoDB例外, t')).
Proof.
  unfold スキャン実行, try_except, scan, request.
  destruct (fault t); [right; eexists; reflexivity|]. run.
  left; eexists; reflexivity.
Qed.

Lemma check_cases (c : option Condition) (values : gmap string Value)
    (old : option (gmap string Value)) (t : Table) :
  check c values old t = (Return tt, t)
  \/ (exists code, check c values old t
                   = (Raise (ClientError code), record_exn (ClientError code) t)).
Proof.
  unfold check. destruct c as [c|]; [|now left].
  destruct (eval_condition c values old) as [[|]|];
    [now left|right; eexists; reflexivity..].
Qed.

Lemma on_conditional_check_cases {A} (code : string) (t : Table) :
  (exists t', on_conditional_check (A := A) (ClientError code) t
              = (Raise DynamoDB条件チェックエラー, t'))
  \/ (exists t', on_conditional_check (A := A) (ClientError code) t
                 = (Raise DynamoDB例外, t')).
Proof.
  unfold on_conditional_check.
  destruct (String.eqb code _); [left|right]; eexists; reflexivity.
Qed.



Lemma アイテムを削除_cases (k : gmap string Value) (c : option Condition)
    (t : Table) :
  (exists t', アイテムを削除 k c t = (Return true, t') /\ raised t' = raised t)
  \/ (exists t', アイテムを削除 k c t = (Raise DynamoDB条件チェックエラー, t'))
  \/ (exists t', アイテムを削除 k c t = (Raise DynamoDB例外, t')).
Proof.
  unfold アイテムを削除, try_except, delete_item, request.
  cbv [mbind M_bind mret M_ret table set_items]; cbn beta iota.
  destruct (fault t) as [code|].
  { right. cbn. first [apply on_conditional_check_cases
                      |destruct (String.eqb code _); [left|right];
                       eexists; reflexivity]. }
  destruct (key_value _ _) as [v|].
  2:{ right. cbn. first [apply on_conditional_check_cases
                        |right; eexists; reflexivity]. }
  destruct (check_cases c ∅ (find_item (key_attr t) v (items t)) t)
    as [->|[code ->]].
  - left. eexists. split; reflexivity.
  - right. apply on_conditional_check_cases.
Qed.

  (** A model computation run as a statement. *)
Lemma lift_cases {A} (r : Result A) (t : Table) :
  (exists a, r = Return a /\ lift r t = (Return a, t))
  \/ (exists e, r = Raise e /\ lift r t = (Raise e, record_exn e t)).
Proof. destruct r; [left|right]; eauto. Qed.


  (** *** The two definitions of each manager method *)

Section TwoDefinitions.
  Context `{Calendar}.






End TwoDefinitions.


  (** *** The update request of the manager *)

Section UpdateRequest.
  Context `{Calendar}.


Lemma resolve_更新式_sublist (data : gmap string Value)
    (l : list (string * Value)) :
  data !! "repo_id" = None ->
  (forall k v, (k, v) ∈ l -> data !! k = Some v) ->
  resolve_sets "repo_id"
    (kmap (String "#"%char) (map_imap (fun k _ => Some k) data))
    (<[":false" := VBool false]> (kmap (String ":"%char) data))
    ((fun k => (String "#" k, String ":" k)) <$> l.*1)
  = Some ((fun kv => (kv.1, 書き込む値 kv.1 kv.2)) <$> l).
Proof.
  intros Hkey. induction l as [|[k v] l IH]; intros Hin; [reflexivity|].
  cbn [fmap list_fmap fst snd resolve_sets resolve_name].
  assert (data !! k = Some v) as Hk by (apply Hin; left).
  rewrite (lookup_kmap (String "#"%char)), map_lookup_imap, Hk. cbn [mbind option_bind].
  rewrite IH by (intros; apply Hin; now right).
  unfold 書き込む値 at 1. cbn [fst snd].
  destruct (String.eqb_spec k "false") as [->|Hne].
  - rewrite lookup_insert_eq.
    destruct (String.eqb_spec "false" "repo_id"); [discriminate|reflexivity].
  - rewrite lookup_insert_ne by (intros [= ?]; congruence).
    rewrite (lookup_kmap (String ":"%char)), Hk.
    destruct (String.eqb_spec k "repo_id") as [->|]; [congruence|].
    unfold 書き込む値. destruct (String.eqb_spec k "false"); [congruence|].
    reflexivity.
Qed.

Lemma resolve_更新式 (data : gmap string Value) :
  data !! "repo_id" = None ->
  resolve_sets "repo_id"
    (kmap (String "#"%char) (map_imap (fun k _ => Some k) data))
    (<[":false" := VBool false]> (kmap (String ":"%char) data))
    ((fun k => (String "#" k, String ":" k)) <$> (map_to_list data).*1)
  = Some ((fun kv => (kv.1, 書き込む値 kv.1 kv.2)) <$> map_to_list data).
Proof.
  intros Hkey. apply resolve_更新式_sublist; [exact Hkey|].
  intros k v Hin. now apply elem_of_map_to_list in Hin.
Qed.


End UpdateRequest.


  (** *** Writing and removing items *)

Lemma find_item_upsert (pk : string) (v : Value) (new : gmap string Value)
    (l : list (gmap string Value)) :
  new !! pk = Some v -> find_item pk v (upsert pk v new l) = Some new.
Proof.
  intros Hnew. unfold find_item.
  assert (has_key pk v new = true) as Hk
    by (unfold has_key; now apply bool_decide_eq_true).
  induction l as [|it l IH]; cbn.
  - now rewrite Hk.
  - destruct (has_key pk v it) eqn:Hit; cbn; [now rewrite Hk|].
    now rewrite Hit.
Qed.

Lemma find_item_upsert_ne (pk : string) (v w : Value)
    (new : gmap string Value) (l : list (gmap string Value)) :
  new !! pk = Some v -> v <> w ->
  find_item pk w (upsert pk v new l) = find_item pk w l.
Proof.
  intros Hnew Hne. unfold find_item.
  assert (has_key pk w new = false) as Hk.
  { unfold has_key. apply bool_decide_eq_false. congruence. }
  induction l as [|it l IH]; cbn.
  - now rewrite Hk.
  - destruct (has_key pk v it) eqn:Hit; cbn.
    + rewrite Hk.
      assert (has_key pk w it = false) as ->; [|reflexivity].
      unfold has_key in *. apply bool_decide_eq_true in Hit.
      apply bool_decide_eq_false. congruence.
    + destruct (has_key pk w it); [reflexivity|exact IH].
Qed.


Lemma find_item_remove_ne (pk : string) (v w : Value)
    (l : list (gmap string Value)) :
  v <> w -> find_item pk w (remove pk v l) = find_item pk w l.
Proof.
  intros Hne. unfold find_item, remove.
  induction l as [|it l IH]; cbn; [reflexivity|].
  destruct (has_key pk v it) eqn:Hit; cbn.
  - assert (has_key pk w it = false) as ->; [|exact IH].
    unfold has_key in *. apply bool_decide_eq_true in Hit.
    apply bool_decide_eq_false. congruence.
  - destruct (has_key pk w it); [reflexivity|exact IH].
Qed.

  (** *** Deletion *)

Section Deletion.
  Context `{Calendar}.


Lemma 論理削除_ok (現在 : Clock) (id : string) (t : Table) :
  正常 t ->
  リポジトリを削除 現在 id false t =
  match 保存済み t id with
  | Some it =>
      if 未削除 it
      then (Return true,
            with_items t (upsert "repo_id" (VStr id) (論理削除後 現在 it)
                            (items t)))
      else (Return false, 条件不成立 t)
  | None => (Return false, 条件不成立 t)
  end.
Proof.
  intros Ht. unfold リポジトリを削除, try_except.
  cbv [mbind M_bind mret M_ret]; cbn beta iota zeta.
  erewrite アイテムを更新_ok; [|exact Ht|reflexivity].
  rewrite eval_未削除条件 by reflexivity.
  destruct (保存済み t id) as [it|]; cbn; [|reflexivity].
  destruct (未削除 it); reflexivity.
Qed.


End Deletion.


  (** *** Status update and silence *)

Section Silence.
  Context `{Calendar}.

Lemma ステータス更新データ_key (現在 : Clock) (st : Repo.リポジトリステータス)
    (sha : option string) :
  ステータス更新データ 現在 st sha !! "repo_id" = None.
Proof. unfold ステータス更新データ. destruct (opt_str_truthy sha); reflexivity. Qed.








End Silence.

End StoreFacts.

(** ** The repository entity manager *)







(** ** Repository model *)

Section RepoFacts.
  Import Py Repo.
  Context `{Calendar}.

Ltac repo_item_lookup r :=
  unfold DynamoDB項目に変換;
  destruct (opt_str_truthy (最終スキャンSHA r)), (最終スキャン日時 r);
  reflexivity.

Lemma repo_item_repo_id r :
  DynamoDB項目に変換 r !! "repo_id" = Some (VStr (リポジトリID r)).
Proof. repo_item_lookup r. Qed.
Lemma repo_item_provider r :
  DynamoDB項目に変換 r !! "provider" = Some (VStr (value (プロバイダー r))).
Proof. repo_item_lookup r. Qed.
Lemma repo_item_remote_url r :
  DynamoDB項目に変換 r !! "remote_url" = Some (VStr (リモートURL r)).
Proof. repo_item_lookup r. Qed.
Lemma repo_item_display_name r :
  DynamoDB項目に変換 r !! "display_name" = Some (VStr (表示名 r)).
Proof. repo_item_lookup r. Qed.
Lemma repo_item_default_branch r :
  DynamoDB項目に変換 r !! "default_branch" = Some (VStr (デフォルトブランチ r)).
Proof. repo_item_lookup r. Qed.
Lemma repo_item_status r :
  DynamoDB項目に変換 r !! "status" = Some (VStr (value (ステータス r))).
Proof. repo_item_lookup r. Qed.
Lemma repo_item_created_at r :
  DynamoDB項目に変換 r !! "created_at" = Some (VStr (isoformat (作成日時 r))).
Proof. repo_item_lookup r. Qed.
Lemma repo_item_updated_at r :
  DynamoDB項目に変換 r !! "updated_at" = Some (VStr (isoformat (更新日時 r))).
Proof. repo_item_lookup r. Qed.
Lemma repo_item_deleted r :
  DynamoDB項目に変換 r !! "deleted" = Some (VBool (削除フラグ r)).
Proof. repo_item_lookup r. Qed.
Lemma repo_item_metadata r :
  DynamoDB項目に変換 r !! "metadata" = Some (of_opt_map (メタデータ r)).
Proof. repo_item_lookup r. Qed.
Lemma repo_item_last_scan_sha r :
  DynamoDB項目に変換 r !! "last_scan_sha" =
  if opt_str_truthy (最終スキャンSHA r)
  then Some (VStr (default "" (最終スキャンSHA r))) else None.
Proof. repo_item_lookup r. Qed.
Lemma repo_item_last_scan_at r :
  DynamoDB項目に変換 r !! "last_scan_at"
  = (fun t => VStr (isoformat t)) <$> 最終スキャン日時 r.
Proof. repo_item_lookup r. Qed.

  (** *** Stripping *)

Lemma lstrip_length (s : string) :
  (String.length (PyStr.lstrip s) <= String.length s)%nat.
Proof.
  induction s as [|c s IH]; cbn; [lia|]. destruct (PyStr.is_space c); cbn; lia.
Qed.

Lemma rstrip_length (s : string) :
  (String.length (PyStr.rstrip s) <= String.length s)%nat.
Proof.
  induction s as [|c s IH]; cbn; [lia|].
  destruct (PyStr.rstrip s); [destruct (PyStr.is_space c)|]; cbn in *; lia.
Qed.

Lemma rstrip_cons (c : ascii) (s : string) :
  PyStr.rstrip (String c s) =
  match PyStr.rstrip s with
  | EmptyString => if PyStr.is_space c then EmptyString else String c EmptyString
  | r => String c r
  end.
Proof. reflexivity. Qed.

Lemma rstrip_idempotent (s : string) :
  PyStr.rstrip (PyStr.rstrip s) = PyStr.rstrip s.
Proof.
  induction s as [|c s IH]; [reflexivity|].
  rewrite rstrip_cons.
  destruct (PyStr.rstrip s) as [|c' r] eqn:Hr.
  - destruct (PyStr.is_space c) eqn:Hc; [reflexivity|].
    rewrite rstrip_cons. cbn. now rewrite Hc.
  - rewrite rstrip_cons, IH. reflexivity.
Qed.

Lemma lstrip_no_leading_space (s : string) : PyStr.no_leading_space (PyStr.lstrip s).
Proof.
  induction s as [|c s IH]; cbn; [exact I|].
  destruct (PyStr.is_space c) eqn:Hc; [exact IH|exact Hc].
Qed.

Lemma lstrip_fixed (s : string) : PyStr.no_leading_space s -> PyStr.lstrip s = s.
Proof. destruct s as [|c s]; cbn; [reflexivity|]. now intros ->. Qed.

Lemma rstrip_no_leading_space (s : string) :
  PyStr.no_leading_space s -> PyStr.no_leading_space (PyStr.rstrip s).
Proof.
  destruct s as [|c s]; cbn; [trivial|]. intros Hc.
  destruct (PyStr.rstrip s); [rewrite Hc|]; exact Hc.
Qed.

Lemma strip_idempotent (s : string) : PyStr.strip (PyStr.strip s) = PyStr.strip s.
Proof.
  unfold PyStr.strip.
  rewrite (lstrip_fixed (PyStr.rstrip (PyStr.lstrip s)))
    by apply rstrip_no_leading_space, lstrip_no_leading_space.
  apply rstrip_idempotent.
Qed.

Lemma strip_length (s : string) : PyStr.len (PyStr.strip s) <= PyStr.len s.
Proof.
  unfold PyStr.len, PyStr.strip.
  pose proof (rstrip_length (PyStr.lstrip s)). pose proof (lstrip_length s). lia.
Qed.

  (** A display name that validates is stored stripped, and the stripped
      name validates to itself. *)
Lemma 表示名_revalidates (v w : string) :
  表示名妥当性を検証 v = Return w -> 表示名妥当性を検証 w = Return w.
Proof.
  unfold 表示名妥当性を検証.
  destruct (negb (PyStr.truthy v) || (PyStr.len (PyStr.strip v) =? 0)) eqn:Hv;
    [discriminate|].
  destruct (Z.gtb_spec (PyStr.len v) 100); [discriminate|].
  intros [= <-]. rewrite strip_idempotent.
  apply orb_false_iff in Hv as [_ Hlen]. apply Z.eqb_neq in Hlen.
  assert (PyStr.truthy (PyStr.strip v) = true) as ->.
  { destruct (PyStr.strip v); [now cbn in Hlen|reflexivity]. }
  cbn [negb orb]. apply Z.eqb_neq in Hlen. rewrite Hlen.
  pose proof (strip_length v).
  destruct (Z.gtb_spec (PyStr.len (PyStr.strip v)) 100); [lia|reflexivity].
Qed.


Lemma enum_call_of_プロバイダー (k : リポジトリプロバイダー) :
  enum_call (value k) = Return k.
Proof. destruct k; reflexivity. Qed.

Lemma enum_call_of_リポジトリステータス (k : リポジトリステータス) :
  enum_call (value k) = Return k.
Proof. destruct k; reflexivity. Qed.

  (** What the constructor guarantees about the two validated fields. *)
Lemma repo_作成_validated (現在 : Clock) (a : 引数) (r : リポジトリ) :
  作成 現在 a = Return r ->
  URL妥当性を検証 (リモートURL r) (Some (プロバイダー r)) = Return (リモートURL r)
  /\ 表示名妥当性を検証 (表示名 r) = Return (表示名 r).
Proof.
  unfold 作成.
  destruct (coerce_enum (引数_プロバイダー a)) as [p|]; [|discriminate].
  destruct (URL妥当性を検証 (引数_リモートURL a) (Some p)) as [url|] eqn:Hurl;
    [|discriminate].
  destruct (表示名妥当性を検証 (引数_表示名 a)) as [名|] eqn:Hname;
    [|discriminate].
  destruct (from_option coerce_enum _ (引数_ステータス a)); [|discriminate].
  intros [= <-]. cbn. split.
  - assert (url = 引数_リモートURL a) as ->; [|exact Hurl].
    unfold URL妥当性を検証 in Hurl.
    destruct p; destruct (negb _); congruence.
  - eapply 表示名_revalidates, Hname.
Qed.

  (** A repository after a trip through its item: a last-scan reference
      that is the empty string comes back as [None]. *)
Lemma repo_roundtrip (現在 現在' : Clock) (a : 引数) (r : リポジトリ) :
  作成 現在 a = Return r ->
  DynamoDB項目から作成 現在' (DynamoDB項目に変換 r) = Return (往復後 r).
Proof.
  intros Hc. apply repo_作成_validated in Hc as [Hurl Hname].
  unfold DynamoDB項目から作成, parse_datetime_if_present, get_truthy, getitem, get.
  rewrite repo_item_repo_id, repo_item_provider, repo_item_remote_url,
    repo_item_display_name, repo_item_default_branch, repo_item_status,
    repo_item_created_at, repo_item_updated_at, repo_item_deleted,
    repo_item_metadata, repo_item_last_scan_sha, repo_item_last_scan_at.
  rewrite present_datetime_roundtrip, opt_map_roundtrip, truthy_str_roundtrip.
  cbn [mbind Result_bind enum_call_value as_str as_bool].
  rewrite enum_call_of_プロバイダー, enum_call_of_リポジトリステータス.
  cbn [mbind Result_bind]. rewrite !parse_isoformat. cbn [mbind Result_bind].
  unfold 作成.
  cbn [引数_プロバイダー 引数_リモートURL 引数_表示名 引数_ステータス coerce_enum
       from_option].
  rewrite Hurl, Hname. unfold 往復後. destruct r; reflexivity.
Qed.

End RepoFacts.


Section ManagerFacts.
  Import Py DynamoDB Manager.
  Context `{Calendar}.

  (** *** Get on a reachable table *)


  (** *** A successful update *)

Lemma apply_sets_union (l : list (string * Value)) (it : gmap string Value) :
  NoDup l.*1 -> apply_sets l it = list_to_map l ∪ it.
Proof.
  unfold apply_sets. revert it.
  induction l as [|[a v] l IH]; intros it Hnd; cbn.
  - now rewrite (left_id_L ∅ (∪)).
  - apply NoDup_cons in Hnd as [Ha Hnd].
    rewrite IH by exact Hnd.
    rewrite <- insert_union_r by now apply not_elem_of_list_to_map_1.
    now rewrite insert_union_l.
Qed.

Lemma written_keys (data : gmap string Value) :
  ((fun kv : string * Value => (kv.1, 書き込む値 kv.1 kv.2))
     <$> map_to_list data).*1 = (map_to_list data).*1.
Proof. rewrite <- list_fmap_compose. apply list_fmap_ext. now intros ? [? ?]. Qed.

Lemma lookup_written (data : gmap string Value) (a : string) :
  (list_to_map ((fun kv => (kv.1, 書き込む値 kv.1 kv.2)) <$> map_to_list data)
     : gmap string Value) !! a
  = 書き込む値 a <$> data !! a.
Proof.
  pose proof (written_keys data) as Hfst.
  destruct (data !! a) as [v|] eqn:Ha; cbn.
  - apply elem_of_list_to_map_1.
    + rewrite Hfst. apply NoDup_fst_map_to_list.
    + apply elem_of_map_to_list in Ha.
      apply (list_elem_of_fmap_2 (fun kv => (kv.1, 書き込む値 kv.1 kv.2))) in Ha.
      exact Ha.
  - apply not_elem_of_list_to_map_1. rewrite Hfst.
    intros Hin. apply list_elem_of_fmap in Hin as [[k v] [-> Hin]].
    apply elem_of_map_to_list in Hin. cbn in Ha. congruence.
Qed.

Lemma リポジトリを更新_ok (現在 : Clock) (id : string)
    (data it : gmap string Value) (t : Table) :
  正常 t ->
  data !! "repo_id" = None ->
  保存済み t id = Some it ->
  未削除 it = true ->
  exists new : gmap string Value,
    (forall a,
       new !! a =
       match (<["updated_at" := VStr (isoformat (現在 0%nat))]> data) !! a with
       | Some v => Some (書き込む値 a v)
       | None => it !! a
       end)
    /\ リポジトリを更新 現在 id data t =
       let t' := with_items t (upsert "repo_id" (VStr id) new (items t)) in
       match Repo.DynamoDB項目から作成 現在 new with
       | Return r => (Return (Some r), t')
       | Raise e => (Raise DynamoDB例外, record_exn DynamoDB例外 (record_exn e t'))
       end.
Proof.
  intros Ht Hkey Hs Hlive.
  set (data' := <["updated_at" := VStr (isoformat (現在 0%nat))]> data).
  exists (apply_sets ((fun kv => (kv.1, 書き込む値 kv.1 kv.2))
                        <$> map_to_list data') it).
  split.
  - intros a. rewrite apply_sets_union.
    + rewrite lookup_union, lookup_written.
      destruct (data' !! a); cbn; [|now rewrite (left_id_L None union)].
      destruct (it !! a); reflexivity.
    + rewrite written_keys. apply NoDup_fst_map_to_list.
  - unfold リポジトリを更新, try_except, 更新リクエスト.
    cbv [mbind M_bind mret M_ret]; cbn beta iota zeta. fold data'.
    erewrite アイテムを更新_ok;
      [|exact Ht|apply resolve_更新式; unfold data'; now rewrite lookup_insert_ne].
    rewrite eval_未削除条件 by apply lookup_insert_eq.
    rewrite Hs. cbn [from_option default]. rewrite Hlive.
    cbn zeta.
    destruct (Repo.DynamoDB項目から作成 現在 _) as [r|e] eqn:Hr; cbn.
    + reflexivity.
    + pose proof (repo_from_item_model _ _ _ Hr) as Hm.
      destruct e; cbn in Hm; try contradiction; reflexivity.
Qed.

End ManagerFacts.


Section CreateFacts.
  Import Py DynamoDB Manager.
  Context `{Calendar}.

Ltac run :=
  cbv [mbind M_bind mret M_ret table set_items check]; cbn beta iota.

  (** *** Get on a reachable table *)

Lemma リポジトリを取得_ok (現在 : Clock) (id : string) (t : Table) :
  正常 t ->
  リポジトリを取得 現在 id t =
  if 有効なアイテム (保存済み t id)
  then match Repo.DynamoDB項目から作成 現在 (default ∅ (保存済み t id)) with
       | Return r => (Return (Some r), t)
       | Raise e => (Raise DynamoDB例外, record_exn DynamoDB例外 (record_exn e t))
       end
  else (Return None, t).
Proof.
  intros Ht. unfold リポジトリを取得, try_except. run.
  rewrite アイテムを取得_ok by exact Ht.
  destruct (有効なアイテム _); [|reflexivity].
  destruct (Repo.DynamoDB項目から作成 現在 _); reflexivity.
Qed.

  (** *** Find by URL and create on a reachable table *)

Lemma スキャン実行_ok (f : Filter) (n : nat) (t : Table) :
  正常 t ->
  スキャン実行 (Some f) (Some (S n)) t
  = (Return (List.filter (eval_filter f) (take (S n) (items t))), t).
Proof.
  intros [Hf _]. unfold スキャン実行, try_except, scan.
  rewrite request_ok by exact Hf. reflexivity.
Qed.

Lemma URLでリポジトリを検索_ok (現在 : Clock) (url : string) (t : Table) :
  正常 t ->
  URLでリポジトリを検索 現在 url t =
  match List.filter (eval_filter (URLフィルター url)) (take 1 (items t)) with
  | it :: _ =>
      match Repo.DynamoDB項目から作成 現在 it with
      | Return r => (Return (Some r), t)
      | Raise e => (Raise DynamoDB例外, record_exn DynamoDB例外 (record_exn e t))
      end
  | [] => (Return None, t)
  end.
Proof.
  intros Ht. unfold URLでリポジトリを検索, try_except. run.
  rewrite スキャン実行_ok by exact Ht.
  destruct (List.filter _ _) as [|it l]; [reflexivity|].
  destruct (Repo.DynamoDB項目から作成 現在 it); reflexivity.
Qed.

Lemma アイテムを保存_ok (it : gmap string Value) (v : Value)
    (cond : Condition) (t : Table) :
  正常 t ->
  it !! "repo_id" = Some v ->
  アイテムを保存 it (Some cond) t =
  match eval_condition cond ∅ (find_item "repo_id" v (items t)) with
  | Some true => (Return true, with_items t (upsert "repo_id" v it (items t)))
  | Some false => (Raise DynamoDB条件チェックエラー, 条件不成立 t)
  | None => (Raise DynamoDB例外, 障害時 "ValidationException" DynamoDB例外 t)
  end.
Proof.
  intros [Hf Hk] Hv. unfold アイテムを保存, try_except, put_item. run.
  rewrite request_ok by exact Hf. run. rewrite Hk, Hv.
  destruct (eval_condition cond ∅ _) as [[|]|]; reflexivity.
Qed.


Lemma 新リポジトリ_fields (now : datetime) (id : string)
    (p : Repo.リポジトリプロバイダー) (url name branch : string)
    (r : Repo.リポジトリ) :
  新リポジトリ now id p url name branch = Return r ->
  Repo.リポジトリID r = id /\ Repo.プロバイダー r = p
  /\ Repo.リモートURL r = url /\ Repo.表示名 r = PyStr.strip name
  /\ Repo.デフォルトブランチ r = branch /\ Repo.ステータス r = Repo.READY
  /\ Repo.作成日時 r = now /\ Repo.更新日時 r = now
  /\ Repo.削除フラグ r = false /\ Repo.最終スキャンSHA r = None.
Proof.
  unfold 新リポジトリ, Repo.作成.
  cbn [Repo.引数_リポジトリID Repo.引数_プロバイダー Repo.引数_リモートURL
       Repo.引数_表示名 Repo.引数_デフォルトブランチ Repo.引数_ステータス
       Repo.引数_最終スキャンSHA Repo.引数_最終スキャン日時 Repo.引数_作成日時
       Repo.引数_更新日時 Repo.引数_削除フラグ Repo.引数_メタデータ
       coerce_enum from_option default].
  destruct (Repo.URL妥当性を検証 url (Some p)) as [url'|] eqn:Hurl; [|discriminate].
  destruct (Repo.表示名妥当性を検証 name) as [名|] eqn:Hname; [|discriminate].
  intros [= <-]. cbn.
  assert (url' = url) as ->.
  { unfold Repo.URL妥当性を検証 in Hurl.
    destruct p; match type of Hurl with
                | (if ?b then _ else _) = _ => destruct b
                end; congruence. }
  assert (名 = PyStr.strip name) as ->.
  { unfold Repo.表示名妥当性を検証 in Hname.
    repeat match type of Hname with
           | (if ?b then _ else _) = _ => destruct b
           end; congruence. }
  repeat split.
Qed.



End CreateFacts.


(** ** Further properties of the manager *)

Section Scenario.
  Import Py DynamoDB Manager.
  Context `{Calendar}.




End Scenario.












(** ** The registration scenario *)

(** C1, evaluated where the code departs from the claim.  The table holds
    the record of another repository.  The first registration of the URL
    succeeds with status READY.  The scan of the second registration is
    limited to one evaluated item, which is the other repository's record,
    so the duplicate check finds nothing: the second registration succeeds
    too, and the table then holds two live records with that URL. *)
Lemma duplicate_registration_beside_another_record :
  Repo.ステータス <$> (Sample.登録 "repo-aaaa0001" "Widgets" "main"
                        Sample.一件のテーブル).1
  = Py.Return Repo.READY
  /\ Repo.リポジトリID <$> (Sample.登録 "repo-aaaa0002" "Widgets again" "develop"
                             Sample.二件のテーブル).1
     = Py.Return "repo-aaaa0002"
  /\ length (List.filter
               (DynamoDB.eval_filter
                  (Manager.URLフィルター "https://github.com/acme/widgets"))
               (DynamoDB.items
                  (Sample.登録 "repo-aaaa0002" "Widgets again" "develop"
                     Sample.二件のテーブル).2))
     = 2%nat.
Proof. repeat split; vm_compute; reflexivity. Qed.

(** C2, evaluated where the code departs from the claim: the get in
    effect returns [None], raising nothing, for an id with no record and
    for a record that was logically deleted (and is still stored). *)
Lemma get_returns_none_not_an_error :
  Manager.リポジトリを取得 (H := decimal_calendar) Sample.時計 "repo-aaaa0001"
    Sample.空のテーブル
  = (Py.Return None, Sample.空のテーブル)
  /\ Manager.リポジトリを取得 (H := decimal_calendar) Sample.時計 "repo-aaaa0001"
       Sample.論理削除済みテーブル
     = (Py.Return None, Sample.論理削除済みテーブル)
  /\ length (DynamoDB.items Sample.論理削除済みテーブル) = 1%nat.
Proof.
  split; [vm_compute; reflexivity|]. split; [vm_compute; reflexivity|].
  vm_compute. reflexivity.
Qed.

(** C3, evaluated where the code departs from the claim: the update in
    effect returns [None] instead of raising the not-found error, for an
    id with no record and for a logically deleted record; the stored items
    stay as they are. *)
Lemma update_returns_none_not_an_error :
  (Manager.リポジトリを更新 (H := decimal_calendar) Sample.時計 "repo-aaaa0001"
     {["display_name" := Py.VStr "Gizmos"]} Sample.空のテーブル).1
  = Py.Return None
  /\ (Manager.リポジトリを更新 (H := decimal_calendar) Sample.時計
        "repo-aaaa0001" {["display_name" := Py.VStr "Gizmos"]}
        Sample.論理削除済みテーブル).1
     = Py.Return None
  /\ DynamoDB.items
       (Manager.リポジトリを更新 (H := decimal_calendar) Sample.時計
          "repo-aaaa0001" {["display_name" := Py.VStr "Gizmos"]}
          Sample.論理削除済みテーブル).2
     = DynamoDB.items Sample.論理削除済みテーブル.
Proof. repeat split; vm_compute; reflexivity. Qed.

(* ===================================================================== *)
(** * Part III: further properties                                        *)
(* ===================================================================== *)

(** ** Names and titles *)

Lemma rstrip_no_trailing_space (s : string) : Notions.no_trailing_space (PyStr.rstrip s).
Proof.
  induction s as [|c s IH]; [exact I|].
  rewrite rstrip_cons. destruct (PyStr.rstrip s) as [|c' r] eqn:Hr.
  - destruct (PyStr.is_space c) eqn:Hc; [exact I|exact Hc].
  - exact IH.
Qed.

Lemma strip_trimmed (s : string) :
  PyStr.no_leading_space (PyStr.strip s) /\ Notions.no_trailing_space (PyStr.strip s).
Proof.
  split.
  - apply rstrip_no_leading_space, lstrip_no_leading_space.
  - apply rstrip_no_trailing_space.
Qed.

Lemma len_zero (s : string) : (PyStr.len s =? 0) = negb (PyStr.truthy s).
Proof. destruct s; [reflexivity|]. unfold PyStr.len. cbn. reflexivity. Qed.

Lemma strip_truthy (s : string) :
  PyStr.truthy (PyStr.strip s) = true -> PyStr.truthy s = true.
Proof. destruct s; [discriminate|reflexivity]. Qed.

(** The two name validators are one check with another bound. *)
Lemma name_check (bound : Z) (v : string) :
  (if negb (PyStr.truthy v) || (PyStr.len (PyStr.strip v) =? 0)
   then Py.Raise Py.ValueError
   else if PyStr.len v >? bound then Py.Raise Py.ValueError
   else Py.Return (PyStr.strip v))
  = if PyStr.truthy (PyStr.strip v) && (PyStr.len v <=? bound)
    then Py.Return (PyStr.strip v) else Py.Raise Py.ValueError.
Proof.
  rewrite len_zero.
  destruct (PyStr.truthy (PyStr.strip v)) eqn:Hs.
  - rewrite (strip_truthy _ Hs). cbn [negb orb andb].
    rewrite Z.gtb_ltb, Z.ltb_antisym. now destruct (PyStr.len v <=? bound).
  - now rewrite orb_true_r.
Qed.

(** The display-name validator accepts a text exactly when it still has a
    character after stripping and is at most 100 characters long before
    stripping, and returns it stripped; an accepted name has no white space
    at either end, is not empty, is at most 100 characters long, and
    validates to itself. *)
Theorem display_name_validation (v : string) :
  Repo.表示名妥当性を検証 v
  = (if PyStr.truthy (PyStr.strip v) && (PyStr.len v <=? 100)
     then Py.Return (PyStr.strip v) else Py.Raise Py.ValueError)
  /\ (forall w, Repo.表示名妥当性を検証 v = Py.Return w ->
        PyStr.no_leading_space w /\ Notions.no_trailing_space w
        /\ w <> "" /\ PyStr.len w <= 100
        /\ Repo.表示名妥当性を検証 w = Py.Return w).
Proof.
  split; [apply name_check|].
  intros w Hw. pose proof (表示名_revalidates _ _ Hw) as Hre.
  unfold Repo.表示名妥当性を検証 in Hw. rewrite name_check in Hw.
  destruct (PyStr.truthy (PyStr.strip v)) eqn:Hs; [|discriminate].
  destruct (Z.leb_spec (PyStr.len v) 100); [|discriminate].
  injection Hw as <-. pose proof (strip_trimmed v) as [? ?].
  pose proof (strip_length v).
  repeat split; try assumption; [|lia].
  intros Hempty. now rewrite Hempty in Hs.
Qed.

Lemma name_check_stable (bound : Z) (v : string) :
  PyStr.truthy (PyStr.strip v) && (PyStr.len v <=? bound) = true ->
  PyStr.truthy (PyStr.strip (PyStr.strip v))
  && (PyStr.len (PyStr.strip v) <=? bound) = true.
Proof.
  rewrite strip_idempotent. intros [Hs Hl]%andb_true_iff.
  rewrite Hs. cbn [andb]. pose proof (strip_length v). lia.
Qed.

(** The title validator of a page is the same check with the bound 200. *)
Theorem title_validation (v : string) :
  PageModel.タイトル妥当性を検証 v
  = (if PyStr.truthy (PyStr.strip v) && (PyStr.len v <=? 200)
     then Py.Return (PyStr.strip v) else Py.Raise Py.ValueError)
  /\ (forall w, PageModel.タイトル妥当性を検証 v = Py.Return w ->
        PyStr.no_leading_space w /\ Notions.no_trailing_space w
        /\ w <> "" /\ PyStr.len w <= 200
        /\ PageModel.タイトル妥当性を検証 w = Py.Return w).
Proof.
  split; [apply name_check|].
  unfold PageModel.タイトル妥当性を検証. intros w. rewrite !name_check.
  destruct (PyStr.truthy (PyStr.strip v) && (PyStr.len v <=? 200)) eqn:Hv;
    [|discriminate].
  intros [= <-]. rewrite (name_check_stable _ _ Hv), strip_idempotent.
  apply andb_true_iff in Hv as [Hs Hl].
  pose proof (strip_trimmed v) as [? ?]. pose proof (strip_length v).
  repeat split; try assumption; [|lia].
  intros Hempty. now rewrite Hempty in Hs.
Qed.

(** The importance inferred for a page is always one of the three values
    that the importance validator accepts. *)
Lemma inferred_importance_is_valid (ソースパス コンテンツ : string) :
  PageModel.重要度妥当性を検証 (Page.重要度を推定 ソースパス コンテンツ)
  = Py.Return (Page.重要度を推定 ソースパス コンテンツ).
Proof.
  unfold Page.重要度を推定.
  destruct (existsb _ _); [reflexivity|].
  destruct (_ >? 5000); [reflexivity|].
  destruct (_ >? 1000); reflexivity.
Qed.

(** A source path that is classified as README is of high importance,
    whatever the content. *)
Lemma readme_page_is_high_importance (ソースパス コンテンツ : string) :
  Page.ソースパスから種別を推定 ソースパス = Page.README ->
  Page.重要度を推定 ソースパス コンテンツ = "high".
Proof.
  unfold Page.ソースパスから種別を推定, Page.重要度を推定.
  cbn [existsb].
  destruct (PyStr.contains "readme" (PyStr.lower ソースパス)); [reflexivity|].
  repeat match goal with
         | |- context [if ?b then _ else _] => destruct b
         end; discriminate.
Qed.

(** The two inferences for a page agree with the model and with each
    other: the inferred importance is always a value that the importance
    validator accepts, and a source path that is classified as README
    always gets the importance high, whatever the content. *)
Theorem inferred_page_fields_are_consistent (ソースパス コンテンツ : string) :
  PageModel.重要度妥当性を検証 (Page.重要度を推定 ソースパス コンテンツ)
  = Py.Return (Page.重要度を推定 ソースパス コンテンツ)
  /\ (Page.ソースパスから種別を推定 ソースパス = Page.README ->
      Page.重要度を推定 ソースパス コンテンツ = "high").
Proof.
  split.
  - apply inferred_importance_is_valid.
  - apply readme_page_is_high_importance.
Qed.

(** ** The URL grammar *)

Section GrammarFacts.
  Import Grammar.

Lemma strip_prefix_spec (p s s' : string) :
  Re.strip_prefix p s = Some s' <-> s = p ++ s'.
Proof.
  revert s. induction p as [|a p IH]; intros s; cbn.
  - split; [now intros [= ->]|now intros ->].
  - destruct s as [|b s]; [split; discriminate|].
    destruct (Ascii.eqb_spec a b) as [->|Hab].
    + rewrite IH. split; [now intros ->|now intros [= ->]].
    + split; [discriminate|]. intros [= -> _]. contradiction.
Qed.

Lemma at_end_spec (s : string) :
  Re.at_end s = true <-> s = "" \/ s = String "010" "".
Proof.
  destruct s as [|c [|c' s]]; cbn.
  - split; [now left|reflexivity].
  - destruct (Ascii.eqb_spec c "010") as [->|Hc].
    + split; [now right|reflexivity].
    + split; [discriminate|]. intros [[=]|[= ->]]. contradiction.
  - split; [discriminate|]. intros [[=]|[=]].
Qed.

Lemma not_char_plus_spec (c : ascii) (k : string -> bool) (s : string) :
  Re.not_char_plus c k s = true <->
  exists a b, s = a ++ b /\ segment c a /\ k b = true.
Proof.
  induction s as [|x s IH]; cbn.
  - split; [discriminate|]. intros (a & b & Hs & [Ha _] & _).
    destruct a; [contradiction|discriminate].
  - destruct (Ascii.eqb_spec x c) as [->|Hx].
    + split; [discriminate|]. intros (a & b & Hs & [Ha Hf] & _).
      destruct a as [|y a]; [contradiction|]. injection Hs as <- _.
      cbn in Hf. now rewrite Ascii.eqb_refl in Hf.
    + rewrite orb_true_iff, IH. split.
      * intros [Hk|(a & b & -> & [Ha Hf] & Hk)].
        -- exists (String x ""), s. repeat split; [discriminate| |exact Hk].
           cbn. now rewrite (proj2 (Ascii.eqb_neq _ _) Hx).
        -- exists (String x a), b. repeat split; [discriminate| |exact Hk].
           cbn. now rewrite (proj2 (Ascii.eqb_neq _ _) Hx).
      * intros (a & b & Hs & [Ha Hf] & Hk).
        destruct a as [|y a]; [contradiction|]. injection Hs as <- ->.
        destruct a as [|z a]; [now left|]. right.
        exists (String z a), b. repeat split; [discriminate| |exact Hk].
        cbn in Hf. now apply andb_true_iff in Hf as [_ Hf].
Qed.

Lemma matches_lit (p : string) (rest : list Re.Token) (s : string) :
  Re.matches (Re.Lit p :: rest) s = true <->
  exists s', s = p ++ s' /\ Re.matches rest s' = true.
Proof.
  cbn. destruct (Re.strip_prefix p s) as [s'|] eqn:Hp.
  - apply strip_prefix_spec in Hp as ->. split; [now exists s'|].
    intros (s'' & Hs & Hm). apply strip_prefix_spec in Hs.
    rewrite (proj2 (strip_prefix_spec p _ s') eq_refl) in Hs. now injection Hs as ->.
  - split; [discriminate|]. intros (s' & Hs & _).
    apply strip_prefix_spec in Hs. congruence.
Qed.

Lemma append_cons (c : ascii) (a b : string) :
  String c a ++ b = String c (a ++ b).
Proof. reflexivity. Qed.

Lemma free_of_app (c : ascii) (a b : string) :
  free_of c (a ++ b) = free_of c a && free_of c b.
Proof.
  induction a as [|x a IH]; [reflexivity|].
  rewrite append_cons. cbn [free_of]. now rewrite IH, andb_assoc.
Qed.

Lemma segment_app (c : ascii) (a b : string) :
  segment c a -> free_of c b = true -> segment c (a ++ b).
Proof.
  intros [Ha Hf] Hb. split.
  - destruct a; [contradiction|discriminate].
  - now rewrite free_of_app, Hf, Hb.
Qed.

Lemma append_nil_r (s : string) : s ++ "" = s.
Proof.
  induction s as [|c s IH]; [reflexivity|]. now rewrite append_cons, IH.
Qed.

Lemma append_assoc (a b c : string) : (a ++ b) ++ c = a ++ (b ++ c).
Proof.
  induction a as [|x a IH]; [reflexivity|]. now rewrite !append_cons, IH.
Qed.

  (** [[^c]+$] *)
Lemma matches_last_segment (c : ascii) (s : string) :
  c <> "010"%char ->
  Re.matches [Re.NotChar1 c] s = true <-> segment c s.
Proof.
  intros Hc. cbn. rewrite not_char_plus_spec. split.
  - intros (a & b & -> & Ha & [->| ->]%at_end_spec).
    + now rewrite append_nil_r.
    + apply segment_app; [exact Ha|]. cbn [free_of].
      destruct (Ascii.eqb_spec "010" c); [congruence|reflexivity].
  - intros Hs. exists s, "". now rewrite append_nil_r.
Qed.

  (** [[^c]+suffix$] *)
Lemma matches_segment_suffix (c : ascii) (suffix s : string) :
  Re.matches [Re.NotChar1 c; Re.Lit suffix] s = true <->
  exists n, segment c n
            /\ (s = n ++ suffix \/ s = n ++ suffix ++ String "010" "").
Proof.
  change (Re.matches [Re.NotChar1 c; Re.Lit suffix] s)
    with (Re.not_char_plus c (Re.matches [Re.Lit suffix]) s).
  rewrite not_char_plus_spec. split.
  - intros (a & b & -> & Ha & (e & -> & He)%matches_lit).
    exists a. split; [exact Ha|].
    apply at_end_spec in He as [->| ->]; [left|right]; [|reflexivity].
    now rewrite append_nil_r.
  - intros (n & Hn & [->| ->]).
    + exists n, suffix. repeat split; try apply Hn.
      apply matches_lit. exists "". now rewrite append_nil_r.
    + exists n, (suffix ++ String "010" ""). repeat split; try apply Hn.
      apply matches_lit. now exists (String "010" "").
Qed.

  (** [prefix[^c]+middle] followed by the rest of a pattern. *)
Lemma matches_prefix_segment (prefix middle : string) (c : ascii)
    (rest : list Re.Token) (s : string) :
  Re.matches (Re.Lit prefix :: Re.NotChar1 c :: Re.Lit middle :: rest) s = true
  <-> exists o s', segment c o /\ s = prefix ++ o ++ middle ++ s'
                   /\ Re.matches rest s' = true.
Proof.
  rewrite matches_lit. split.
  - intros (s1 & -> & Hm).
    change (Re.matches (Re.NotChar1 c :: Re.Lit middle :: rest) s1)
      with (Re.not_char_plus c (Re.matches (Re.Lit middle :: rest)) s1) in Hm.
    apply not_char_plus_spec in Hm as (o & b & -> & Ho & Hm).
    apply matches_lit in Hm as (s' & -> & Hm). now exists o, s'.
  - intros (o & s' & Ho & -> & Hm). eexists; split; [reflexivity|].
    change (Re.matches (Re.NotChar1 c :: Re.Lit middle :: rest) ?x)
      with (Re.not_char_plus c (Re.matches (Re.Lit middle :: rest)) x).
    apply not_char_plus_spec. exists o, (middle ++ s').
    repeat split; try apply Ho. apply matches_lit. now exists s'.
Qed.

Lemma github_patterns_spec (v : string) :
  Re.match_any Repo.github_patterns v = true <-> github_url v.
Proof.
  unfold Re.match_any, Repo.github_patterns. cbn [existsb].
  rewrite orb_false_r, !orb_true_iff, !matches_prefix_segment. split.
  - intros [(o & s' & Ho & -> & Hm)|[(o & s' & Ho & -> & Hm)
                                    |(o & s' & Ho & -> & Hm)]].
    + apply matches_segment_suffix in Hm as (n & Hn & Hs).
      exists o, s'. repeat split; try apply Ho; [| |now left].
      * destruct Hs as [->| ->]; destruct n; try discriminate;
          now destruct Hn.
      * destruct Hs as [->| ->]; rewrite !free_of_app;
          now rewrite (proj2 Hn).
    + apply matches_last_segment in Hm; [|discriminate].
      exists o, s'. repeat split; try apply Ho; try apply Hm. now left.
    + apply matches_segment_suffix in Hm as (n & Hn & Hs).
      exists o, n. repeat split; try apply Ho; try apply Hn.
      destruct Hs as [->| ->]; [right; left|right; right]; reflexivity.
  - intros (o & n & Ho & Hn & [->|[->| ->]]).
    + right; left. exists o, n. repeat split; try apply Ho.
      apply matches_last_segment; [discriminate|exact Hn].
    + right; right. exists o, (n ++ ".git"). repeat split; try apply Ho.
      apply matches_segment_suffix. exists n. split; [exact Hn|now left].
    + right; right. exists o, (n ++ ".git" ++ String "010" "").
      repeat split; try apply Ho.
      apply matches_segment_suffix. exists n. split; [exact Hn|now right].
Qed.

Lemma codecommit_patterns_spec (v : string) :
  Re.match_any Repo.codecommit_patterns v = true <-> codecommit_url v.
Proof.
  unfold Re.match_any, Repo.codecommit_patterns, codecommit_url.
  cbn [existsb].
  rewrite orb_false_r, !orb_true_iff, !matches_prefix_segment, matches_lit.
  split.
  - intros [(n & -> & Hn)|[(r & n & Hr & -> & Hn)|(r & n & Hr & -> & Hn)]];
      (apply matches_last_segment in Hn; [|discriminate]).
    + left. now exists n.
    + right; left. now exists r, n.
    + right; right. now exists r, n.
  - intros [(n & Hn & ->)|[(r & n & Hr & Hn & ->)|(r & n & Hr & Hn & ->)]];
      (apply matches_last_segment in Hn; [|discriminate]).
    + left. now exists n.
    + right; left. now exists r, n.
    + right; right. now exists r, n.
Qed.
End GrammarFacts.

(** The validator of the remote URL accepts, for GitHub, exactly the URLs
    of the grammar, unchanged, and rejects every other text with
    [ValueError]. *)
Lemma github_url_validation (v : string) :
  (Repo.URL妥当性を検証 v (Some Repo.GITHUB) = Py.Return v
   <-> Grammar.github_url v)
  /\ (Repo.URL妥当性を検証 v (Some Repo.GITHUB) = Py.Raise Py.ValueError
      <-> ~ Grammar.github_url v).
Proof.
  unfold Repo.URL妥当性を検証. rewrite <- github_patterns_spec.
  destruct (Re.match_any Repo.github_patterns v); cbn [negb];
    repeat split; congruence.
Qed.

(** The same for CodeCommit. *)
Lemma codecommit_url_validation (v : string) :
  (Repo.URL妥当性を検証 v (Some Repo.CODECOMMIT) = Py.Return v
   <-> Grammar.codecommit_url v)
  /\ (Repo.URL妥当性を検証 v (Some Repo.CODECOMMIT) = Py.Raise Py.ValueError
      <-> ~ Grammar.codecommit_url v).
Proof.
  unfold Repo.URL妥当性を検証. rewrite <- codecommit_patterns_spec.
  destruct (Re.match_any Repo.codecommit_patterns v); cbn [negb];
    repeat split; congruence.
Qed.

(** The validator of the remote URL accepts, for each provider, exactly
    the texts of the grammar of that provider: for GitHub
    [https://github.com/<owner>/<name>] and
    [git@github.com:<owner>/<name>.git], the latter also with one newline
    after it; for CodeCommit [codecommit://<name>],
    [codecommit::<region>://<name>] and
    [https://git-codecommit.<region>.amazonaws.com/v1/repos/<name>].  It
    returns an accepted text unchanged and raises [ValueError] for every
    other text. *)
Theorem url_validation_follows_the_grammar
    (プロバイダー : Repo.リポジトリプロバイダー) (v : string) :
  (Repo.URL妥当性を検証 v (Some プロバイダー) = Py.Return v
   <-> Grammar.remote_url プロバイダー v)
  /\ (Repo.URL妥当性を検証 v (Some プロバイダー) = Py.Raise Py.ValueError
      <-> ~ Grammar.remote_url プロバイダー v).
Proof.
  destruct プロバイダー; [apply github_url_validation
                        |apply codecommit_url_validation].
Qed.

(** Every repository the constructor returns has a remote URL of the
    grammar of its provider, and a display name that is not empty, has no
    white space at either end and is at most 100 characters long. *)
Theorem constructed_repository_is_valid (現在 : Py.Clock) (a : Repo.引数)
    (r : Repo.リポジトリ) :
  Repo.作成 現在 a = Py.Return r ->
  match Repo.プロバイダー r with
  | Repo.GITHUB => Grammar.github_url (Repo.リモートURL r)
  | Repo.CODECOMMIT => Grammar.codecommit_url (Repo.リモートURL r)
  end
  /\ Repo.表示名 r = PyStr.strip (Repo.引数_表示名 a)
  /\ Repo.表示名 r <> ""
  /\ PyStr.no_leading_space (Repo.表示名 r)
  /\ Notions.no_trailing_space (Repo.表示名 r)
  /\ PyStr.len (Repo.表示名 r) <= 100.
Proof.
  intros Hc. pose proof (repo_作成_validated _ _ _ Hc) as [Hurl Hname].
  split.
  - unfold Repo.URL妥当性を検証 in Hurl. destruct (Repo.プロバイダー r).
    + apply github_patterns_spec.
      now destruct (Re.match_any Repo.github_patterns _).
    + apply codecommit_patterns_spec.
      now destruct (Re.match_any Repo.codecommit_patterns _).
  - assert (Repo.表示名妥当性を検証 (Repo.引数_表示名 a)
            = Py.Return (Repo.表示名 r)) as Hraw.
    { unfold Repo.作成 in Hc.
      destruct (Py.coerce_enum _); [|discriminate].
      destruct (Repo.URL妥当性を検証 _ _); [|discriminate].
      destruct (Repo.表示名妥当性を検証 _); [|discriminate].
      destruct (from_option _ _ _); [|discriminate].
      now injection Hc as <-. }
    unfold Repo.表示名妥当性を検証 in Hraw. rewrite name_check in Hraw.
    destruct (PyStr.truthy (PyStr.strip (Repo.引数_表示名 a))) eqn:Hs;
      [|discriminate].
    destruct (Z.leb_spec (PyStr.len (Repo.引数_表示名 a)) 100);
      [|discriminate].
    injection Hraw as Hraw. rewrite <- Hraw.
    pose proof (strip_trimmed (Repo.引数_表示名 a)) as [? ?].
    pose proof (strip_length (Repo.引数_表示名 a)).
    repeat split; try assumption; [|lia].
    intros Hempty. now rewrite Hempty in Hs.
Qed.

Lemma constructed_repository_is_valid_witness :
  Grammar.github_url "https://github.com/acme/gadgets"
  /\ Repo.表示名 Example.リポジトリ = "Gadgets".
Proof.
  destruct (constructed_repository_is_valid Sample.時計 Example.引数
              Example.リポジトリ) as (Hurl & Hname & _);
    [reflexivity|].
  split; [exact Hurl|reflexivity].
Defined.

(** A repository that the constructor returned comes back from its item
    with every field as it was, except that a last-scan reference that is
    the empty string comes back as [None]. *)
Theorem repository_item_roundtrip `{Py.Calendar} (現在 現在' : Py.Clock)
    (a : Repo.引数) (r : Repo.リポジトリ) :
  Repo.作成 現在 a = Py.Return r ->
  Repo.DynamoDB項目から作成 現在' (Repo.DynamoDB項目に変換 r)
  = Py.Return (Repo.往復後 r)
  /\ (Repo.最終スキャンSHA r <> Some "" -> Repo.往復後 r = r).
Proof.
  intros Hc. split; [now apply (repo_roundtrip 現在 現在' a)|].
  intros Hsha. unfold Repo.往復後. destruct r; cbn in *. f_equal.
  now destruct 最終スキャンSHA as [[|c s]|].
Qed.

Lemma repository_item_roundtrip_witness :
  Repo.DynamoDB項目から作成 (H := decimal_calendar) Sample.時計
    (Repo.DynamoDB項目に変換 (H := decimal_calendar) Example.リポジトリ)
  = Py.Return Example.リポジトリ.
Proof.
  destruct (repository_item_roundtrip (H := decimal_calendar) Sample.時計
              Sample.時計 Example.引数 Example.リポジトリ) as [Hr Hid];
    [reflexivity|].
  rewrite Hr. reflexivity.
Defined.

(** ** Queue messages *)

Section QueueFacts.
  Import Py Queue.
  Context `{Calendar}.

  (** Restoring the message made from a job gives back its job id,
      repository id, type, priority, input parameters and creation
      time. *)
Theorem sqs_message_roundtrip (ジョブ : Job.ジョブ) :
  SQSメッセージからジョブを復元 (SQSメッセージを作成 ジョブ)
  = Return {|
      復元_ジョブID := VStr (Job.ジョブID ジョブ);
      復元_リポジトリID := VStr (Job.リポジトリID ジョブ);
      復元_種別 := Job.種別 ジョブ;
      復元_優先度 := Job.優先度 ジョブ;
      復元_入力パラメータ := of_opt_map (Job.入力パラメータ ジョブ);
      復元_作成日時 := Job.作成日時 ジョブ
    |}.
Proof.
  unfold SQSメッセージからジョブを復元, SQSメッセージを作成, getitem, get.
  simplify_map_eq. unfold parse_datetime. rewrite fromisoformat_isoformat.
  now destruct (Job.種別 ジョブ), (Job.優先度 ジョブ).
Qed.


Lemma enum_call_優先度_spec (s : string) (k : Job.ジョブ優先度) :
  enum_call s = Return k <-> value k = s.
Proof.
  split.
  - unfold enum_call. cbn [members Job.ジョブ優先度_enum List.find value].
    repeat match goal with
           | |- context [String.eqb ?x s] => destruct (String.eqb_spec x s)
           end; intros [= <-] || discriminate; assumption.
  - intros <-. apply enum_call_of_優先度.
Qed.

Lemma enum_call_value_inv {E} `{StrEnum E} (v : Value) (k : E) :
  enum_call_value v = Return k <-> exists s, v = VStr s /\ enum_call s = Return k.
Proof.
  split.
  - destruct v; try discriminate. intros Hk. now eexists.
  - now intros (s & -> & Hk).
Qed.

Lemma parse_datetime_inv (v : Value) (t : datetime) :
  parse_datetime v = Return t <-> exists s, v = VStr s /\ fromisoformat s = Some t.
Proof.
  split.
  - destruct v; try discriminate. cbn.
    destruct (fromisoformat s) eqn:Hs; [|discriminate].
    intros [= ->]. now eexists.
  - intros (s & -> & Hs). cbn. now rewrite Hs.
Qed.

  (** A message restores exactly when it has a job id and a repository
      id, its type and priority are the values of members, and its
      creation time is a text in ISO format; the input parameters default
      to the empty dictionary.  The priority is required here, although
      reading a job item defaults it. *)
Theorem sqs_restore_succeeds_iff (メッセージ : gmap string Value)
    (情報 : 復元情報) :
  SQSメッセージからジョブを復元 メッセージ = Return 情報
  <-> メッセージ !! "job_id" = Some (復元_ジョブID 情報)
      /\ メッセージ !! "repo_id" = Some (復元_リポジトリID 情報)
      /\ メッセージ !! "type" = Some (VStr (value (復元_種別 情報)))
      /\ メッセージ !! "priority" = Some (VStr (value (復元_優先度 情報)))
      /\ 復元_入力パラメータ 情報
         = default (VMap ∅) (メッセージ !! "input_params")
      /\ exists s, メッセージ !! "created_at" = Some (VStr s)
                   /\ fromisoformat s = Some (復元_作成日時 情報).
Proof.
  unfold SQSメッセージからジョブを復元, getitem, get. split.
  - destruct (メッセージ !! "job_id") as [job_id|]; [|discriminate].
    destruct (メッセージ !! "repo_id") as [repo_id|]; [|discriminate].
    destruct (メッセージ !! "type") as [ty|]; [|discriminate].
    cbn [mbind Result_bind].
    destruct (enum_call_value ty) as [k|] eqn:Hk; [|discriminate].
    apply enum_call_value_inv in Hk as (s & -> & <-%enum_call_種別_spec).
    destruct (メッセージ !! "priority") as [pr|]; [|discriminate].
    cbn [mbind Result_bind].
    destruct (enum_call_value pr) as [q|] eqn:Hq; [|discriminate].
    apply enum_call_value_inv in Hq as (s & -> & <-%enum_call_優先度_spec).
    cbn [mbind Result_bind].
    destruct (メッセージ !! "created_at") as [c|]; [|discriminate].
    cbn [mbind Result_bind].
    destruct (parse_datetime c) as [t|] eqn:Ht; [|discriminate].
    apply parse_datetime_inv in Ht as (s & -> & Hs).
    intros [= <-]. cbn. repeat split; try reflexivity. now exists s.
  - intros (-> & -> & -> & -> & Hin & s & -> & Hs).
    cbn [mbind Result_bind enum_call_value].
    rewrite enum_call_of_種別, enum_call_of_優先度. cbn [mbind Result_bind].
    unfold parse_datetime. rewrite Hs. cbn [mbind Result_bind].
    destruct 情報; cbn in *. now subst.
Qed.

End QueueFacts.

(** ** The life cycle of a record *)

Section LifecycleFacts.
  Import Py DynamoDB Manager.
  Context `{Calendar}.



Lemma 保存済み_upsert (t : Table) (id : string) (new : gmap string Value) :
  new !! "repo_id" = Some (VStr id) ->
  保存済み (with_items t (upsert "repo_id" (VStr id) new (items t))) id
  = Some new.
Proof. intros Hk. now apply find_item_upsert. Qed.

Lemma 保存済み_key (t : Table) (id : string) (it : gmap string Value) :
  保存済み t id = Some it -> it !! "repo_id" = Some (VStr id).
Proof. apply find_item_has_key. Qed.

End LifecycleFacts.



Section FaultFacts.
  Import Py DynamoDB Manager.
  Context `{Calendar}.

Ltac run :=
  cbv [mbind M_bind mret M_ret table set_items check]; cbn beta iota.

  (** Under a fault the table answers no request. *)
Lemma アイテムを取得_fault (k : gmap string Value) (code : string) (t : Table) :
  fault t = Some code ->
  アイテムを取得 k t = (Raise DynamoDB例外, 障害時 code DynamoDB例外 t).
Proof.
  intros Hf. unfold アイテムを取得, try_except, get_item.
  now rewrite (request_fault _ _ _ Hf).
Qed.

Lemma スキャン実行_fault (f : option Filter) (n : option nat) (code : string)
    (t : Table) :
  fault t = Some code ->
  スキャン実行 f n t = (Raise DynamoDB例外, 障害時 code DynamoDB例外 t).
Proof.
  intros Hf. unfold スキャン実行, try_except, scan.
  now rewrite (request_fault _ _ _ Hf).
Qed.

Lemma on_conditional_check_other {A} (code : string) (t : Table) :
  code <> "ConditionalCheckFailedException" ->
  on_conditional_check (A := A) (ClientError code) t
  = (Raise DynamoDB例外, record_exn DynamoDB例外 t).
Proof.
  intros Hc. unfold on_conditional_check.
  now destruct (String.eqb_spec code "ConditionalCheckFailedException").
Qed.

Lemma アイテムを更新_fault (k : gmap string Value)
    (sets : list (string * string)) (values : gmap string Value)
    (names : gmap string string) (c : option Condition) (code : string)
    (t : Table) :
  fault t = Some code -> code <> "ConditionalCheckFailedException" ->
  アイテムを更新 k sets values names c t
  = (Raise DynamoDB例外, 障害時 code DynamoDB例外 t).
Proof.
  intros Hf Hc. unfold アイテムを更新, try_except, update_item.
  rewrite (request_fault _ _ _ Hf). now apply on_conditional_check_other.
Qed.

Lemma アイテムを削除_fault (k : gmap string Value) (c : option Condition)
    (code : string) (t : Table) :
  fault t = Some code -> code <> "ConditionalCheckFailedException" ->
  アイテムを削除 k c t = (Raise DynamoDB例外, 障害時 code DynamoDB例外 t).
Proof.
  intros Hf Hc. unfold アイテムを削除, try_except, delete_item. run.
  rewrite (request_fault _ _ _ Hf). now apply on_conditional_check_other.
Qed.

End FaultFacts.

(** While the service answers every request with an error (other than a
    failed condition), every operation of the manager raises [DynamoDB例外]
    and the stored items stay as they are. *)
Theorem unreachable_table_raises `{Py.Calendar}
    (現在 : Py.Clock) (id : string) (p : Repo.リポジトリプロバイダー)
    (url name branch : string) (data : gmap string Py.Value)
    (物理削除 : bool) (st : Repo.リポジトリステータス) (sha : option string)
    (code : string) (t : DynamoDB.Table) :
  DynamoDB.fault t = Some code ->
  code <> "ConditionalCheckFailedException" ->
  Notions.fails_with Py.DynamoDB例外 (Manager.URLでリポジトリを検索 現在 url) t
  /\ Notions.fails_with Py.DynamoDB例外
       (Manager.リポジトリを作成 現在 id p url name branch) t
  /\ Notions.fails_with Py.DynamoDB例外 (Manager.リポジトリを取得 現在 id) t
  /\ Notions.fails_with Py.DynamoDB例外 (Manager.リポジトリを更新 現在 id data) t
  /\ Notions.fails_with Py.DynamoDB例外
       (Manager.リポジトリを削除 現在 id 物理削除) t
  /\ Notions.fails_with Py.DynamoDB例外
       (Manager.ステータスを更新 現在 id st sha) t.
Proof.
  intros Hf Hc. unfold Notions.fails_with.
  assert ((Manager.URLでリポジトリを検索 現在 url t)
          = (Py.Raise Py.DynamoDB例外,
             DynamoDB.record_exn Py.DynamoDB例外
               (DynamoDB.障害時 code Py.DynamoDB例外 t))) as Hfind.
  { unfold Manager.URLでリポジトリを検索, DynamoDB.try_except.
    cbv [mbind DynamoDB.M_bind]; cbn beta iota.
    now rewrite (スキャン実行_fault _ _ _ _ Hf). }
  assert ((Manager.リポジトリを更新 現在 id data t)
          = (Py.Raise Py.DynamoDB例外,
             DynamoDB.record_exn Py.DynamoDB例外
               (DynamoDB.障害時 code Py.DynamoDB例外 t))) as Hupd.
  { unfold Manager.リポジトリを更新, Manager.更新リクエスト, DynamoDB.try_except.
    cbv [mbind DynamoDB.M_bind]; cbn beta iota zeta.
    now rewrite (アイテムを更新_fault _ _ _ _ _ _ _ Hf Hc). }
  repeat split.
  - now rewrite Hfind.
  - now rewrite Hfind.
  - unfold Manager.リポジトリを作成, DynamoDB.try_except.
    cbv [mbind DynamoDB.M_bind]; cbn beta iota. now rewrite Hfind.
  - unfold Manager.リポジトリを作成, DynamoDB.try_except.
    cbv [mbind DynamoDB.M_bind]; cbn beta iota. now rewrite Hfind.
  - unfold Manager.リポジトリを取得, DynamoDB.try_except.
    cbv [mbind DynamoDB.M_bind]; cbn beta iota.
    now rewrite (アイテムを取得_fault _ _ _ Hf).
  - unfold Manager.リポジトリを取得, DynamoDB.try_except.
    cbv [mbind DynamoDB.M_bind]; cbn beta iota.
    now rewrite (アイテムを取得_fault _ _ _ Hf).
  - now rewrite Hupd.
  - now rewrite Hupd.
  - unfold Manager.リポジトリを削除, DynamoDB.try_except.
    cbv [mbind DynamoDB.M_bind]; cbn beta iota zeta.
    destruct 物理削除.
    + now rewrite (アイテムを削除_fault _ _ _ _ Hf Hc).
    + now rewrite (アイテムを更新_fault _ _ _ _ _ _ _ Hf Hc).
  - unfold Manager.リポジトリを削除, DynamoDB.try_except.
    cbv [mbind DynamoDB.M_bind]; cbn beta iota zeta.
    destruct 物理削除.
    + now rewrite (アイテムを削除_fault _ _ _ _ Hf Hc).
    + now rewrite (アイテムを更新_fault _ _ _ _ _ _ _ Hf Hc).
  - unfold Manager.ステータスを更新, DynamoDB.try_except.
    cbv [mbind DynamoDB.M_bind]; cbn beta iota.
    assert (DynamoDB.fault t = Some code) as Hf' by exact Hf.
    unfold Manager.リポジトリを更新, Manager.更新リクエスト, DynamoDB.try_except.
    cbv [mbind DynamoDB.M_bind]; cbn beta iota zeta.
    now rewrite (アイテムを更新_fault _ _ _ _ _ _ _ Hf Hc).
  - unfold Manager.ステータスを更新, DynamoDB.try_except.
    cbv [mbind DynamoDB.M_bind]; cbn beta iota.
    unfold Manager.リポジトリを更新, Manager.更新リクエスト, DynamoDB.try_except.
    cbv [mbind DynamoDB.M_bind]; cbn beta iota zeta.
    now rewrite (アイテムを更新_fault _ _ _ _ _ _ _ Hf Hc).
Qed.

Lemma unreachable_table_raises_witness :
  (Manager.リポジトリを取得 (H := decimal_calendar) Sample.時計 "repo-bbbb0001"
     Example.障害テーブル).1 = Py.Raise Py.DynamoDB例外.
Proof.
  destruct (unreachable_table_raises (H := decimal_calendar) Sample.時計
              "repo-bbbb0001" Repo.GITHUB "https://github.com/acme/gadgets"
              "Gadgets" "main" ∅ false Repo.READY None "ServiceUnavailable"
              Example.障害テーブル) as (_ & _ & [Hget _] & _);
    [reflexivity|discriminate|].
  exact Hget.
Defined.

Section FrameFacts.
  Import Py DynamoDB Manager Notions.
  Context `{Calendar}.

Ltac run :=
  cbv [mbind M_bind mret M_ret table set_items check]; cbn beta iota.

  (** The assignments of a [SET] clause never name the partition key. *)
Lemma resolve_sets_key (pk : string) (names : gmap string string)
    (values : gmap string Value) (sets : list (string * string))
    (l : list (string * Value)) :
  resolve_sets pk names values sets = Some l -> pk ∉ l.*1.
Proof.
  revert l. induction sets as [|[name ph] sets IH]; intros l; cbn.
  - intros [= <-]. apply not_elem_of_nil.
  - destruct (resolve_name names name) as [a|]; [|discriminate].
    destruct (values !! ph) as [v|]; [|discriminate].
    destruct (resolve_sets pk names values sets) as [l'|]; [|discriminate].
    destruct (String.eqb_spec a pk) as [->|Ha]; [discriminate|].
    intros [= <-]. cbn. apply not_elem_of_cons. split; [congruence|].
    now apply IH.
Qed.

Lemma apply_sets_other (l : list (string * Value)) (it : gmap string Value)
    (a : string) :
  a ∉ l.*1 -> apply_sets l it !! a = it !! a.
Proof.
  revert it. induction l as [|[b v] l IH]; intros it; [reflexivity|].
  cbn. intros [Hb Hl]%not_elem_of_cons.
  change (apply_sets l (<[b := v]> it) !! a = it !! a).
  rewrite IH by exact Hl. now apply lookup_insert_ne.
Qed.

  (** What a conditional update leaves behind on a reachable table: the
      items as they were, or the items with the record of the key replaced
      by (or, for a missing key, extended with) the returned item, which
      carries the key. *)
Lemma アイテムを更新_effect (id : string) (sets : list (string * string))
    (values : gmap string Value) (names : gmap string string)
    (cond : Condition) (t : Table) :
  正常 t ->
  (exists new,
     new !! "repo_id" = Some (VStr id)
     /\ アイテムを更新 (キー id) sets values names (Some cond) t
        = (Return new,
           with_items t (upsert "repo_id" (VStr id) new (items t))))
  \/ (exists e t',
        アイテムを更新 (キー id) sets values names (Some cond) t = (Raise e, t')
        /\ items t' = items t /\ 正常 t').
Proof.
  intros Ht.
  destruct (resolve_sets "repo_id" names values sets) as [l|] eqn:Hl.
  - rewrite (アイテムを更新_ok _ _ _ _ _ _ _ Ht Hl).
    destruct (eval_condition cond values (保存済み t id)) as [[|]|].
    + left. eexists. split; [|reflexivity].
      rewrite apply_sets_other by (eapply resolve_sets_key, Hl).
      destruct (保存済み t id) as [it|] eqn:Hs; cbn.
      * eapply find_item_has_key, Hs.
      * reflexivity.
    + right. now eexists _, _.
    + right. now eexists _, _.
  - right. destruct Ht as [Hf Hk].
    unfold アイテムを更新, try_except, update_item.
    rewrite request_ok by done. run. rewrite Hk, key_value_キー, Hl.
    now eexists _, _.
Qed.


  (** The same for the conditional delete and the conditional put. *)
Lemma アイテムを削除_effect (id : string) (cond : Condition) (t : Table) :
  正常 t ->
  アイテムを削除 (キー id) (Some cond) t
  = (Return true, with_items t (remove "repo_id" (VStr id) (items t)))
  \/ (exists e t',
        アイテムを削除 (キー id) (Some cond) t = (Raise e, t')
        /\ items t' = items t /\ 正常 t').
Proof.
  intros Ht. rewrite (アイテムを削除_ok _ _ _ Ht).
  destruct (eval_condition cond ∅ (保存済み t id)) as [[|]|];
    [now left|right; now eexists _, _..].
Qed.

Lemma アイテムを保存_effect (it : gmap string Value) (id : string)
    (cond : Condition) (t : Table) :
  正常 t ->
  it !! "repo_id" = Some (VStr id) ->
  アイテムを保存 it (Some cond) t
  = (Return true, with_items t (upsert "repo_id" (VStr id) it (items t)))
  \/ (exists e t',
        アイテムを保存 it (Some cond) t = (Raise e, t')
        /\ items t' = items t /\ 正常 t').
Proof.
  intros Ht Hk. rewrite (アイテムを保存_ok _ _ _ _ Ht Hk).
  destruct (eval_condition cond ∅ _) as [[|]|];
    [now left|right; now eexists _, _..].
Qed.

Lemma 他は不変_items (id : string) (t t' : Table) :
  items t' = items t -> 他は不変 id t t'.
Proof. intros Hi id' _. unfold 保存済み. now rewrite Hi. Qed.

Lemma 他は不変_upsert (id : string) (new : gmap string Value) (t t' : Table) :
  new !! "repo_id" = Some (VStr id) ->
  items t' = upsert "repo_id" (VStr id) new (items t) ->
  他は不変 id t t'.
Proof.
  intros Hk Hi id' Hne. unfold 保存済み. rewrite Hi.
  apply find_item_upsert_ne; [exact Hk|congruence].
Qed.

Lemma 他は不変_remove (id : string) (t t' : Table) :
  items t' = remove "repo_id" (VStr id) (items t) ->
  他は不変 id t t'.
Proof.
  intros Hi id' Hne. unfold 保存済み. rewrite Hi.
  apply find_item_remove_ne. congruence.
Qed.

Lemma リポジトリを更新_frame (現在 : Clock) (id : string)
    (data : gmap string Value) (t : Table) :
  正常 t -> 他は不変 id t (リポジトリを更新 現在 id data t).2.
Proof.
  intros Ht. unfold リポジトリを更新, 更新リクエスト, try_except.
  cbv [mbind M_bind mret M_ret]; cbn beta iota zeta.
  match goal with
  | |- context [アイテムを更新 ?k ?s ?v ?n (Some ?c) t] =>
      destruct (アイテムを更新_effect id s v n c t Ht)
        as [(new & Hk & ->)|(e & t' & -> & Hi & _)]
  end.
  - destruct (lift_cases (Repo.DynamoDB項目から作成 現在 new)
                (with_items t (upsert "repo_id" (VStr id) new (items t))))
      as [(r & _ & ->)|(e & _ & ->)]; [|destruct e];
      now apply (他は不変_upsert id new).
  - destruct e; now apply 他は不変_items.
Qed.

Lemma リポジトリを削除_frame (現在 : Clock) (id : string) (物理削除 : bool)
    (t : Table) :
  正常 t -> 他は不変 id t (リポジトリを削除 現在 id 物理削除 t).2.
Proof.
  intros Ht. unfold リポジトリを削除, try_except.
  cbv [mbind M_bind mret M_ret]; cbn beta iota zeta. destruct 物理削除.
  - destruct (アイテムを削除_effect id 存在条件 t Ht)
      as [->|(e & t' & -> & Hi & _)].
    + now apply 他は不変_remove.
    + destruct e; now apply 他は不変_items.
  - match goal with
    | |- context [アイテムを更新 ?k ?s ?v ?n (Some ?c) t] =>
        destruct (アイテムを更新_effect id s v n c t Ht)
          as [(new & Hk & ->)|(e & t' & -> & Hi & _)]
    end.
    + now apply (他は不変_upsert id new).
    + destruct e; now apply 他は不変_items.
Qed.

Lemma ステータスを更新_frame (現在 : Clock) (id : string)
    (st : Repo.リポジトリステータス) (sha : option string) (t : Table) :
  正常 t -> 他は不変 id t (ステータスを更新 現在 id st sha t).2.
Proof.
  intros Ht. unfold ステータスを更新, try_except.
  cbv [mbind M_bind mret M_ret]; cbn beta iota.
  pose proof (リポジトリを更新_frame (更新時の時計 現在 sha) id
                (ステータス更新データ 現在 st sha) t Ht) as Hfr.
  destruct (リポジトリを更新 _ id _ t) as [[o|e] t']; cbn in *.
  - now destruct (bool_decide (is_Some o)).
  - exact Hfr.
Qed.

Lemma リポジトリを作成_frame (現在 : Clock) (id : string)
    (p : Repo.リポジトリプロバイダー) (url name branch : string) (t : Table) :
  正常 t -> 他は不変 id t (リポジトリを作成 現在 id p url name branch t).2.
Proof.
  intros Ht. unfold リポジトリを作成, try_except.
  cbv [mbind M_bind mret M_ret]; cbn beta iota.
  rewrite (URLでリポジトリを検索_ok 現在 url t Ht).
  destruct (List.filter _ _) as [|it rest].
  - destruct (lift_cases (新リポジトリ (現在 0%nat) id p url name branch) t)
      as [(r & Hr & ->)|(e & _ & ->)].
    + pose proof (新リポジトリ_fields _ _ _ _ _ _ _ Hr) as (Hid & _).
      assert (Repo.DynamoDB項目に変換 r !! "repo_id" = Some (VStr id)) as Hk
        by now rewrite repo_item_repo_id, Hid.
      destruct (アイテムを保存_effect _ id 未登録条件 t Ht Hk)
        as [->|(e & t' & -> & Hi & _)].
      * now apply (他は不変_upsert id (Repo.DynamoDB項目に変換 r)).
      * destruct e; now apply 他は不変_items.
    + destruct e; now apply 他は不変_items.
  - destruct (Repo.DynamoDB項目から作成 現在 it); now apply 他は不変_items.
Qed.

  (** A record that an update, a logical delete or a status update finds
      is still stored under its id afterwards. *)
Lemma リポジトリを更新_keeps (現在 : Clock) (id : string)
    (data : gmap string Value) (t : Table) :
  正常 t -> is_Some (保存済み t id) ->
  is_Some (保存済み (リポジトリを更新 現在 id data t).2 id).
Proof.
  intros Ht Hs. unfold リポジトリを更新, 更新リクエスト, try_except.
  cbv [mbind M_bind mret M_ret]; cbn beta iota zeta.
  match goal with
  | |- context [アイテムを更新 ?k ?s ?v ?n (Some ?c) t] =>
      destruct (アイテムを更新_effect id s v n c t Ht)
        as [(new & Hk & ->)|(e & t' & -> & Hi & _)]
  end.
  - exists new.
    destruct (lift_cases (Repo.DynamoDB項目から作成 現在 new)
                (with_items t (upsert "repo_id" (VStr id) new (items t))))
      as [(r & _ & ->)|(e & _ & ->)]; [|destruct e];
      now apply find_item_upsert.
  - unfold 保存済み in *. destruct e; cbn; now rewrite Hi.
Qed.

End FrameFacts.

(** On a reachable table no operation of the manager on one repository id
    changes the record stored under another id, and an update or a status
    update never removes or re-keys the record it is applied to. *)
Theorem operations_touch_one_record `{Py.Calendar}
    (現在 : Py.Clock) (id id' : string) (p : Repo.リポジトリプロバイダー)
    (url name branch : string) (data : gmap string Py.Value)
    (物理削除 : bool) (st : Repo.リポジトリステータス) (sha : option string)
    (t : DynamoDB.Table) :
  Manager.正常 t ->
  id' <> id ->
  Manager.保存済み (Manager.リポジトリを作成 現在 id p url name branch t).2 id'
  = Manager.保存済み t id'
  /\ Manager.保存済み (Manager.リポジトリを更新 現在 id data t).2 id'
     = Manager.保存済み t id'
  /\ Manager.保存済み (Manager.リポジトリを削除 現在 id 物理削除 t).2 id'
     = Manager.保存済み t id'
  /\ Manager.保存済み (Manager.ステータスを更新 現在 id st sha t).2 id'
     = Manager.保存済み t id'
  /\ (is_Some (Manager.保存済み t id) ->
      is_Some (Manager.保存済み (Manager.リポジトリを更新 現在 id data t).2 id)
      /\ is_Some (Manager.保存済み
                    (Manager.ステータスを更新 現在 id st sha t).2 id)).
Proof.
  intros Ht Hne. split; [now apply リポジトリを作成_frame|].
  split; [now apply リポジトリを更新_frame|].
  split; [now apply リポジトリを削除_frame|].
  split; [now apply ステータスを更新_frame|].
  intros Hs. split; [now apply リポジトリを更新_keeps|].
  unfold Manager.ステータスを更新, DynamoDB.try_except.
  cbv [mbind DynamoDB.M_bind mret DynamoDB.M_ret]; cbn beta iota.
  pose proof (リポジトリを更新_keeps (Manager.更新時の時計 現在 sha) id
                (Manager.ステータス更新データ 現在 st sha) t Ht Hs) as Hk.
  destruct (Manager.リポジトリを更新 _ id _ t) as [[o|e] t']; cbn in *.
  - now destruct (bool_decide (is_Some o)).
  - exact Hk.
Qed.

Lemma operations_touch_one_record_witness :
  Manager.保存済み
    (Manager.リポジトリを削除 (H := decimal_calendar) Sample.時計
       "repo-aaaa0001" true Sample.二件のテーブル).2 "repo-bbbb0001"
  = Manager.保存済み Sample.二件のテーブル "repo-bbbb0001".
Proof.
  destruct (operations_touch_one_record (H := decimal_calendar) Sample.時計
              "repo-aaaa0001" "repo-bbbb0001" Repo.GITHUB
              "https://github.com/acme/widgets" "Widgets" "main" ∅ true
              Repo.READY None Sample.二件のテーブル)
    as (_ & _ & Hdel & _);
    [split; reflexivity|discriminate|].
  exact Hdel.
Defined.

Section ComposeFacts.
  Import Py DynamoDB Manager.
  Context `{Calendar}.



  (** What a successful read says about the item. *)
Lemma repo_from_item_deleted (現在 : Clock) (項目 : gmap string Value)
    (r : Repo.リポジトリ) :
  Repo.DynamoDB項目から作成 現在 項目 = Return r ->
  get 項目 "deleted" (VBool false) = VBool (Repo.削除フラグ r)
  /\ 項目 <> ∅.
Proof.
  unfold Repo.DynamoDB項目から作成. intros Hr. split.
  - repeat match type of Hr with
           | ?x ≫= _ = _ =>
               destruct x; [|discriminate]; cbn [mbind Result_bind] in Hr
           end.
    repeat match type of Hr with
           | context [as_str ?v] => destruct (as_str v); [|discriminate]
           end.
    destruct (as_opt_str _); [|discriminate].
    destruct (get 項目 "deleted" (VBool false)) as [| b | | |] eqn:Hd;
      try discriminate.
    cbn [as_bool] in Hr.
    destruct (as_opt_map _); [|discriminate].
    unfold Repo.作成 in Hr. cbn in Hr.
    repeat match type of Hr with
           | match ?x with Return _ => _ | Raise _ => _ end = _ =>
               destruct x; try discriminate
           end.
    now injection Hr as <-.
  - intros ->. discriminate.
Qed.



  (** A status that is no member's value makes the item unreadable. *)
Lemma repo_from_item_bad_status (現在 : Clock) (項目 : gmap string Value)
    (s : string) :
  項目 !! "status" = Some (VStr s) ->
  enum_call (E := Repo.リポジトリステータス) s = Raise ValueError ->
  exists e, Repo.DynamoDB項目から作成 現在 項目 = Raise e.
Proof.
  intros Hs He. unfold Repo.DynamoDB項目から作成, get. rewrite Hs.
  cbn [enum_call_value]. rewrite He.
  repeat match goal with
         | |- context [?x ≫= _] =>
             destruct x; cbn [mbind Result_bind]; [|now eexists]
         end.
  now eexists.
Qed.


End ComposeFacts.



Section PoisonFacts.
  Import Py DynamoDB Manager.
  Context `{Calendar}.

Lemma 有効なアイテム_未削除 (it : gmap string Value) :
  it <> ∅ -> 未削除 it = true -> 有効なアイテム (Some it) = true.
Proof.
  intros Hne Hlive. unfold 有効なアイテム, get.
  rewrite bool_decide_eq_false_2 by exact Hne. cbn [negb andb].
  unfold 未削除 in Hlive.
  apply orb_true_iff in Hlive as [Hd|Hd]; apply bool_decide_eq_true_1 in Hd;
    now rewrite Hd.
Qed.

End PoisonFacts.

(** An update that sets the status of a live record to a text that is no
    status value is written before it fails: the call raises [DynamoDB例外],
    the stored record carries the invalid status, and a later get of the
    repository raises [DynamoDB例外] too. *)
Theorem invalid_status_update_is_written `{Py.Calendar}
    (現在 現在' : Py.Clock) (id s : string) (it : gmap string Py.Value)
    (t : DynamoDB.Table) :
  Manager.正常 t ->
  Manager.保存済み t id = Some it ->
  Manager.未削除 it = true ->
  Py.enum_call (E := Repo.リポジトリステータス) s = Py.Raise Py.ValueError ->
  let t' := (Manager.リポジトリを更新 現在 id {["status" := Py.VStr s]} t).2 in
  (Manager.リポジトリを更新 現在 id {["status" := Py.VStr s]} t).1
  = Py.Raise Py.DynamoDB例外
  /\ (exists new, Manager.保存済み t' id = Some new
                  /\ new !! "status" = Some (Py.VStr s))
  /\ (Manager.リポジトリを取得 現在' id t').1 = Py.Raise Py.DynamoDB例外.
Proof.
  intros Ht Hs Hlive Hbad t'.
  assert (({["status" := Py.VStr s]} : gmap string Py.Value) !! "repo_id"
          = None) as Hkey by now simplify_map_eq.
  destruct (リポジトリを更新_ok 現在 id {["status" := Py.VStr s]} it t Ht
              Hkey Hs Hlive) as (new & Hnew & Hupd).
  assert (new !! "status" = Some (Py.VStr s)) as Hst.
  { rewrite Hnew. now simplify_map_eq. }
  assert (new !! "repo_id" = Some (Py.VStr id)) as Hk.
  { rewrite Hnew. simplify_map_eq. eapply 保存済み_key, Hs. }
  assert (new !! "deleted" = it !! "deleted") as Hd.
  { rewrite Hnew. now simplify_map_eq. }
  destruct (repo_from_item_bad_status 現在 new s Hst Hbad) as [e He].
  destruct (repo_from_item_bad_status 現在' new s Hst Hbad) as [e' He'].
  unfold t'. rewrite Hupd, He. cbn zeta. cbn [fst snd].
  split; [reflexivity|].
  set (t1 := DynamoDB.with_items t _).
  assert (Manager.保存済み t1 id = Some new) as Hs1
    by now apply 保存済み_upsert.
  split; [now exists new|].
  rewrite リポジトリを取得_ok by exact Ht.
  change (Manager.保存済み (DynamoDB.record_exn _ (DynamoDB.record_exn _ t1)) id)
    with (Manager.保存済み t1 id).
  rewrite Hs1, 有効なアイテム_未削除.
  - change (default ∅ (Some new)) with new. now rewrite He'.
  - intros Hempty. now rewrite Hempty in Hst.
  - unfold Manager.未削除 in *. now rewrite Hd.
Qed.

Lemma invalid_status_update_is_written_witness :
  (Manager.リポジトリを更新 (H := decimal_calendar) Sample.時計 "repo-bbbb0001"
     {["status" := Py.VStr "DONE"]} Sample.一件のテーブル).1
  = Py.Raise Py.DynamoDB例外.
Proof.
  destruct (invalid_status_update_is_written (H := decimal_calendar)
              Sample.時計 Sample.時計 "repo-bbbb0001" "DONE"
              Sample.他のアイテム Sample.一件のテーブル) as (Hraise & _);
    [split; reflexivity|reflexivity|reflexivity
    |reflexivity|].
  exact Hraise.
Defined.

Section OverwriteFacts.
  Import Py DynamoDB Manager.
  Context `{Calendar}.

Ltac run :=
  cbv [mbind M_bind mret M_ret table set_items check]; cbn beta iota.

  (** The conditional put of a record whose id is taken. *)
Lemma アイテムを保存_taken (new it : gmap string Value) (id : string)
    (t : Table) :
  正常 t ->
  new !! "repo_id" = Some (VStr id) ->
  保存済み t id = Some it ->
  アイテムを保存 new (Some 未登録条件) t
  = (Raise DynamoDB条件チェックエラー, 条件不成立 t).
Proof.
  intros Ht Hk Hs. rewrite (アイテムを保存_ok _ _ _ _ Ht Hk).
  unfold 保存済み in Hs. rewrite Hs. cbn.
  rewrite bool_decide_eq_false_2; [reflexivity|].
  rewrite (保存済み_key t id it Hs). discriminate.
Qed.

Lemma リポジトリを作成_taken (現在 : Clock) (id : string)
    (p : Repo.リポジトリプロバイダー) (url name branch : string)
    (it : gmap string Value) (t : Table) :
  正常 t ->
  保存済み t id = Some it ->
  items (リポジトリを作成 現在 id p url name branch t).2 = items t.
Proof.
  intros Ht Hs. unfold リポジトリを作成, try_except. run.
  rewrite (URLでリポジトリを検索_ok 現在 url t Ht).
  destruct (List.filter _ _) as [|it0 rest].
  - destruct (lift_cases (新リポジトリ (現在 0%nat) id p url name branch) t)
      as [(r & Hr & ->)|(e & _ & ->)].
    + pose proof (新リポジトリ_fields _ _ _ _ _ _ _ Hr) as (Hid & _).
      rewrite (アイテムを保存_taken _ it id t Ht); [reflexivity| |exact Hs].
      now rewrite repo_item_repo_id, Hid.
    + now destruct e.
  - now destruct (Repo.DynamoDB項目から作成 現在 it0).
Qed.

End OverwriteFacts.

(** Create never overwrites: on a reachable table every record stored
    before a create is stored unchanged after it, also the record that has
    the generated id; in that case, with the URL not found by the scan and
    arguments that validate, the call raises the condition error of the
    conditional put. *)
Theorem create_never_overwrites `{Py.Calendar}
    (現在 : Py.Clock) (id : string) (p : Repo.リポジトリプロバイダー)
    (url name branch : string) (t : DynamoDB.Table) :
  Manager.正常 t ->
  (forall id' it,
     Manager.保存済み t id' = Some it ->
     Manager.保存済み (Manager.リポジトリを作成 現在 id p url name branch t).2 id'
     = Some it)
  /\ (forall it r,
        Manager.保存済み t id = Some it ->
        List.filter (DynamoDB.eval_filter (Manager.URLフィルター url))
          (take 1 (DynamoDB.items t)) = [] ->
        Manager.新リポジトリ (現在 0%nat) id p url name branch = Py.Return r ->
        (Manager.リポジトリを作成 現在 id p url name branch t).1
        = Py.Raise Py.DynamoDB条件チェックエラー).
Proof.
  intros Ht. split.
  - intros id' it Hs. destruct (decide (id' = id)) as [->|Hne].
    + unfold Manager.保存済み.
      now rewrite (リポジトリを作成_taken _ _ _ _ _ _ it t Ht Hs).
    + now rewrite リポジトリを作成_frame.
  - intros it r Hs Hscan Hnew.
    pose proof (新リポジトリ_fields _ _ _ _ _ _ _ Hnew) as (Hid & _).
    unfold Manager.リポジトリを作成, DynamoDB.try_except.
    cbv [mbind DynamoDB.M_bind mret DynamoDB.M_ret]; cbn beta iota.
    rewrite URLでリポジトリを検索_ok by exact Ht. rewrite Hscan.
    cbn zeta. rewrite Hnew. cbn [DynamoDB.lift].
    cbv [mbind DynamoDB.M_bind mret DynamoDB.M_ret]; cbn beta iota.
    rewrite (アイテムを保存_taken _ it id t Ht); [reflexivity| |exact Hs].
    now rewrite repo_item_repo_id, Hid.
Qed.

Lemma create_never_overwrites_witness :
  Manager.保存済み
    (Manager.リポジトリを作成 (H := decimal_calendar) Sample.時計
       "repo-bbbb0001" Repo.GITHUB "https://github.com/acme/widgets"
       "Widgets" "main" Sample.一件のテーブル).2 "repo-bbbb0001"
  = Some Sample.他のアイテム.
Proof.
  destruct (create_never_overwrites (H := decimal_calendar) Sample.時計
              "repo-bbbb0001" Repo.GITHUB "https://github.com/acme/widgets"
              "Widgets" "main" Sample.一件のテーブル) as [Hkeep _];
    [split; reflexivity|].
  apply Hkeep. reflexivity.
Defined.

Section StatusFacts.
  Import Py DynamoDB Manager.
  Context `{Calendar}.

Lemma repo_roundtrip_valid (現在 : Clock) (r : Repo.リポジトリ) :
  Repo.URL妥当性を検証 (Repo.リモートURL r) (Some (Repo.プロバイダー r))
  = Return (Repo.リモートURL r) ->
  Repo.表示名妥当性を検証 (Repo.表示名 r) = Return (Repo.表示名 r) ->
  Repo.DynamoDB項目から作成 現在 (Repo.DynamoDB項目に変換 r)
  = Return (Repo.往復後 r).
Proof.
  intros Hurl Hname.
  unfold Repo.DynamoDB項目から作成, parse_datetime_if_present, get_truthy,
    getitem, get.
  rewrite repo_item_repo_id, repo_item_provider, repo_item_remote_url,
    repo_item_display_name, repo_item_default_branch, repo_item_status,
    repo_item_created_at, repo_item_updated_at, repo_item_deleted,
    repo_item_metadata, repo_item_last_scan_sha, repo_item_last_scan_at.
  rewrite present_datetime_roundtrip, opt_map_roundtrip, truthy_str_roundtrip.
  cbn [mbind Result_bind enum_call_value as_str as_bool].
  rewrite enum_call_of_プロバイダー, enum_call_of_リポジトリステータス.
  cbn [mbind Result_bind]. rewrite !parse_isoformat. cbn [mbind Result_bind].
  unfold Repo.作成.
  cbn [Repo.引数_プロバイダー Repo.引数_リモートURL Repo.引数_表示名
       Repo.引数_ステータス coerce_enum from_option].
  rewrite Hurl, Hname. unfold Repo.往復後. destruct r; reflexivity.
Qed.

  (** Reading an item looks at its twelve known attributes only. *)
Lemma repo_from_item_ext (現在 : Clock) (m m' : gmap string Value) :
  (forall k, k ∈ ["repo_id"; "provider"; "remote_url"; "display_name";
                  "default_branch"; "status"; "created_at"; "updated_at";
                  "deleted"; "metadata"; "last_scan_sha"; "last_scan_at"] ->
             m !! k = m' !! k) ->
  Repo.DynamoDB項目から作成 現在 m = Repo.DynamoDB項目から作成 現在 m'.
Proof.
  intros Hk.
  unfold Repo.DynamoDB項目から作成, parse_datetime_if_present, get_truthy,
    getitem, get.
  rewrite !Hk by (repeat constructor).
  reflexivity.
Qed.

Lemma ステータス更新後_item (現在 : Clock) (r : Repo.リポジトリ)
    (st : Repo.リポジトリステータス) (sha : option string)
    (new : gmap string Value) (k : string) :
  (forall a,
     new !! a =
     match (<["updated_at" :=
               VStr (isoformat (更新時の時計 現在 sha 0%nat))]>
            (ステータス更新データ 現在 st sha)) !! a with
     | Some v => Some (書き込む値 a v)
     | None => Repo.DynamoDB項目に変換 r !! a
     end) ->
  k ∈ ["repo_id"; "provider"; "remote_url"; "display_name";
       "default_branch"; "status"; "created_at"; "updated_at";
       "deleted"; "metadata"; "last_scan_sha"; "last_scan_at"] ->
  new !! k
  = Repo.DynamoDB項目に変換 (Notions.ステータス更新後 現在 r st sha) !! k.
Proof.
  intros Hnew Hk. rewrite Hnew.
  unfold ステータス更新データ, 更新時の時計.
  repeat (apply elem_of_cons in Hk as [->|Hk]);
    [..|now apply elem_of_nil in Hk];
    rewrite ?repo_item_repo_id, ?repo_item_provider, ?repo_item_remote_url,
      ?repo_item_display_name, ?repo_item_default_branch, ?repo_item_status,
      ?repo_item_created_at, ?repo_item_updated_at, ?repo_item_deleted,
      ?repo_item_metadata, ?repo_item_last_scan_sha, ?repo_item_last_scan_at;
    unfold Notions.ステータス更新後, Repo.往復後;
    cbn [Repo.リポジトリID Repo.プロバイダー Repo.リモートURL Repo.表示名
         Repo.デフォルトブランチ Repo.ステータス Repo.最終スキャンSHA
         Repo.最終スキャン日時 Repo.作成日時 Repo.更新日時 Repo.削除フラグ
         Repo.メタデータ];
    destruct sha as [[|c sha]|];
    cbn [opt_str_truthy PyStr.truthy default];
    simplify_map_eq; try reflexivity.
  all: now destruct (Repo.最終スキャンSHA r) as [[|c' s']|].
Qed.

End StatusFacts.

Section StatusFacts2.
  Import Py DynamoDB Manager.
  Context `{Calendar}.

Lemma ステータス更新後_往復 (現在 : Clock) (r : Repo.リポジトリ)
    (st : Repo.リポジトリステータス) (sha : option string) :
  Repo.往復後 (Notions.ステータス更新後 現在 r st sha)
  = Notions.ステータス更新後 現在 r st sha.
Proof.
  unfold Repo.往復後, Notions.ステータス更新後. cbn.
  destruct sha as [[|c sha]|]; cbn;
    now destruct (Repo.最終スキャンSHA r) as [[|c' s']|].
Qed.

Lemma ステータス更新後_read (現在 現在' : Clock) (r : Repo.リポジトリ)
    (st : Repo.リポジトリステータス) (sha : option string)
    (new : gmap string Value) :
  Repo.URL妥当性を検証 (Repo.リモートURL r) (Some (Repo.プロバイダー r))
  = Return (Repo.リモートURL r) ->
  Repo.表示名妥当性を検証 (Repo.表示名 r) = Return (Repo.表示名 r) ->
  (forall a,
     new !! a =
     match (<["updated_at" :=
               VStr (isoformat (更新時の時計 現在 sha 0%nat))]>
            (ステータス更新データ 現在 st sha)) !! a with
     | Some v => Some (書き込む値 a v)
     | None => Repo.DynamoDB項目に変換 r !! a
     end) ->
  Repo.DynamoDB項目から作成 現在' new
  = Return (Notions.ステータス更新後 現在 r st sha).
Proof.
  intros Hurl Hname Hnew.
  rewrite (repo_from_item_ext 現在' new
             (Repo.DynamoDB項目に変換 (Notions.ステータス更新後 現在 r st sha)))
    by (intros k Hk; now apply ステータス更新後_item).
  rewrite repo_roundtrip_valid by assumption.
  now rewrite ステータス更新後_往復.
Qed.

End StatusFacts2.

(** A status update of a live, valid record on a reachable table returns
    [True], and a get of the repository then returns it with the new
    status and the time of the update; a scan reference that is not empty
    is stored with the time of the scan, an absent or empty one changes
    nothing else. *)
Theorem status_update_on_live_record `{Py.Calendar}
    (現在 現在0 現在' : Py.Clock) (id : string) (a : Repo.引数)
    (r : Repo.リポジトリ) (st : Repo.リポジトリステータス) (sha : option string)
    (t : DynamoDB.Table) :
  Manager.正常 t ->
  Repo.作成 現在0 a = Py.Return r ->
  Repo.削除フラグ r = false ->
  Manager.保存済み t id = Some (Repo.DynamoDB項目に変換 r) ->
  let t' := (Manager.ステータスを更新 現在 id st sha t).2 in
  (Manager.ステータスを更新 現在 id st sha t).1 = Py.Return true
  /\ Manager.リポジトリを取得 現在' id t'
     = (Py.Return (Some (Notions.ステータス更新後 現在 r st sha)), t').
Proof.
  intros Ht Hr Hdel Hs t'.
  apply repo_作成_validated in Hr as [Hurl Hname].
  assert (Manager.未削除 (Repo.DynamoDB項目に変換 r) = true) as Hlive.
  { unfold Manager.未削除. rewrite repo_item_deleted, Hdel.
    now rewrite orb_true_r. }
  destruct (リポジトリを更新_ok (Manager.更新時の時計 現在 sha) id
              (Manager.ステータス更新データ 現在 st sha) _ t Ht
              (ステータス更新データ_key 現在 st sha) Hs Hlive)
    as (new & Hnew & Hupd).
  pose proof (ステータス更新後_read 現在 (Manager.更新時の時計 現在 sha)
                r st sha new Hurl Hname Hnew) as Hread.
  pose proof (ステータス更新後_read 現在 現在' r st sha new Hurl Hname Hnew)
    as Hread'.
  rewrite Hread in Hupd. cbn zeta in Hupd.
  assert (Manager.ステータスを更新 現在 id st sha t
          = (Py.Return true,
             DynamoDB.with_items t
               (DynamoDB.upsert "repo_id" (Py.VStr id) new
                  (DynamoDB.items t)))) as Hst.
  { unfold Manager.ステータスを更新, DynamoDB.try_except.
    cbv [mbind DynamoDB.M_bind mret DynamoDB.M_ret]; cbn beta iota.
    now rewrite Hupd. }
  unfold t'. rewrite Hst. cbn [fst snd]. split; [reflexivity|].
  assert (new !! "repo_id" = Some (Py.VStr id)) as Hk.
  { rewrite (ステータス更新後_item 現在 r st sha new "repo_id" Hnew)
      by (repeat constructor).
    rewrite repo_item_repo_id. cbn.
    rewrite <- (repo_item_repo_id r). eapply 保存済み_key, Hs. }
  rewrite リポジトリを取得_ok by exact Ht.
  rewrite 保存済み_upsert by exact Hk.
  rewrite 有効なアイテム_未削除.
  - change (default ∅ (Some new)) with new. now rewrite Hread'.
  - intros Hempty. now rewrite Hempty in Hk.
  - unfold Manager.未削除.
    rewrite (ステータス更新後_item 現在 r st sha new "deleted" Hnew)
      by (repeat constructor).
    rewrite repo_item_deleted.
    change (Repo.削除フラグ (Notions.ステータス更新後 現在 r st sha))
      with (Repo.削除フラグ r).
    rewrite Hdel. now rewrite orb_true_r.
Qed.

Lemma status_update_on_live_record_witness :
  (Manager.ステータスを更新 (H := decimal_calendar) Sample.時計 "repo-bbbb0001"
     Repo.PARSING (Some "0a1b2c3") Sample.一件のテーブル).1
  = Py.Return true.
Proof.
  destruct (status_update_on_live_record (H := decimal_calendar) Sample.時計
              Sample.時計 Sample.時計 "repo-bbbb0001" Example.引数
              Example.リポジトリ Repo.PARSING (Some "0a1b2c3")
              Sample.一件のテーブル) as [Htrue _];
    [split; reflexivity|reflexivity|reflexivity
    |reflexivity|].
  exact Htrue.
Defined.

(** ** Sorting and listing *)

Section SortFacts.
  Import Listing.
  Context {A : Type} (key : A -> Z).

Lemma insert_desc_perm (x : A) (l : list A) : insert_desc key x l ≡ₚ x :: l.
Proof.
  induction l as [|y l IH]; cbn; [reflexivity|].
  destruct (key y >? key x); [|reflexivity].
  rewrite IH. apply Permutation_swap.
Qed.

Lemma sort_desc_perm (l : list A) : sort_desc key l ≡ₚ l.
Proof.
  induction l as [|x l IH]; cbn; [reflexivity|].
  rewrite insert_desc_perm. now rewrite IH.
Qed.

Lemma insert_desc_sorted (x : A) (l : list A) :
  StronglySorted (fun a b => key b <= key a) l ->
  StronglySorted (fun a b => key b <= key a) (insert_desc key x l).
Proof.
  induction 1 as [|y l Hs IH Hy]; cbn.
  - repeat constructor.
  - destruct (Z.gtb_spec (key y) (key x)) as [Hgt|Hle].
    + constructor; [exact IH|].
      rewrite insert_desc_perm. constructor; [lia|exact Hy].
    + constructor; [now constructor|].
      constructor; [lia|].
      eapply Forall_impl; [exact Hy|]. cbn. intros; lia.
Qed.

Lemma sort_desc_sorted (l : list A) :
  StronglySorted (fun a b => key b <= key a) (sort_desc key l).
Proof.
  induction l as [|x l IH]; cbn; [constructor|].
  now apply insert_desc_sorted.
Qed.

  (** The sort is stable: a list already in descending order stays as it
      is, ties included. *)
Lemma sort_desc_sorted_id (l : list A) :
  StronglySorted (fun a b => key b <= key a) l -> sort_desc key l = l.
Proof.
  induction 1 as [|x l Hs IH Hx]; [reflexivity|].
  change (insert_desc key x (sort_desc key l) = x :: l).
  rewrite IH. destruct l as [|y l]; [reflexivity|]. cbn.
  apply Forall_cons in Hx as [Hy _].
  destruct (Z.gtb_spec (key y) (key x)); [lia|reflexivity].
Qed.

End SortFacts.

Section ListingFacts.
  Import Py DynamoDB Manager Listing Notions.
  Context `{Calendar}.

Ltac run :=
  cbv [mbind M_bind mret M_ret table set_items check]; cbn beta iota.

Lemma クエリ実行_cases (答 : IndexAnswer) (k : string * Value) (i : string)
    (n : option nat) (asc : bool) (t : Table) :
  (exists l, クエリ実行 答 k i n asc t = (Return l, t))
  \/ (exists t', クエリ実行 答 k i n asc t = (Raise DynamoDB例外, t')).
Proof.
  unfold クエリ実行, try_except, query, request.
  destruct (fault t); [right|left]; now eexists.
Qed.

  (** A scan of a reachable table, whatever the limit. *)
Lemma スキャン実行_all (f : Filter) (n : option nat) (t : Table) :
  正常 t ->
  スキャン実行 (Some f) n t
  = (Return (List.filter (eval_filter f) (評価対象 n (items t))), t).
Proof.
  intros [Hf _]. unfold スキャン実行, try_except, scan.
  rewrite request_ok by exact Hf. now destruct n as [[|n]|].
Qed.

Lemma 有効分を変換_live (現在 : Clock) (l : list (gmap string Value))
    (rs : list Repo.リポジトリ) :
  有効分を変換 現在 l = Return rs ->
  Forall (fun r => Repo.削除フラグ r = false) rs.
Proof.
  revert rs. induction l as [|it l IH]; intros rs; cbn.
  - intros [= <-]. constructor.
  - destruct (negb (truthy (get it "deleted" (VBool false)))) eqn:Hd;
      [|apply IH].
    destruct (Repo.DynamoDB項目から作成 現在 it) as [r|] eqn:Hr;
      [|discriminate]. cbn [mbind Result_bind].
    destruct (有効分を変換 現在 l) as [rs'|]; [|discriminate].
    cbn [mbind Result_bind]. intros [= <-]. constructor; [|now apply IH].
    apply repo_from_item_deleted in Hr as [Hdel _]. rewrite Hdel in Hd.
    cbn in Hd. now apply negb_true_iff in Hd.
Qed.

End ListingFacts.

Section ListingFacts2.
  Import Py DynamoDB Manager Listing Notions.
  Context `{Calendar}.

Lemma listing_sorted (答 : IndexAnswer) (現在 : Clock)
    (ステータス : option Repo.リポジトリステータス) (制限数 : option nat)
    (t t' : Table) (l : list Repo.リポジトリ) :
  リポジトリ一覧を取得 答 現在 ステータス 制限数 t = (Return l, t') ->
  t' = t
  /\ 更新日時の降順 l
  /\ Forall (fun r => Repo.削除フラグ r = false) l.
Proof.
  unfold リポジトリ一覧を取得, try_except.
  cbv [mbind M_bind mret M_ret]; cbn beta iota.
  set (read := match ステータス with Some _ => _ | None => _ end).
  assert ((exists l, read t = (Return l, t))
          \/ (exists t', read t = (Raise DynamoDB例外, t'))) as Hread.
  { unfold read. destruct ステータス as [st|];
      [destruct (PyStr.truthy _)|];
      first [apply クエリ実行_cases|apply スキャン実行_cases]. }
  destruct Hread as [[items ->]|[t0 ->]]; [|discriminate].
  destruct (lift_cases (有効分を変換 現在 items) t)
    as [(rs & Hrs & ->)|(e & _ & ->)]; [|discriminate].
  intros [= <- <-]. split; [reflexivity|]. split.
  - apply sort_desc_sorted.
  - rewrite sort_desc_perm. eapply 有効分を変換_live, Hrs.
Qed.
End ListingFacts2.

(** Whatever the index answers and whatever the table holds, a listing
    that returns leaves the table as it is and returns repositories in
    descending order of update time, none of them soft-deleted. *)
Theorem listing_is_sorted_and_live `{Py.Calendar}
    (答 : Listing.IndexAnswer) (現在 : Py.Clock)
    (ステータス : option Repo.リポジトリステータス) (制限数 : option nat)
    (t t' : DynamoDB.Table) (l : list Repo.リポジトリ) :
  Listing.リポジトリ一覧を取得 答 現在 ステータス 制限数 t = (Py.Return l, t') ->
  t' = t
  /\ Notions.更新日時の降順 l
  /\ Forall (fun r => Repo.削除フラグ r = false) l.
Proof. apply listing_sorted. Qed.

Lemma listing_is_sorted_and_live_witness :
  exists l,
    (Listing.リポジトリ一覧を取得 (H := decimal_calendar) Example.空の索引
       Sample.時計 None None Sample.二件のテーブル).1 = Py.Return l
    /\ Notions.更新日時の降順 l.
Proof.
  destruct (Listing.リポジトリ一覧を取得 (H := decimal_calendar) Example.空の索引
              Sample.時計 None None Sample.二件のテーブル)
    as [[l|e] t'] eqn:E; [|exfalso; vm_compute in E; discriminate].
  exists l. split; [reflexivity|].
  apply (listing_is_sorted_and_live (H := decimal_calendar) Example.空の索引
           Sample.時計 None None Sample.二件のテーブル t' l E).
Defined.

Section ValidTable.
  Import Py DynamoDB Manager Listing Notions.
  Context `{Calendar}.

Lemma 妥当_roundtrip (現在 : Clock) (r : Repo.リポジトリ) :
  妥当 r ->
  Repo.DynamoDB項目から作成 現在 (Repo.DynamoDB項目に変換 r)
  = Return (Repo.往復後 r).
Proof. intros (現在0 & a & Ha). now apply (repo_roundtrip 現在0 現在 a). Qed.

Lemma filter_未削除 (rs : list Repo.リポジトリ) :
  List.filter (eval_filter 未削除フィルター) (Repo.DynamoDB項目に変換 <$> rs)
  = Repo.DynamoDB項目に変換
      <$> List.filter (fun r => negb (Repo.削除フラグ r)) rs.
Proof.
  induction rs as [|r rs IH]; [reflexivity|].
  rewrite fmap_cons. cbn [List.filter]. rewrite IH.
  assert (eval_filter 未削除フィルター (Repo.DynamoDB項目に変換 r)
          = negb (Repo.削除フラグ r)) as ->.
  { unfold 未削除フィルター. cbn [eval_filter]. rewrite repo_item_deleted.
    now destruct (Repo.削除フラグ r). }
  now destruct (Repo.削除フラグ r).
Qed.

Lemma 評価対象_fmap {A B} (f : A -> B) (n : option nat) (l : list A) :
  評価対象 n (f <$> l) = f <$> 評価対象 n l.
Proof.
  destruct n as [[|n]|]; try reflexivity. cbn [評価対象]. now rewrite fmap_take.
Qed.

Lemma 有効分を変換_valid (現在 : Clock) (rs : list Repo.リポジトリ) :
  Forall 妥当 rs ->
  Forall (fun r => Repo.削除フラグ r = false) rs ->
  有効分を変換 現在 (Repo.DynamoDB項目に変換 <$> rs)
  = Return (Repo.往復後 <$> rs).
Proof.
  induction 1 as [|r rs Hr Hrs IH]; [reflexivity|].
  intros [Hd Hds]%Forall_cons. cbn. unfold get.
  rewrite repo_item_deleted, Hd. cbn [truthy negb].
  rewrite (妥当_roundtrip 現在 r Hr). cbn [mbind Result_bind].
  now rewrite IH.
Qed.

Lemma 全件を変換_valid (現在 : Clock) (rs : list Repo.リポジトリ) :
  Forall 妥当 rs ->
  全件を変換 現在 (Repo.DynamoDB項目に変換 <$> rs)
  = Return (Repo.往復後 <$> rs).
Proof.
  induction 1 as [|r rs Hr Hrs IH]; [reflexivity|]. cbn.
  rewrite (妥当_roundtrip 現在 r Hr). cbn [mbind Result_bind].
  now rewrite IH.
Qed.

Lemma filter_live (rs : list Repo.リポジトリ) :
  Forall (fun r => Repo.削除フラグ r = false)
    (List.filter (fun r => negb (Repo.削除フラグ r)) rs).
Proof.
  induction rs as [|r rs IH]; cbn; [constructor|].
  destruct (Repo.削除フラグ r) eqn:Hd; cbn; [exact IH|now constructor].
Qed.

Lemma filter_Forall {A} (P : A -> Prop) (f : A -> bool) (l : list A) :
  Forall P l -> Forall P (List.filter f l).
Proof.
  induction 1 as [|x l Hx Hl IH]; cbn; [constructor|].
  destruct (f x); [now constructor|exact IH].
Qed.

Lemma 評価対象_Forall {A} (P : A -> Prop) (n : option nat) (l : list A) :
  Forall P l -> Forall P (評価対象 n l).
Proof. destruct n as [[|n]|]; try done. apply Forall_take. Qed.

  (** The listing without a status on a reachable table of valid
      records. *)
Lemma リポジトリ一覧を取得_valid (答 : IndexAnswer) (現在 : Clock)
    (制限数 : option nat) (rs : list Repo.リポジトリ) (t : Table) :
  正常 t ->
  items t = Repo.DynamoDB項目に変換 <$> rs ->
  Forall 妥当 rs ->
  リポジトリ一覧を取得 答 現在 None 制限数 t
  = (Return (sort_desc Repo.更新日時
               (Repo.往復後
                  <$> List.filter (fun r => negb (Repo.削除フラグ r))
                        (評価対象 制限数 rs))), t).
Proof.
  intros Ht Hi Hv. unfold リポジトリ一覧を取得, try_except.
  cbv [mbind M_bind mret M_ret]; cbn beta iota.
  rewrite (スキャン実行_all _ _ _ Ht), Hi, 評価対象_fmap, filter_未削除.
  rewrite 有効分を変換_valid;
    [reflexivity|now apply filter_Forall, 評価対象_Forall|apply filter_live].
Qed.

Lemma 最近更新_valid (現在 : Clock) (件数 : Z) (rs : list Repo.リポジトリ)
    (t : Table) :
  正常 t ->
  items t = Repo.DynamoDB項目に変換 <$> rs ->
  Forall 妥当 rs ->
  最近更新されたリポジトリを取得 現在 件数 t
  = (Return (slice_to 件数
               (sort_desc Repo.更新日時
                  (Repo.往復後
                     <$> List.filter (fun r => negb (Repo.削除フラグ r)) rs))),
     t).
Proof.
  intros Ht Hi Hv. unfold 最近更新されたリポジトリを取得, try_except.
  cbv [mbind M_bind mret M_ret]; cbn beta iota.
  rewrite (スキャン実行_all _ None _ Ht), Hi. cbn [評価対象].
  rewrite filter_未削除, 全件を変換_valid; [reflexivity|].
  now apply filter_Forall.
Qed.

End ValidTable.

(** On a reachable table of valid records, the listing without a status
    returns, in descending order of update time, exactly the records that
    are not soft-deleted among those the scan evaluates: the first [n] for
    a limit [n] greater than zero, all of them for no limit and for the
    limit zero. *)
Theorem listing_of_valid_table `{Py.Calendar}
    (答 : Listing.IndexAnswer) (現在 : Py.Clock) (制限数 : option nat)
    (rs : list Repo.リポジトリ) (t : DynamoDB.Table) :
  Manager.正常 t ->
  DynamoDB.items t = Repo.DynamoDB項目に変換 <$> rs ->
  Forall Notions.妥当 rs ->
  exists l,
    Listing.リポジトリ一覧を取得 答 現在 None 制限数 t = (Py.Return l, t)
    /\ l ≡ₚ Repo.往復後
             <$> List.filter (fun r => negb (Repo.削除フラグ r))
                   (match 制限数 with
                    | Some (S n) => take (S n) rs
                    | _ => rs
                    end)
    /\ Notions.更新日時の降順 l.
Proof.
  intros Ht Hi Hv. eexists.
  split; [exact (リポジトリ一覧を取得_valid 答 現在 制限数 rs t Ht Hi Hv)|].
  split; [apply sort_desc_perm|apply sort_desc_sorted].
Qed.

Lemma listing_of_valid_table_witness :
  exists l,
    Listing.リポジトリ一覧を取得 (H := decimal_calendar) Example.空の索引
      Sample.時計 None (Some 0%nat) Sample.一件のテーブル
    = (Py.Return l, Sample.一件のテーブル)
    /\ l ≡ₚ [Example.リポジトリ].
Proof.
  destruct (listing_of_valid_table (H := decimal_calendar) Example.空の索引
              Sample.時計 (Some 0%nat) [Example.リポジトリ]
              Sample.一件のテーブル) as (l & Hl & Hp & _).
  - split; reflexivity.
  - reflexivity.
  - repeat constructor. exists Sample.時計, Example.引数. reflexivity.
  - exists l. split; [exact Hl|exact Hp].
Defined.

(** On a reachable table of valid records, the most recently updated
    repositories are a slice of the full listing: its first [n] entries
    for [n >= 0], and all but its last [-n] entries for a negative [n]. *)
Theorem recent_is_a_slice_of_the_listing `{Py.Calendar}
    (答 : Listing.IndexAnswer) (現在 : Py.Clock) (件数 : Z)
    (rs : list Repo.リポジトリ) (t : DynamoDB.Table) :
  Manager.正常 t ->
  DynamoDB.items t = Repo.DynamoDB項目に変換 <$> rs ->
  Forall Notions.妥当 rs ->
  exists l,
    Listing.リポジトリ一覧を取得 答 現在 None None t = (Py.Return l, t)
    /\ Listing.最近更新されたリポジトリを取得 現在 件数 t
       = (Py.Return (if 0 <=? 件数 then take (Z.to_nat 件数) l
                     else take (length l - Z.to_nat (- 件数)) l), t).
Proof.
  intros Ht Hi Hv. eexists. split.
  - exact (リポジトリ一覧を取得_valid 答 現在 None rs t Ht Hi Hv).
  - exact (最近更新_valid 現在 件数 rs t Ht Hi Hv).
Qed.

Lemma recent_is_a_slice_of_the_listing_witness :
  exists l,
    Listing.リポジトリ一覧を取得 (H := decimal_calendar) Example.空の索引
      Sample.時計 None None Sample.一件のテーブル
    = (Py.Return l, Sample.一件のテーブル)
    /\ Listing.最近更新されたリポジトリを取得 (H := decimal_calendar)
         Sample.時計 (-1) Sample.一件のテーブル
       = (Py.Return (take (length l - 1) l), Sample.一件のテーブル).
Proof.
  destruct (recent_is_a_slice_of_the_listing (H := decimal_calendar) Example.空の索引
              Sample.時計 (-1) [Example.リポジトリ] Sample.一件のテーブル)
    as (l & Hl & Hr).
  - split; reflexivity.
  - reflexivity.
  - repeat constructor. exists Sample.時計, Example.引数. reflexivity.
  - exists l. split; [exact Hl|exact Hr].
Defined.

(** ** The HTTP handlers *)

Section RouterFacts.
  Import Py DynamoDB Router.
  Context `{Calendar}.

Ltac step :=
  cbv [mbind Handler_bind mret Handler_ret await try_except raise];
  cbn beta iota.

Lemma delete_repository_outcome (現在 : Clock) (id : string) (t : Table) :
  (delete_repository 現在 id t).1
  = match (Manager.リポジトリを削除 現在 id false t).1 with
    | Return true => Respond tt
    | _ => Fail (HTTPException 500)
    end.
Proof.
  unfold delete_repository. step.
  destruct (Manager.リポジトリを削除 現在 id false t) as [[[|]|e] t'];
    reflexivity.
Qed.

Lemma リポジトリを取得_raises (現在 : Clock) (id : string) (t : Table) (e : Exn) :
  (Manager.リポジトリを取得 現在 id t).1 = Raise e -> e = DynamoDB例外.
Proof.
  unfold Manager.リポジトリを取得, DynamoDB.try_except.
  match goal with
  | |- (match ?x with _ => _ end).1 = _ -> _ => destruct x as [[o|e'] t']
  end; cbn; [discriminate|]. now intros [= <-].
Qed.

Lemma get_repository_details_outcome (現在 : Clock) (id : string) (t : Table) :
  (get_repository_details 現在 id t).1
  = match (Manager.リポジトリを取得 現在 id t).1 with
    | Return (Some r) => Respond (詳細 r)
    | _ => Fail (HTTPException 500)
    end.
Proof.
  pose proof (リポジトリを取得_raises 現在 id t) as Hraise.
  unfold get_repository_details. step.
  destruct (Manager.リポジトリを取得 現在 id t) as [[[r|]|e] t'];
    try reflexivity.
  cbn in Hraise. now rewrite (Hraise e eq_refl).
Qed.

End RouterFacts.

(** The delete endpoint answers 204 exactly when the manager's logical
    delete returns [True], and 500 in every other case: the 404 it raises
    for a repository that is missing or already deleted is caught by its
    own handler and answered as 500. *)
Theorem delete_endpoint_never_answers_404 `{Py.Calendar}
    (現在 : Py.Clock) (repo_id : string) (t : DynamoDB.Table) :
  ((Router.delete_repository 現在 repo_id t).1 = Router.Respond tt
   <-> (Manager.リポジトリを削除 現在 repo_id false t).1 = Py.Return true)
  /\ ((Router.delete_repository 現在 repo_id t).1 <> Router.Respond tt
      -> (Router.delete_repository 現在 repo_id t).1
         = Router.Fail (Router.HTTPException 500))
  /\ (Manager.正常 t ->
      from_option Manager.未削除 false (Manager.保存済み t repo_id) = false ->
      (Router.delete_repository 現在 repo_id t).1
      = Router.Fail (Router.HTTPException 500)).
Proof.
  rewrite delete_repository_outcome. split; [|split].
  - destruct (Manager.リポジトリを削除 現在 repo_id false t).1 as [[|]|e];
      split; congruence.
  - now destruct (Manager.リポジトリを削除 現在 repo_id false t).1 as [[|]|e].
  - intros Ht Hdead. rewrite 論理削除_ok by exact Ht.
    destruct (Manager.保存済み t repo_id) as [it|]; cbn in *; [|reflexivity].
    now rewrite Hdead.
Qed.

(** The detail endpoint answers with the fields of the stored record when
    the manager's get returns a repository, and 500 in every other case:
    for a repository that is missing or soft-deleted the manager returns
    [None], the handler fails on it, and the 404 branch is never taken. *)
Theorem details_endpoint_never_answers_404 `{Py.Calendar}
    (現在 : Py.Clock) (repo_id : string) (t : DynamoDB.Table) :
  (Router.get_repository_details 現在 repo_id t).1
  <> Router.Fail (Router.HTTPException 404)
  /\ (Manager.正常 t ->
      Manager.有効なアイテム (Manager.保存済み t repo_id) = false ->
      (Router.get_repository_details 現在 repo_id t).1
      = Router.Fail (Router.HTTPException 500))
  /\ (forall it r,
        Manager.正常 t ->
        Manager.保存済み t repo_id = Some it ->
        Manager.有効なアイテム (Some it) = true ->
        Repo.DynamoDB項目から作成 現在 it = Py.Return r ->
        (Router.get_repository_details 現在 repo_id t).1
        = Router.Respond (Router.詳細 r)).
Proof.
  rewrite get_repository_details_outcome. split; [|split].
  - now destruct (Manager.リポジトリを取得 現在 repo_id t).1 as [[r|]|e].
  - intros Ht Hdead. rewrite リポジトリを取得_ok by exact Ht.
    now rewrite Hdead.
  - intros it r Ht Hs Hlive Hr. rewrite リポジトリを取得_ok by exact Ht.
    rewrite Hs, Hlive. change (default ∅ (Some it)) with it. now rewrite Hr.
Qed.

Section RegisterFacts.
  Import Py DynamoDB Router.
  Context `{Calendar}.

Ltac step :=
  cbv [mbind Handler_bind mret Handler_ret await try_except raise];
  cbn beta iota.

Ltac run :=
  cbv [mbind M_bind mret M_ret table set_items check]; cbn beta iota.




End RegisterFacts.



Section ListFacts.
  Import Py DynamoDB Router Listing.
  Context `{Calendar}.

Lemma 有効分を変換_length (現在 : Clock) (l : list (gmap string Value))
    (rs : list Repo.リポジトリ) :
  有効分を変換 現在 l = Return rs -> (length rs <= length l)%nat.
Proof.
  revert rs. induction l as [|it l IH]; intros rs; cbn.
  - intros [= <-]. cbn. lia.
  - destruct (negb _).
    + destruct (Repo.DynamoDB項目から作成 現在 it); [|discriminate].
      cbn [mbind Result_bind].
      destruct (有効分を変換 現在 l) as [rs'|]; [|discriminate].
      cbn [mbind Result_bind]. intros [= <-]. cbn.
      specialize (IH rs' eq_refl). lia.
    + intros Hrs. specialize (IH rs Hrs). lia.
Qed.

Lemma filter_length_le {A} (f : A -> bool) (l : list A) :
  (length (List.filter f l) <= length l)%nat.
Proof.
  induction l as [|x l IH]; cbn; [lia|]. destruct (f x); cbn; lia.
Qed.

  (** The listing without a status evaluates at most [n] records for a
      limit [n] greater than zero. *)
Lemma リポジトリ一覧を取得_length (答 : IndexAnswer) (現在 : Clock)
    (n : nat) (l : list Repo.リポジトリ) (t t' : Table) :
  Manager.正常 t ->
  リポジトリ一覧を取得 答 現在 None (Some (S n)) t = (Return l, t') ->
  (length l <= S n)%nat.
Proof.
  intros Ht. unfold リポジトリ一覧を取得, DynamoDB.try_except.
  cbv [mbind M_bind mret M_ret]; cbn beta iota.
  rewrite (スキャン実行_all _ _ _ Ht). cbn [Notions.評価対象].
  match goal with
  | |- context [lift ?x] => destruct (lift_cases x t)
                              as [(rs & Hrs & ->)|(e & _ & ->)]
  end; [|discriminate].
  intros [= <- <-]. rewrite sort_desc_perm.
  apply 有効分を変換_length in Hrs.
  pose proof (filter_length_le (eval_filter 未削除フィルター)
                (take (S n) (items t))).
  rewrite length_take in *. lia.
Qed.

End ListFacts.

(** The list endpoint counts what it returns: the total it reports is the
    number of entries of the response, which are in descending order of
    update time, and on a reachable table it is never more than a limit
    greater than zero, however many repositories are stored. *)
Theorem list_endpoint_counts_what_it_returns `{Py.Calendar}
    (答 : Listing.IndexAnswer) (現在 : Py.Clock) (limit : nat)
    (応答 : Router.リポジトリ一覧レスポンス) (t t' : DynamoDB.Table) :
  Router.get_all_repositories 答 現在 limit t = (Router.Respond 応答, t') ->
  t' = t
  /\ Router.総件数 応答 = Z.of_nat (length (Router.リポジトリ一覧 応答))
  /\ StronglySorted
       (fun a b => Router.項目_更新日時 b <= Router.項目_更新日時 a)
       (Router.リポジトリ一覧 応答)
  /\ (Manager.正常 t -> limit <> 0%nat ->
      Router.総件数 応答 <= Z.of_nat limit).
Proof.
  unfold Router.get_all_repositories.
  cbv [mbind Router.Handler_bind mret Router.Handler_ret Router.await
       Router.try_except Router.raise]; cbn beta iota zeta.
  destruct (Listing.リポジトリ一覧を取得 答 現在 None (Some limit) t)
    as [[l|e] t0] eqn:Hl; [|discriminate].
  intros [= <- <-]. cbn [Router.総件数 Router.リポジトリ一覧].
  pose proof (listing_sorted _ _ _ _ _ _ _ Hl) as (-> & Hsorted & _).
  split; [reflexivity|]. split; [now rewrite length_fmap|]. split.
  - clear Hl. induction Hsorted as [|r l Hs IH Hr]; cbn; constructor.
    + exact IH.
    + rewrite Forall_fmap. exact Hr.
  - intros Ht Hlimit. destruct limit as [|n]; [congruence|].
    pose proof (リポジトリ一覧を取得_length _ _ _ _ _ _ Ht Hl). lia.
Qed.

Lemma list_endpoint_counts_what_it_returns_witness :
  exists 応答,
    (Router.get_all_repositories (H := decimal_calendar) Example.空の索引
       Sample.時計 1 Sample.二件のテーブル).1 = Router.Respond 応答
    /\ Router.総件数 応答 <= 1.
Proof.
  destruct (Router.get_all_repositories (H := decimal_calendar) Example.空の索引
              Sample.時計 1 Sample.二件のテーブル)
    as [[応答|e] t'] eqn:E; [|exfalso; vm_compute in E; discriminate].
  exists 応答. split; [reflexivity|].
  destruct (list_endpoint_counts_what_it_returns (H := decimal_calendar)
              Example.空の索引 Sample.時計 1 応答 Sample.二件のテーブル t' E)
    as (_ & _ & _ & Hle).
  apply Hle; [split; reflexivity|discriminate].
Defined.

(** ** Owner and name of a remote URL *)

Section ExtractFacts.
  Import Py RepoInfo Grammar.

Lemma strip_prefix_app (p s : string) : Re.strip_prefix p (p ++ s) = Some s.
Proof. now apply strip_prefix_spec. Qed.

  (** A group that is followed by its own delimiter takes everything up to
      it, when the rest of the pattern starts with the delimiter. *)
Lemma group_plus_delimited {R} (c : ascii) (k : string -> option R)
    (o rest : string) :
  (forall x s, Ascii.eqb x c = false -> k (String x s) = None) ->
  segment c o ->
  group_plus c k (o ++ String c rest)
  = match k (String c rest) with
    | Some r => Some (o, r)
    | None => None
    end.
Proof.
  intros Hk [Ho Hf]. induction o as [|a o IH]; [contradiction|].
  rewrite append_cons. cbn [group_plus]. cbn [free_of] in Hf.
  apply andb_true_iff in Hf as [Ha Hf]. apply negb_true_iff in Ha.
  rewrite Ha. destruct o as [|b o].
  - change ("" ++ String c rest) with (String c rest).
    cbn [group_plus]. rewrite Ascii.eqb_refl.
    now destruct (k (String c rest)).
  - rewrite IH by (discriminate || exact Hf).
    destruct (k (String c rest)); [reflexivity|].
    rewrite append_cons, Hk; [reflexivity|].
    cbn [free_of] in Hf. apply andb_true_iff in Hf as [Hb _].
    now apply negb_true_iff in Hb.
Qed.

  (** A group at the end of the text takes all of it. *)
Lemma group_plus_all {R} (c : ascii) (k : string -> option R) (n : string)
    (r : R) :
  segment c n -> k "" = Some r -> group_plus c k n = Some (n, r).
Proof.
  intros [Hn Hf] Hk. induction n as [|a n IH]; [contradiction|].
  cbn [group_plus]. cbn [free_of] in Hf.
  apply andb_true_iff in Hf as [Ha Hf]. apply negb_true_iff in Ha.
  rewrite Ha. destruct n as [|b n].
  - cbn [group_plus]. now rewrite Hk.
  - now rewrite IH by (discriminate || exact Hf).
Qed.

Lemma github_https_groups (o n : string) :
  segment "/" o -> segment "/" n ->
  groups [Lit "https://github.com/"; Group "/"; Lit "/"; Group "/";
          OptLit ".git"; OptLit "/"]
    ("https://github.com/" ++ o ++ "/" ++ n)
  = Some [o; n].
Proof.
  intros Ho Hn. cbn [groups]. rewrite strip_prefix_app.
  change ("/" ++ n) with (String "/" n).
  rewrite (group_plus_delimited "/" _ o n); [|intros x s Hx|exact Ho].
  2:{ cbn [groups Re.strip_prefix]. rewrite Ascii.eqb_sym in Hx.
      now rewrite Hx. }
  change (Re.strip_prefix "/" (String "/" n)) with (Some n).
  cbv beta iota. now rewrite (group_plus_all "/" _ n [] Hn).
Qed.

End ExtractFacts.

(** For a GitHub URL [https://github.com/<owner>/<name>] the extraction
    returns the owner, and as the name the text [<name>] with every
    occurrence of [.git] removed, not only a suffix. *)
Theorem github_https_extraction (所有者 名前 : string) :
  Grammar.segment "/" 所有者 -> Grammar.segment "/" 名前 ->
  RepoInfo.URLからリポジトリ情報を抽出
    ("https://github.com/" ++ 所有者 ++ "/" ++ 名前) Repo.GITHUB
  = Py.Return
      {| RepoInfo.所有者 := 所有者;
         RepoInfo.リポジトリ名 := RepoInfo.replace ".git" "" 名前;
         RepoInfo.完全名 :=
           所有者 ++ "/" ++ RepoInfo.replace ".git" "" 名前 |}.
Proof.
  intros Ho Hn. unfold RepoInfo.URLからリポジトリ情報を抽出.
  unfold RepoInfo.github_patterns. cbn [RepoInfo.github_loop].
  now rewrite (github_https_groups _ _ Ho Hn).
Qed.

Lemma github_https_extraction_witness :
  RepoInfo.リポジトリ名
  <$> RepoInfo.URLからリポジトリ情報を抽出
        "https://github.com/acme/my.github.io" Repo.GITHUB
  = Py.Return "myhub.io".
Proof.
  change "https://github.com/acme/my.github.io"
    with ("https://github.com/" ++ "acme" ++ "/" ++ "my.github.io").
  rewrite (github_https_extraction "acme" "my.github.io");
    [reflexivity|split; [discriminate|reflexivity]..].
Defined.

Section ExtractFacts2.
  Import Py RepoInfo Grammar.

Lemma group_plus_of_not_char_plus {R} (c : ascii) (kb : string -> bool)
    (k : string -> option R) (s : string) :
  (forall s, kb s = true -> is_Some (k s)) ->
  Re.not_char_plus c kb s = true -> is_Some (group_plus c k s).
Proof.
  intros Hk. induction s as [|a s IH]; cbn; [discriminate|].
  destruct (Ascii.eqb a c); [discriminate|].
  intros Hm. destruct (group_plus c k s) as [[g r]|]; [now eexists|].
  destruct (kb s) eqn:Hkb.
  - destruct (Hk s Hkb) as [r ->]. now eexists.
  - cbn in Hm. destruct (IH Hm) as [? [=]].
Qed.

  (** What the validator's pattern matches, the pattern with groups
      matches too. *)
Lemma groups_of_matches (tokens : list Re.Token) (s : string) :
  Re.matches tokens s = true -> is_Some (groups (with_groups tokens) s).
Proof.
  revert s. induction tokens as [|[text|c] tokens IH]; intros s.
  - cbn. intros ->. now eexists.
  - change (groups (with_groups (Re.Lit text :: tokens)) s)
      with (match Re.strip_prefix text s with
            | Some s' => groups (with_groups tokens) s'
            | None => None
            end).
    cbn [Re.matches].
    destruct (Re.strip_prefix text s); [apply IH|discriminate].
  - change (groups (with_groups (Re.NotChar1 c :: tokens)) s)
      with (match group_plus c (groups (with_groups tokens)) s with
            | Some (g, gs) => Some (g :: gs)
            | None => None
            end).
    cbn [Re.matches]. intros Hm.
    destruct (group_plus_of_not_char_plus c _ _ s IH Hm) as [[g gs] ->].
    now eexists.
Qed.

  (** The number of groups of a pattern. *)
Lemma groups_length (tokens : list Token) (s : string) (gs : list string) :
  groups tokens s = Some gs ->
  length gs
  = length (List.filter (fun t => match t with Group _ => true | _ => false end)
              tokens).
Proof.
  revert s gs. induction tokens as [|[text|c|text] tokens IH]; intros s gs; cbn.
  - destruct (Re.at_end s); [|discriminate]. now intros [= <-].
  - destruct (Re.strip_prefix text s); [apply IH|discriminate].
  - assert (forall s r, group_plus c (groups tokens) s = Some r ->
              length r.2 = length (List.filter
                (fun t => match t with Group _ => true | _ => false end)
                tokens)) as Hg.
    { clear s gs. induction s as [|a s IHs]; intros r; cbn; [discriminate|].
      destruct (Ascii.eqb a c); [discriminate|].
      destruct (group_plus c (groups tokens) s) as [[g r']|].
      - intros [= <-]. now apply (IHs (g, r')).
      - destruct (groups tokens s) as [r'|] eqn:Hr; [|discriminate].
        intros [= <-]. now apply (IH s). }
    destruct (group_plus c (groups tokens) s) as [[g r]|] eqn:Hgp;
      [|discriminate].
    intros [= <-]. cbn. f_equal. exact (Hg s (g, r) Hgp).
  - destruct (Re.strip_prefix text s) as [s'|]; [|apply IH].
    destruct (groups tokens s') as [gs'|] eqn:Hs'; [|apply IH].
    intros [= <-]. now apply (IH s').
Qed.

End ExtractFacts2.

Section ExtractFacts3.
  Import Py RepoInfo Grammar.

Lemma length_1 {A} (l : list A) : length l = 1%nat -> exists a, l = [a].
Proof. destruct l as [|a [|b l]]; try discriminate. now exists a. Qed.

Lemma length_2 {A} (l : list A) : length l = 2%nat -> exists a b, l = [a; b].
Proof. destruct l as [|a [|b [|c l]]]; try discriminate. now exists a, b. Qed.

Lemma github_loop_ok (pattern : list Token) (rest : list (list Token))
    (URL : string) (gs : list string) :
  groups pattern URL = Some gs -> length gs = 2%nat ->
  exists info, github_loop (pattern :: rest) URL = Return info /\ 整合 info.
Proof.
  intros Hg (a & b & ->)%length_2. cbn [github_loop]. rewrite Hg.
  now eexists.
Qed.

Lemma codecommit_loop_1 (pattern : list Token) (rest : list (list Token))
    (URL : string) (gs : list string) :
  groups pattern URL = Some gs -> length gs = 1%nat ->
  exists info, codecommit_loop (pattern :: rest) URL = Return info /\ 整合 info.
Proof.
  intros Hg (a & ->)%length_1. cbn [codecommit_loop]. rewrite Hg.
  now eexists.
Qed.

Lemma codecommit_loop_2 (pattern : list Token) (rest : list (list Token))
    (URL : string) (gs : list string) :
  groups pattern URL = Some gs -> length gs = 2%nat ->
  exists info, codecommit_loop (pattern :: rest) URL = Return info /\ 整合 info.
Proof.
  intros Hg (a & b & ->)%length_2. cbn [codecommit_loop]. rewrite Hg.
  destruct (PyStr.contains _ _); eexists; (split; [reflexivity|]);
    unfold 整合; cbn; now rewrite <- !append_assoc.
Qed.

Lemma codecommit_loop_skip (pattern : list Token) (rest : list (list Token))
    (URL : string) :
  groups pattern URL = None ->
  codecommit_loop (pattern :: rest) URL = codecommit_loop rest URL.
Proof. intros Hg. cbn [codecommit_loop]. now rewrite Hg. Qed.

End ExtractFacts3.

(** Every remote URL that the validator accepts for a provider can be
    taken apart: the extraction returns an owner and a name, and the full
    name is owner, slash, name. *)
Theorem validated_url_is_extractable (プロバイダー : Repo.リポジトリプロバイダー)
    (URL : string) :
  Repo.URL妥当性を検証 URL (Some プロバイダー) = Py.Return URL ->
  exists 情報,
    RepoInfo.URLからリポジトリ情報を抽出 URL プロバイダー = Py.Return 情報
    /\ RepoInfo.完全名 情報
       = RepoInfo.所有者 情報 ++ "/" ++ RepoInfo.リポジトリ名 情報.
Proof.
  unfold Repo.URL妥当性を検証, RepoInfo.URLからリポジトリ情報を抽出.
  destruct プロバイダー.
  - destruct (Re.match_any Repo.github_patterns URL) eqn:Hm; [|discriminate].
    intros _. unfold RepoInfo.github_patterns.
    destruct (RepoInfo.groups
                [RepoInfo.Lit "https://github.com/"; RepoInfo.Group "/";
                 RepoInfo.Lit "/"; RepoInfo.Group "/";
                 RepoInfo.OptLit ".git"; RepoInfo.OptLit "/"] URL)
      as [gs|] eqn:Hg.
    + eapply github_loop_ok; [exact Hg|].
      now rewrite (groups_length _ _ _ Hg).
    + change (RepoInfo.github_loop (?p :: ?rest) URL)
        with (match RepoInfo.groups p URL with
              | Some [所有者; リポジトリ名] =>
                  Py.Return
                    {| RepoInfo.所有者 := 所有者;
                       RepoInfo.リポジトリ名 :=
                         RepoInfo.replace ".git" "" リポジトリ名;
                       RepoInfo.完全名 :=
                         所有者 ++ "/" ++ RepoInfo.replace ".git" "" リポジトリ名 |}
              | Some _ => Py.Raise Py.ValueError
              | None => RepoInfo.github_loop rest URL
              end).
      rewrite Hg.
      assert (Re.matches [Re.Lit "git@github.com:"; Re.NotChar1 "/";
                          Re.Lit "/"; Re.NotChar1 "/"; Re.Lit ".git"] URL
              = true) as Hm3.
      { apply github_patterns_spec in Hm
          as (o & n & Ho & Hn & [->|[->| ->]]).
        - now rewrite (github_https_groups o n Ho Hn) in Hg.
        - apply matches_prefix_segment. exists o, (n ++ ".git").
          split; [exact Ho|]. split; [reflexivity|].
          apply matches_segment_suffix. exists n. split; [exact Hn|now left].
        - apply matches_prefix_segment.
          exists o, (n ++ ".git" ++ String "010" "").
          split; [exact Ho|]. split; [reflexivity|].
          apply matches_segment_suffix. exists n.
          split; [exact Hn|now right]. }
      destruct (groups_of_matches _ _ Hm3) as [gs' Hg'].
      eapply github_loop_ok; [exact Hg'|].
      now rewrite (groups_length _ _ _ Hg').
  - destruct (Re.match_any Repo.codecommit_patterns URL) eqn:Hm;
      [|discriminate].
    intros _. unfold Re.match_any, Repo.codecommit_patterns in Hm.
    cbn [existsb] in Hm. rewrite orb_false_r in Hm.
    unfold RepoInfo.codecommit_patterns.
    destruct (RepoInfo.groups [RepoInfo.Lit "codecommit://";
                               RepoInfo.Group "/"] URL) as [gs|] eqn:Hg1.
    { eapply codecommit_loop_1; [exact Hg1|].
      now rewrite (groups_length _ _ _ Hg1). }
    rewrite (codecommit_loop_skip _ _ _ Hg1).
    destruct (Re.matches [Re.Lit "codecommit://"; Re.NotChar1 "/"] URL)
      eqn:Hm1.
    { destruct (groups_of_matches _ _ Hm1) as [gs Hgs].
      change (RepoInfo.with_groups _) with
        [RepoInfo.Lit "codecommit://"; RepoInfo.Group "/"] in Hgs.
      congruence. }
    cbn [orb] in Hm.
    destruct (RepoInfo.groups [RepoInfo.Lit "codecommit::";
                               RepoInfo.Group ":"; RepoInfo.Lit "://";
                               RepoInfo.Group "/"] URL) as [gs|] eqn:Hg2.
    { eapply codecommit_loop_2; [exact Hg2|].
      now rewrite (groups_length _ _ _ Hg2). }
    rewrite (codecommit_loop_skip _ _ _ Hg2).
    destruct (Re.matches [Re.Lit "codecommit::"; Re.NotChar1 ":";
                          Re.Lit "://"; Re.NotChar1 "/"] URL) eqn:Hm2.
    { destruct (groups_of_matches _ _ Hm2) as [gs Hgs].
      change (RepoInfo.with_groups _) with
        [RepoInfo.Lit "codecommit::"; RepoInfo.Group ":";
         RepoInfo.Lit "://"; RepoInfo.Group "/"] in Hgs.
      congruence. }
    cbn [orb] in Hm.
    destruct (groups_of_matches _ _ Hm) as [gs Hgs].
    eapply codecommit_loop_2; [exact Hgs|].
    now rewrite (groups_length _ _ _ Hgs).
Qed.

Lemma validated_url_is_extractable_witness :
  exists 情報,
    RepoInfo.URLからリポジトリ情報を抽出 "codecommit::us-east-1://widgets"
      Repo.CODECOMMIT = Py.Return 情報
    /\ RepoInfo.完全名 情報
       = RepoInfo.所有者 情報 ++ "/" ++ RepoInfo.リポジトリ名 情報.
Proof.
  apply (validated_url_is_extractable Repo.CODECOMMIT
           "codecommit::us-east-1://widgets").
  reflexivity.
Defined.

(** ** Counting by provider *)

Section CountFacts.
  Import Py DynamoDB Manager Counts.

Lemma key_eq_refl (a : Value) : key_eq a a = true.
Proof. unfold key_eq. now apply bool_decide_eq_true_2. Qed.

Lemma key_eq_trans (a b c : Value) :
  key_eq a b = true -> key_eq b c = key_eq a c.
Proof.
  unfold key_eq. intros Hab%bool_decide_eq_true_1. now rewrite Hab.
Qed.

Lemma key_eq_sym (a b : Value) : key_eq a b = key_eq b a.
Proof. unfold key_eq. apply bool_decide_ext. split; congruence. Qed.

Lemma dict_get_set (d : Dict) (k k' : Value) (v z : Z) :
  dict_get (dict_set d k v) k' z
  = if key_eq k k' then v else dict_get d k' z.
Proof.
  induction d as [|[e w] d IH]; cbn.
  - now destruct (key_eq k k').
  - destruct (key_eq e k) eqn:Hek; cbn; [|rewrite IH];
      unfold key_eq in *; repeat case_bool_decide; congruence.
Qed.

Lemma total_set (d : Dict) (k : Value) :
  total (dict_set d k (dict_get d k 0 + 1)) = total d + 1.
Proof.
  induction d as [|[e w] d IH]; cbn; [lia|].
  destruct (key_eq e k); cbn; [lia|]. unfold total in IH. rewrite IH. lia.
Qed.

  (** What the loop adds to a dictionary: one to the total for every
      item, and for each key the number of items counted under it. *)
Lemma プロバイダー別に数える_spec (l : list (gmap string Value)) (d d' : Dict) :
  プロバイダー別に数える d l = Return d' ->
  total d' = total d + Z.of_nat (length l)
  /\ forall k,
       dict_get d' k 0
       = dict_get d k 0
         + Z.of_nat (length (List.filter (fun i => key_eq (集計キー i) k) l)).
Proof.
  revert d. induction l as [|i l IH]; intros d; cbn.
  - intros [= <-]. split; [lia|]. intros k. lia.
  - destruct (hashable _); [|discriminate]. intros Hd.
    apply IH in Hd as [Ht Hk]. rewrite total_set in Ht. split; [lia|].
    intros k. rewrite Hk, dict_get_set. fold (集計キー i).
    destruct (key_eq (集計キー i) k) eqn:Hik; cbn [length]; [|lia].
    assert (dict_get d (集計キー i) 0 = dict_get d k 0) as ->; [|lia].
    clear -Hik. induction d as [|[e w] d IHd]; cbn; [reflexivity|].
    rewrite IHd. unfold key_eq in *; repeat case_bool_decide; congruence.
Qed.

End CountFacts.

(** On a reachable table, when the count by provider returns, the table is
    unchanged, the counts add up to the number of records whose
    soft-delete flag is not [True], and the count under a provider name is
    the number of those records with that provider, a record without a
    provider counting as [unknown]. *)
Theorem provider_counts_add_up (t t' : DynamoDB.Table) (d : Counts.Dict) :
  Manager.正常 t ->
  Counts.プロバイダー別リポジトリ数を取得 t = (Py.Return d, t') ->
  t' = t
  /\ Counts.total d
     = Z.of_nat (length (List.filter
                           (DynamoDB.eval_filter Listing.未削除フィルター)
                           (DynamoDB.items t)))
  /\ forall p : string,
       Counts.dict_get d (Py.VStr p) 0
       = Z.of_nat
           (length (List.filter
                      (fun i => bool_decide
                                  (Py.get i "provider" (Py.VStr "unknown")
                                   = Py.VStr p))
                      (List.filter
                         (DynamoDB.eval_filter Listing.未削除フィルター)
                         (DynamoDB.items t)))).
Proof.
  intros Ht. unfold Counts.プロバイダー別リポジトリ数を取得, DynamoDB.try_except.
  cbv [mbind DynamoDB.M_bind mret DynamoDB.M_ret]; cbn beta iota.
  rewrite (スキャン実行_all _ None _ Ht). cbn [Notions.評価対象].
  match goal with
  | |- context [DynamoDB.lift ?x] =>
      destruct (lift_cases x t) as [(d0 & Hd & ->)|(e & _ & ->)]
  end; [|discriminate].
  intros [= <- <-]. apply プロバイダー別に数える_spec in Hd as [Htot Hk].
  split; [reflexivity|]. split; [exact Htot|].
  intros p. rewrite Hk. cbn [Counts.dict_get]. rewrite Z.add_0_l.
  do 2 f_equal. apply filter_ext. intros i.
  unfold Counts.key_eq, Counts.集計キー. apply bool_decide_ext.
  destruct (Py.get i "provider" (Py.VStr "unknown")); cbn;
    split; congruence.
Qed.

Lemma provider_counts_add_up_witness :
  exists d,
    (Counts.プロバイダー別リポジトリ数を取得 Sample.二件のテーブル).1
    = Py.Return d
    /\ Counts.dict_get d (Py.VStr "github") 0 = 2.
Proof.
  destruct (Counts.プロバイダー別リポジトリ数を取得 Sample.二件のテーブル)
    as [[d|e] t'] eqn:E; [|exfalso; vm_compute in E; discriminate].
  exists d. split; [reflexivity|].
  destruct (provider_counts_add_up Sample.二件のテーブル t' d) as (_ & _ & Hp);
    [split; reflexivity|exact E|].
  rewrite Hp. reflexivity.
Defined.
